(** * MCP servers benchmark: a shallow embedding and its verified properties

    The development follows the repository's layout:
    - [JS]: the JavaScript values and string operations the k6 script and the
      Node.js server rely on;
    - [Decoder]: [parseBody] of [benchmark/benchmark.js];
    - [K6]: the session driver, the scenario table, the virtual-user iteration
      and the summary of [benchmark/benchmark.js];
    - [Servers]: the tool handlers of the Go, Node.js and Java servers;
    - [Orchestrator]: [benchmark/run_benchmark.sh].

    Part I holds the models, Part II the theorems. *)

From Stdlib Require Import ZArith List String Ascii Bool Lia QArith Permutation.
From Stdlib Require Import Numbers.DecimalString.
From Equations Require Import Equations.
Import ListNotations.

Set Warnings "-register-all".

Open Scope string_scope.
Open Scope Z_scope.

(* ===================================================================== *)
(** * Part I.  Models                                                     *)
(* ===================================================================== *)

(* --------------------------------------------------------------------- *)
(** ** JavaScript values and strings                                      *)
(* --------------------------------------------------------------------- *)
Module JS.

(** The values a decoded JSON document is made of, plus [undefined], which
    JSON never carries but every missing property evaluates to.  Numbers are
    the integer-valued ones (all the benchmark's payloads and checks use);
    an object is the list of its own properties, in the order
    [Object.entries] lists them. *)
Inductive value : Type :=
| JUndefined
| JNull
| JBool (b : bool)
| JNum (z : Z)
| JStr (s : string)
| JArr (items : list value)
| JObj (fields : list (string * value)).

(** ToBoolean. *)
Definition truthy (v : value) : bool :=
  match v with
  | JUndefined | JNull => false
  | JBool b => b
  | JNum z => negb (z =? 0)
  | JStr s => negb (s =? "")%string
  | JArr _ | JObj _ => true
  end.

Fixpoint lookup {A : Type} (k : string) (fields : list (string * A)) : option A :=
  match fields with
  | [] => None
  | (k', v) :: rest => if (k =? k')%string then Some v else lookup k rest
  end.

(** [v.k] for a property name [k] that is neither an array index nor
    [length], and that no prototype defines (true of every name the benchmark
    reads: result, error, content, text, tools, transformed_data, name).
    [None] is the TypeError of reading a property of [undefined] or [null]. *)
Definition get (v : value) (k : string) : option value :=
  match v with
  | JUndefined | JNull => None
  | JObj fields =>
      Some (match lookup k fields with Some x => x | None => JUndefined end)
  | JBool _ | JNum _ | JStr _ | JArr _ => Some JUndefined
  end.

Definition index_key (i : nat) : string :=
  NilEmpty.string_of_uint (Nat.to_uint i).

(** [v[i]] for a literal index [i]: the element of an array, the one-character
    string of a string (of which the checks use no more than that it is a
    string), the property named by the decimal of [i] of an object. *)
Definition get_index (v : value) (i : nat) : option value :=
  match v with
  | JUndefined | JNull => None
  | JArr items => Some (nth i items JUndefined)
  | JStr s =>
      Some (match String.get i s with
            | Some c => JStr (String c "")
            | None => JUndefined
            end)
  | JObj fields =>
      Some (match lookup (index_key i) fields with
            | Some x => x
            | None => JUndefined
            end)
  | JBool _ | JNum _ => Some JUndefined
  end.

(** [v === n] and [v === s] against a number or string literal. *)
Definition strict_eq_num (v : value) (n : Z) : bool :=
  match v with JNum z => z =? n | _ => false end.

Definition strict_eq_str (v : value) (s : string) : bool :=
  match v with JStr t => (t =? s)%string | _ => false end.

(** *** Strings.  A string is the sequence of the bytes of its UTF-8
    encoding.  The operations the script uses cut a string at ASCII
    characters only (a newline, the marker [data:]), so that bytes and
    UTF-16 code units give the same pieces. *)
Definition bytes (codes : list nat) : string :=
  fold_right (fun n s => String (ascii_of_nat n) s) EmptyString codes.

(** The characters [trim] strips: ECMAScript's WhiteSpace (TAB, VT, FF, the
    byte order mark U+FEFF and the space separators) and LineTerminator (LF,
    CR, U+2028, U+2029), each by its UTF-8 encoding. *)
Definition white_space : list string :=
  Eval cbv in
    map bytes
      ([[9]; [10]; [11]; [12]; [13]; [32];
       [194; 160];
       [225; 154; 128];
       [226; 128; 128]; [226; 128; 129]; [226; 128; 130]; [226; 128; 131];
       [226; 128; 132]; [226; 128; 133]; [226; 128; 134]; [226; 128; 135];
       [226; 128; 136]; [226; 128; 137]; [226; 128; 138];
       [226; 128; 168]; [226; 128; 169];
       [226; 128; 175];
       [226; 129; 159];
       [227; 128; 128];
       [239; 187; 191]])%nat.

(** [s] is one white-space character. *)
Definition is_white (s : string) : bool := existsb (String.eqb s) white_space.

(** [c] is the first byte of a white-space character. *)
Definition leads (c : ascii) : bool :=
  existsb (fun w => match w with
                    | String a _ => Ascii.eqb a c
                    | EmptyString => false
                    end) white_space.

Definition newline : ascii := ascii_of_nat 10.

Definition is_empty (s : string) : bool :=
  match s with EmptyString => true | String _ _ => false end.

(** [s.trimStart()]: white-space characters, of one to three bytes, are
    dropped from the front as long as there is one. *)
Fixpoint trimStart (s : string) : string :=
  match s with
  | EmptyString => EmptyString
  | String a rest1 =>
      if is_white (String a EmptyString) then trimStart rest1
      else if leads a then
        match rest1 with
        | String b rest2 =>
            if is_white (String a (String b EmptyString)) then trimStart rest2
            else
              match rest2 with
              | String c rest3 =>
                  if is_white (String a (String b (String c EmptyString)))
                  then trimStart rest3
                  else s
              | EmptyString => s
              end
        | EmptyString => s
        end
      else s
  end.

(** [s.trimEnd()]: once the rest is trimmed, what is kept from [c] on is
    dropped when it is nothing but one white-space character. *)
Fixpoint trimEnd (s : string) : string :=
  match s with
  | EmptyString => EmptyString
  | String c rest =>
      let kept := String c (trimEnd rest) in
      if is_white kept then EmptyString else kept
  end.

(** [s.trim()]. *)
Definition trim (s : string) : string := trimStart (trimEnd s).

(** [s.startsWith(p)]. *)
Definition startsWith (s p : string) : bool := String.prefix p s.

(** [s.substring(n)]. *)
Fixpoint substring_from (n : nat) (s : string) : string :=
  match n, s with
  | O, _ => s
  | S n', String _ rest => substring_from n' rest
  | S _, EmptyString => EmptyString
  end.

(** [s.split('\n')]: never empty, the empty string splits into one empty line. *)
Fixpoint split_lines (s : string) : list string :=
  match s with
  | EmptyString => [EmptyString]
  | String c rest =>
      if Ascii.eqb c newline then EmptyString :: split_lines rest
      else match split_lines rest with
           | line :: more => String c line :: more
           | [] => [String c EmptyString]
           end
  end.

(** Upper-casing of the letters a to z, every other byte kept: what the
    upper-casing functions of JavaScript, Go and Java agree on, on ASCII
    text. *)
Definition upper_char (c : ascii) : ascii :=
  let n := nat_of_ascii c in
  if (Nat.leb 97 n && Nat.leb n 122)%bool then ascii_of_nat (n - 32) else c.

Fixpoint upper_ascii (s : string) : string :=
  match s with
  | EmptyString => EmptyString
  | String c rest => String (upper_char c) (upper_ascii rest)
  end.

(** The text holds ASCII characters only. *)
Fixpoint ascii_only (s : string) : bool :=
  match s with
  | EmptyString => true
  | String c rest => Nat.ltb (nat_of_ascii c) 128 && ascii_only rest
  end.

(** [s.toUpperCase()]: the locale-insensitive upper-casing of Unicode, of
    which the script and the server rely on the ASCII part ("straße" becomes
    "STRASSE", a change of length no byte-wise function makes). *)
Class StringLib : Type := {
  toUpperCase : string -> string;
  toUpperCase_ascii : forall s, ascii_only s = true -> toUpperCase s = upper_ascii s
}.

(** The two library functions of the [JSON] object.  [JSON_parse] takes any
    value (it converts its argument to a string first) and [None] is the
    SyntaxError it throws. *)
Class JSONLib : Type := {
  JSON_parse : value -> option value;
  JSON_stringify : value -> string
}.

End JS.
Import JS.

(* --------------------------------------------------------------------- *)
(** ** Response decoder (benchmark.js, parseBody)                         *)
(* --------------------------------------------------------------------- *)
Module Decoder.
Section WithJSON.
Context {json : JSONLib}.

(** [try { return JSON.parse(s) } catch (e) { }]: [None] falls through. *)
Definition try_parse (s : string) : option value := JSON_parse (JStr s).

(** The [for (const line of lines)] loop; [JNull] is the [return null]
    after it. *)
Fixpoint parseBody_lines (lines : list string) : value :=
  match lines with
  | [] => JNull
  | line :: rest =>
      let trimmed := trim line in
      if startsWith trimmed "data:" then
        let payload := trim (substring_from 5 trimmed) in
        if negb (is_empty payload) && startsWith payload "{" then
          match try_parse payload with
          | Some v => v
          | None => parseBody_lines rest
          end
        else parseBody_lines rest
      else parseBody_lines rest
  end.

(** [parseBody(body)]; [None] is a [null] body. *)
Definition parseBody (body : option string) : value :=
  match body with
  | None => JNull
  | Some b =>
      if is_empty b then JNull
      else
        let text := trim b in
        if Nat.eqb (String.length text) 0 then JNull
        else
          let direct :=
            if startsWith text "{" || startsWith text "[" then try_parse text
            else None in
          match direct with
          | Some v => v
          | None => parseBody_lines (split_lines text)
          end
  end.

(** The decoding policy in the specification's words, to compare with
    [parseBody]: a direct parse of the trimmed body when it opens an object
    or array, else the first data frame of the body that parses. *)
Definition spec_direct (b : string) : option value :=
  let t := trim b in
  if startsWith t "{" || startsWith t "[" then JSON_parse (JStr t) else None.

Definition spec_frame (line : string) : option value :=
  let t := trim line in
  if startsWith t "data:" then
    let rest := trim (substring_from 5 t) in
    if startsWith rest "{" then JSON_parse (JStr rest) else None
  else None.

Fixpoint first_some {A B : Type} (f : A -> option B) (l : list A) : option B :=
  match l with
  | [] => None
  | x :: rest => match f x with Some y => Some y | None => first_some f rest end
  end.

Definition spec_decode (body : option string) : value :=
  match body with
  | None => JNull
  | Some b =>
      match spec_direct b with
      | Some v => v
      | None =>
          match first_some spec_frame (split_lines b) with
          | Some v => v
          | None => JNull
          end
      end
  end.

End WithJSON.
End Decoder.

(* --------------------------------------------------------------------- *)
(** ** The k6 script (benchmark/benchmark.js)                             *)
(* --------------------------------------------------------------------- *)
Module K6.

(** What the script reads of a k6 HTTP response. *)
Record Response : Type := {
  status : Z;
  body : option string;
  headers : list (string * string);
  timings_duration : Q
}.

(** The params object of a k6 HTTP call. *)
Record Params : Type := {
  p_headers : list (string * string);
  p_timeout : string;
  p_tags : list (string * string)
}.

(** The calls a virtual user makes, in the order it makes them.  A POST is
    logged with the object whose [JSON.stringify] is the body sent. *)
Inductive Event : Type :=
| HttpPost (url : string) (payload : value) (params : Params)
| HttpDel (url : string) (params : Params)
| Sleep (seconds : Q).

(** The samples a virtual user hands to the k6 engine. *)
Inductive Sample : Type :=
| TrendAdd (metric : string) (v : Q)
| CounterAdd (metric : string) (n : Z)
| RateAdd (metric : string) (b : bool)
| Check (name : string) (pass : bool).

(** One metric of the end-of-run data k6 passes to [handleSummary]:
    [data.metrics[name].values] and the outcome of its thresholds. *)
Record MetricData : Type := {
  values : list (string * Q);
  thresholds : list (string * bool)
}.

Definition SummaryData : Type := list (string * MetricData).

(** What the script takes from its runtime: the k6 HTTP module over some
    world (network, target server, clock), [sleep], [__ENV], the clock and the
    text summary of jslib. *)
Class Runtime : Type := {
  World : Type;
  http_post : string -> string -> Params -> World -> Response * World;
  http_del : string -> Params -> World -> Response * World;
  Date_now : World -> Z;
  Date_toISOString : World -> string;
  sleep : Q -> World -> World;
  ENV : string -> option string;
  textSummary : SummaryData -> string
}.

Section Script.
Context {json : JSONLib} {rt : Runtime}.

(** [__ENV.X || fallback]. *)
Definition env_or (name fallback : string) : string :=
  match ENV name with
  | Some s => if is_empty s then fallback else s
  | None => fallback
  end.

Definition SERVER_URL : string := env_or "SERVER_URL" "http://localhost:8080/mcp".
Definition SERVER_NAME : string := env_or "SERVER_NAME" "unknown".

(** *** Custom metrics *)
Definition initDuration : string := "mcp_initialize_duration".
Definition toolsListDuration : string := "mcp_tools_list_duration".
Definition fibDuration : string := "mcp_fibonacci_duration".
Definition fetchDuration : string := "mcp_fetch_duration".
Definition jsonDuration : string := "mcp_json_process_duration".
Definition dbDuration : string := "mcp_db_query_duration".
Definition sessionDuration : string := "mcp_full_session_duration".
Definition mcpErrors : string := "mcp_errors".
Definition mcpRequests : string := "mcp_requests".
Definition mcpErrorRate : string := "mcp_error_rate".

(** *** The state of one virtual user and its monad: state passing, with
    [None] for an exception that escapes the running function. *)
Record VU : Type := {
  world : World;
  samples : list Sample;
  trace : list Event
}.

Definition M (A : Type) : Type := VU -> option A * VU.

Definition ret {A} (a : A) : M A := fun s => (Some a, s).
Definition throw {A} : M A := fun s => (None, s).
Definition bind {A B} (m : M A) (k : A -> M B) : M B :=
  fun s => match m s with
           | (Some a, s') => k a s'
           | (None, s') => (None, s')
           end.

Notation "x <- m ;; k" := (bind m (fun x => k))
  (at level 61, m at next level, right associativity).
Notation "m ;;; k" := (bind m (fun _ => k))
  (at level 61, right associativity).

Definition emit (x : Sample) : M unit :=
  fun s => (Some tt, {| world := world s; samples := samples s ++ [x]; trace := trace s |}).

Definition log (e : Event) (s : VU) (w : World) : VU :=
  {| world := w; samples := samples s; trace := trace s ++ [e] |}.

(** [http.post(url, JSON.stringify(payload), params)]. *)
Definition post (url : string) (payload : value) (params : Params) : M Response :=
  fun s => let (res, w) := http_post url (JSON_stringify payload) params (world s) in
           (Some res, log (HttpPost url payload params) s w).

(** [http.del(url, null, params)]. *)
Definition del (url : string) (params : Params) : M Response :=
  fun s => let (res, w) := http_del url params (world s) in
           (Some res, log (HttpDel url params) s w).

Definition now : M Z := fun s => (Some (Date_now (world s)), s).

Definition pause (seconds : Q) : M unit :=
  fun s => (Some tt, log (Sleep seconds) s (sleep seconds (world s))).

(** An expression that may throw, run inside the monad. *)
Definition eval {A} (e : option A) : M A :=
  match e with Some a => ret a | None => throw end.

(** *** Helpers *)
Definition BASE_HEADERS : list (string * string) :=
  [("Content-Type", "application/json");
   ("Accept", "application/json, text/event-stream")].

(** [if (sessionId)]: a session id is [null] ([None]) or a string. *)
Definition has_session (sessionId : option string) : bool :=
  match sessionId with Some s => negb (is_empty s) | None => false end.

(** [Object.assign({}, BASE_HEADERS)] followed by
    [if (sessionId) headers['Mcp-Session-Id'] = sessionId]. *)
Definition with_session (sessionId : option string) : list (string * string) :=
  match sessionId with
  | Some s => if is_empty s then BASE_HEADERS
              else BASE_HEADERS ++ [("Mcp-Session-Id", s)]
  | None => BASE_HEADERS
  end.

(** [res.headers['Mcp-Session-Id'] || sessionId]. *)
Definition new_session (res : Response) (sessionId : option string) : option string :=
  match lookup "Mcp-Session-Id" (headers res) with
  | Some h => if is_empty h then sessionId else Some h
  | None => sessionId
  end.

Record PostResult : Type := {
  pr_res : Response;
  pr_result : value;
  pr_sessionId : option string
}.

Definition mcpPost (payload : value) (sessionId : option string) : M PostResult :=
  let headers := with_session sessionId in
  res <- post SERVER_URL payload
           {| p_headers := headers; p_timeout := "15s"; p_tags := [] |} ;;
  emit (CounterAdd mcpRequests 1) ;;;
  let newSessionId := new_session res sessionId in
  let result := Decoder.parseBody (body res) in
  ret {| pr_res := res; pr_result := result; pr_sessionId := newSessionId |}.

(** *** Request payloads *)
Definition initialize_payload : value :=
  JObj [("jsonrpc", JStr "2.0"); ("id", JNum 1); ("method", JStr "initialize");
        ("params", JObj [("protocolVersion", JStr "2024-11-05");
                         ("capabilities", JObj []);
                         ("clientInfo", JObj [("name", JStr "k6-bench");
                                              ("version", JStr "1.0")])])].

Definition initialized_payload : value :=
  JObj [("jsonrpc", JStr "2.0"); ("method", JStr "notifications/initialized")].

Definition call_payload (toolName : string) (toolArgs : value) : value :=
  JObj [("jsonrpc", JStr "2.0"); ("id", JNum 2); ("method", JStr "tools/call");
        ("params", JObj [("name", JStr toolName); ("arguments", toolArgs)])].

Definition list_payload : value :=
  JObj [("jsonrpc", JStr "2.0"); ("id", JNum 2); ("method", JStr "tools/list");
        ("params", JObj [])].

Definition notify_params (sessionId : option string) : Params :=
  {| p_headers := with_session sessionId; p_timeout := "5s"; p_tags := [] |}.

Definition delete_params (sessionId : string) : Params :=
  {| p_headers := [("Mcp-Session-Id", sessionId)];
     p_timeout := "2s";
     p_tags := [("name", "session_cleanup")] |}.

(** [if (sessionId) http.del(...)]: the response is dropped. *)
Definition close_session (sessionId : option string) : M unit :=
  match sessionId with
  | Some s => if is_empty s then ret tt
              else del SERVER_URL (delete_params s) ;;; ret tt
  | None => ret tt
  end.

(** [!callResult || callResult.error || !callResult.result], as the [if]
    that follows reads it. *)
Definition isError (callResult : value) : option bool :=
  if negb (truthy callResult) then Some true
  else match get callResult "error" with
       | None => None
       | Some e =>
           if truthy e then Some true
           else match get callResult "result" with
                | None => None
                | Some r => Some (negb (truthy r))
                end
       end.

Record SessionResult : Type := {
  initRes : Response;
  callRes : Response;
  callResult : value;
  totalDuration : Z;
  sessionId : option string
}.

Definition mcpSession (toolName : string) (toolArgs : value) : M SessionResult :=
  start <- now ;;
  (* 1. Initialize *)
  init <- mcpPost initialize_payload None ;;
  let sessionId := pr_sessionId init in
  (* 2. notifications/initialized *)
  post SERVER_URL initialized_payload (notify_params sessionId) ;;;
  (* 3. Tool call *)
  call <- mcpPost (call_payload toolName toolArgs) sessionId ;;
  finish <- now ;;
  let totalDuration := finish - start in
  (* 4. Close session *)
  close_session sessionId ;;;
  (* Track errors *)
  err <- eval (isError (pr_result call)) ;;
  (if err : bool
   then emit (CounterAdd mcpErrors 1) ;;; emit (RateAdd mcpErrorRate true)
   else emit (RateAdd mcpErrorRate false)) ;;;
  ret {| initRes := pr_res init; callRes := pr_res call;
         callResult := pr_result call; totalDuration := totalDuration;
         sessionId := sessionId |}.

(** *** Tool definitions *)
Record Tool : Type := {
  name : string;
  args : value;
  metric : string;
  checkName : string;
  check : value -> option value
}.

(** [!r || !r.result || !r.result.content]. *)
Definition content_missing (r : value) : option bool :=
  if negb (truthy r) then Some true
  else match get r "result" with
       | None => None
       | Some res =>
           if negb (truthy res) then Some true
           else match get res "content" with
                | None => None
                | Some c => Some (negb (truthy c))
                end
       end.

Definition obind {A B} (o : option A) (k : A -> option B) : option B :=
  match o with Some a => k a | None => None end.

Notation "'let?' x := o 'in' k" := (obind o (fun x => k))
  (at level 10, x name, o at level 100, k at level 200).

(** [JSON.parse(r.result.content[0].text)]; [None] when an access or the
    parse throws. *)
Definition parsed_text (r : value) : option value :=
  let? res := get r "result" in
  let? content := get res "content" in
  let? first := get_index content 0 in
  let? text := get first "text" in
  JSON_parse text.

(** [try { return e } catch { return false }]. *)
Definition or_false (e : option value) : value :=
  match e with Some v => v | None => JBool false end.

Definition fibonacci_check (r : value) : option value :=
  let? missing := content_missing r in
  if missing : bool then Some (JBool false)
  else Some (or_false (let? doc := parsed_text r in
                       let? result := get doc "result" in
                       Some (JBool (strict_eq_num result 55)))).

(** [r && r.result && r.result.content]. *)
Definition content_check (r : value) : option value :=
  if truthy r then
    let? res := get r "result" in
    if truthy res then get res "content" else Some res
  else Some r.

Definition json_process_check (r : value) : option value :=
  let? missing := content_missing r in
  if missing : bool then Some (JBool false)
  else Some (or_false (let? doc := parsed_text r in
                       let? data := get doc "transformed_data" in
                       let? name := get data "name" in
                       Some (JBool (strict_eq_str name "BENCHMARK")))).

Definition fibonacci_tool : Tool :=
  {| name := "calculate_fibonacci";
     args := JObj [("n", JNum 10)];
     metric := fibDuration;
     checkName := "fibonacci ok";
     check := fibonacci_check |}.

Definition fetch_tool : Tool :=
  {| name := "fetch_external_data";
     args := JObj [("endpoint", JStr "http://mock-api:1080/api")];
     metric := fetchDuration;
     checkName := "fetch ok";
     check := content_check |}.

Definition json_process_tool : Tool :=
  {| name := "process_json_data";
     args := JObj [("data", JObj [("name", JStr "benchmark");
                                  ("count", JNum 42);
                                  ("nested", JObj [("key", JStr "value")])])];
     metric := jsonDuration;
     checkName := "json_process ok";
     check := json_process_check |}.

Definition db_query_tool : Tool :=
  {| name := "simulate_database_query";
     args := JObj [("query", JStr "SELECT * FROM benchmarks"); ("delay_ms", JNum 10)];
     metric := dbDuration;
     checkName := "db_query ok";
     check := content_check |}.

Definition TOOLS : list Tool :=
  [fibonacci_tool; fetch_tool; json_process_tool; db_query_tool].

(** k6's [check(val, { [name]: fn })]: [fn(val)] is called and its
    truthiness recorded; an exception of [fn] escapes. *)
Definition k6_check (val : value) (name : string) (fn : value -> option value) : M unit :=
  v <- eval (fn val) ;;
  emit (Check name (truthy v)).

(** *** Main test function *)

(** The body of [for (const tool of TOOLS)]. *)
Definition run_tool (tool : Tool) : M unit :=
  out <- mcpSession (name tool) (args tool) ;;
  (* Record metrics *)
  emit (TrendAdd initDuration (timings_duration (initRes out))) ;;;
  emit (TrendAdd (metric tool) (timings_duration (callRes out))) ;;;
  emit (TrendAdd sessionDuration (inject_Z (totalDuration out))) ;;;
  (* Validate *)
  k6_check (callResult out) (checkName tool) (check tool).

Fixpoint for_each {A} (l : list A) (f : A -> M unit) : M unit :=
  match l with
  | [] => ret tt
  | x :: rest => f x ;;; for_each rest f
  end.

(** [(r) => r && r.result && r.result.tools]. *)
Definition tools_list_check (r : value) : option value :=
  if truthy r then
    let? res := get r "result" in
    if truthy res then get res "tools" else Some res
  else Some r.

(** The block that benchmarks tools/list in its own session. *)
Definition tools_list_session : M unit :=
  init <- mcpPost initialize_payload None ;;
  let sessionId := pr_sessionId init in
  post SERVER_URL initialized_payload (notify_params sessionId) ;;;
  list <- mcpPost list_payload sessionId ;;
  emit (TrendAdd toolsListDuration (timings_duration (pr_res list))) ;;;
  k6_check (pr_result list) "tools/list ok" tools_list_check ;;;
  (* Close session *)
  close_session sessionId.

(** [export default function ()]: one iteration of a virtual user. *)
Definition default_function : M unit :=
  for_each TOOLS run_tool ;;;
  tools_list_session ;;;
  pause (1 # 10).

(** [n] iterations in a row, as the k6 engine runs them for one virtual
    user: an exception ends the iteration it escapes from, not the loop. *)
Fixpoint iterations (n : nat) (s : VU) : VU :=
  match n with
  | O => s
  | S n' => iterations n' (snd (default_function s))
  end.

(** *** Options.  A threshold expression is kept as k6 parses it:
    ['rate<0.05'] is the aggregation [rate], the operator [<] and the bound. *)
Record Stage : Type := { duration : string; target : Z }.

Inductive Comparison : Type := LessThan | LessEqual | GreaterThan | GreaterEqual.

Record Threshold : Type := {
  aggregation : string;
  comparison : Comparison;
  bound : Q
}.

Record Options : Type := {
  stages : list Stage;
  thresholds_of : list (string * list Threshold)
}.

Definition options : Options :=
  {| stages := [ {| duration := "10s"; target := 50 |};
                 {| duration := "5m"; target := 50 |};
                 {| duration := "10s"; target := 0 |} ];
     thresholds_of :=
       [("http_req_failed",
         [ {| aggregation := "rate"; comparison := LessThan; bound := 5 # 100 |} ])] |}.

(** How the k6 engine settles a run: a threshold holds when the metric's
    aggregated value compares as stated, and the run is marked failed as soon
    as one threshold does not hold. *)
Definition compare (c : Comparison) (x y : Q) : bool :=
  match c with
  | LessThan => negb (Qle_bool y x)
  | LessEqual => Qle_bool x y
  | GreaterThan => negb (Qle_bool x y)
  | GreaterEqual => Qle_bool y x
  end.

Definition threshold_holds (data : SummaryData) (metric : string) (t : Threshold) : bool :=
  match lookup metric data with
  | Some m =>
      match lookup (aggregation t) (values m) with
      | Some x => compare (comparison t) x (bound t)
      | None => false
      end
  | None => false
  end.

Definition run_failed (o : Options) (data : SummaryData) : bool :=
  existsb (fun '(metric, ts) => existsb (fun t => negb (threshold_holds data metric t)) ts)
          (thresholds_of o).

(** *** Custom summary *)

(** A property of the summary: a number, or what a failed read leaves. *)
Inductive Field : Type :=
| FUndefined
| FNull
| FNum (q : Q).

Definition read (m : MetricData) (key : string) : Field :=
  match lookup key (values m) with Some q => FNum q | None => FUndefined end.

(** [try { return data.metrics[metric].values[key]; } catch { return fallback; }] *)
Definition getValue (data : SummaryData) (metric key : string) (fallback : Field) : Field :=
  match lookup metric data with
  | Some m => read m key
  | None => fallback
  end.

(** [try { return data.metrics[metric].values[`p(${p})`]; } catch { return null; }] *)
Definition getPercentile (data : SummaryData) (metric p : string) : Field :=
  match lookup metric data with
  | Some m => read m ("p(" ++ p ++ ")")
  | None => FNull
  end.

Record TrendSummary : Type := {
  t_avg : Field; t_min : Field; t_max : Field;
  t_p50 : Field; t_p90 : Field; t_p95 : Field; t_p99 : Field;
  t_count : Field
}.

(** [extractTrend(data, name)]; [None] is [null]. *)
Definition extractTrend (data : SummaryData) (name : string) : option TrendSummary :=
  match lookup name data with
  | None => None
  | Some m =>
      Some {| t_avg := read m "avg"; t_min := read m "min"; t_max := read m "max";
              t_p50 := read m "p(50)"; t_p90 := read m "p(90)";
              t_p95 := read m "p(95)"; t_p99 := read m "p(99)";
              t_count := read m "count" |}
  end.

Record Config : Type := { vus : Z; config_duration : string; server_url : string }.

Record Latency : Type := {
  avg : Field; min : Field; max : Field;
  p50 : Field; p90 : Field; p95 : Field; p99 : Field
}.

Record HttpSummary : Type := {
  total_requests : Field;
  failed_requests : Field;
  rps : Field;
  latency : Latency
}.

Record McpSummary : Type := {
  total_mcp_requests : Field;
  mcp_errors : Field;
  error_rate : Field
}.

Record Summary : Type := {
  server : string;
  timestamp : string;
  config : Config;
  http : HttpSummary;
  mcp : McpSummary;
  session : option TrendSummary;
  tools : list (string * TrendSummary)
}.

Definition toolMetrics : list (string * string) :=
  [("calculate_fibonacci", "mcp_fibonacci_duration");
   ("fetch_external_data", "mcp_fetch_duration");
   ("process_json_data", "mcp_json_process_duration");
   ("simulate_database_query", "mcp_db_query_duration");
   ("_initialize", "mcp_initialize_duration");
   ("_tools_list", "mcp_tools_list_duration")].

(** The loop [for (const [toolName, metricName] of Object.entries(toolMetrics))]. *)
Fixpoint collect_tools (data : SummaryData) (entries : list (string * string))
  : list (string * TrendSummary) :=
  match entries with
  | [] => []
  | (toolName, metricName) :: rest =>
      match extractTrend data metricName with
      | Some t => (toolName, t) :: collect_tools data rest
      | None => collect_tools data rest
      end
  end.

(** The [summary] object of [handleSummary]. *)
Definition build_summary (w : World) (data : SummaryData) : Summary :=
  {| server := SERVER_NAME;
     timestamp := Date_toISOString w;
     config := {| vus := 50; config_duration := "5m"; server_url := SERVER_URL |};
     http :=
       {| total_requests := getValue data "http_reqs" "count" (FNum 0);
          failed_requests := getValue data "http_req_failed" "passes" (FNum 0);
          rps := getValue data "http_reqs" "rate" (FNum 0);
          latency :=
            {| avg := getValue data "http_req_duration" "avg" FUndefined;
               min := getValue data "http_req_duration" "min" FUndefined;
               max := getValue data "http_req_duration" "max" FUndefined;
               p50 := getPercentile data "http_req_duration" "50";
               p90 := getPercentile data "http_req_duration" "90";
               p95 := getPercentile data "http_req_duration" "95";
               p99 := getPercentile data "http_req_duration" "99" |} |};
     mcp :=
       {| total_mcp_requests := getValue data "mcp_requests" "count" (FNum 0);
          mcp_errors := getValue data "mcp_errors" "count" (FNum 0);
          error_rate := getValue data "mcp_error_rate" "rate" (FNum 0) |};
     session := extractTrend data "mcp_full_session_duration";
     tools := collect_tools data toolMetrics |}.

Definition outputPath : string :=
  env_or "OUTPUT_PATH" ("results/" ++ SERVER_NAME ++ "_k6.json").

(** [obj[k] = v] on an object kept as its list of properties. *)
Fixpoint set_property {A} (k : string) (v : A) (fields : list (string * A))
  : list (string * A) :=
  match fields with
  | [] => [(k, v)]
  | (k', v') :: rest =>
      if (k =? k')%string then (k, v) :: rest else (k', v') :: set_property k v rest
  end.

(** [handleSummary(data)], given [JSON.stringify(summary, null, 2)] as
    [stringify]: the object of output names and contents. *)
Definition handleSummary (stringify : Summary -> string) (w : World) (data : SummaryData)
  : list (string * string) :=
  let summary := build_summary w data in
  set_property "stdout" (textSummary data)
    (set_property outputPath (stringify summary) []).

End Script.
End K6.

(* --------------------------------------------------------------------- *)
(** ** The tool handlers of the target servers                            *)
(* --------------------------------------------------------------------- *)
Module Servers.

(** A handler returns its output or fails with a message (a Go [error], a
    thrown JavaScript [Error], a Java [IllegalArgumentException]). *)
Inductive result (A : Type) : Type :=
| Success (a : A)
| Failure (message : string).
Arguments Success {A} a.
Arguments Failure {A} message.

(** Two's-complement wrap-around of a [bits]-wide signed integer. *)
Definition wrap (bits : Z) (z : Z) : Z :=
  (z + 2 ^ (bits - 1)) mod 2 ^ bits - 2 ^ (bits - 1).

(** The doubly recursive Fibonacci both the Go and the Java server use,
    over signed integers whose addition wraps at [bits] bits. *)
Equations? fib_rec (bits : Z) (x : Z) : Z by wf (Z.to_nat x) lt :=
  fib_rec bits x with Z_le_gt_dec x 1 => {
    | left _ => x;
    | right _ => wrap bits (fib_rec bits (x - 1) + fib_rec bits (x - 2)) }.
Proof. all: lia. Qed.

(** *** Go server (main.go) *)
Module Go.

Record FibonacciArgs : Type := { N : Z }.

Record FibonacciOutput : Type := {
  Input : Z;
  Result : Z;
  ServerType : string
}.

(** The closure [fib] of [handleFibonacci], on Go's 64-bit [int]. *)
Definition fib (x : Z) : Z := fib_rec 64 x.

Definition handleFibonacci (args : FibonacciArgs) : result FibonacciOutput :=
  if (N args <? 0) || (N args >? 40) then Failure "n deve estar entre 0 e 40"
  else Success {| Input := N args; Result := fib (N args); ServerType := "go" |}.

(** What the transform takes from Go's library and runtime:
    [strings.ToUpper], of which the ASCII part is relied on, and the order in
    which a [range] loop visits the entries of a map, which the runtime picks
    and the language leaves open. *)
Class Library : Type := {
  ToUpper : string -> string;
  ToUpper_ascii : forall s, ascii_only s = true -> ToUpper s = upper_ascii s;
  range : list (string * value) -> list (string * value);
  range_permutes : forall m, Permutation (range m) m
}.

Record ProcessDataOutput : Type := {
  OriginalKeys : list string;
  TransformedData : list (string * value);
  GoServerType : string
}.

Section Transform.
Context {lib : Library}.

(** The closure [transformStrings] of [handleProcessData].  A
    [map[string]interface{}] is the list of its entries, the keys distinct,
    in the order a [range] over it visits them; the map built from the
    transformed entries is ranged over in an order of its own. *)
Fixpoint transformStrings (obj : value) : value :=
  match obj with
  | JObj v => JObj (range (map (fun kv => (fst kv, transformStrings (snd kv))) v))
  | JArr v => JArr (map transformStrings v)
  | JStr v => JStr (ToUpper v)
  | _ => obj
  end.

(** [handleProcessData]; the type assertion on the transformed value always
    holds, since a map is transformed into a map.  The keys are appended in
    the order the [range] over the arguments visits them. *)
Definition handleProcessData (data : list (string * value)) : result ProcessDataOutput :=
  match transformStrings (JObj data) with
  | JObj transformed =>
      Success {| OriginalKeys := map fst (range data);
                 TransformedData := transformed;
                 GoServerType := "go" |}
  | _ => Failure "interface conversion"
  end.

End Transform.

(** What the remaining Go handlers take from their runtime: the clock (in
    nanoseconds), the HTTP client, [time.Sleep] and the RFC 3339 layout. *)
Inductive GetResult : Type :=
| Responded (code : Z)
| Errored (message : string).

Class Runtime : Type := {
  World : Type;
  time_Now : World -> Z;
  httpClient_Get : string -> World -> GetResult * World;
  time_Sleep : Z -> World -> World;
  format_RFC3339 : Z -> string
}.

(** [error] is omitted from the JSON when empty. *)
Record FetchDataOutput : Type := {
  URL : string;
  StatusCode : Z;
  ResponseTimeMs : Z;
  Error : string;
  FetchServerType : string
}.

Record DatabaseQueryArgs : Type := { Query : string; DelayMs : Z }.

Record DatabaseOutput : Type := {
  OutQuery : string;
  OutDelayMs : Z;
  Timestamp : string;
  DbServerType : string
}.

Definition Millisecond : Z := 1000000.

Section Handlers.
Context {rt : Runtime}.

(** [time.Since(startTime).Milliseconds()], read in the world [w]. *)
Definition since_ms (startTime : Z) (w : World) : Z :=
  Z.quot (time_Now w - startTime) Millisecond.

Definition handleFetchData (endpoint : string) (w : World)
  : result FetchDataOutput * World :=
  let startTime := time_Now w in
  let (got, w') := httpClient_Get endpoint w in
  let responseTimeMs := since_ms startTime w' in
  match got with
  | Errored message =>
      (Success {| URL := endpoint; StatusCode := 0; ResponseTimeMs := responseTimeMs;
                  Error := message; FetchServerType := "go" |}, w')
  | Responded code =>
      (Success {| URL := endpoint; StatusCode := code; ResponseTimeMs := responseTimeMs;
                  Error := ""; FetchServerType := "go" |}, w')
  end.

Definition handleDatabaseQuery (args : DatabaseQueryArgs) (w : World)
  : result DatabaseOutput * World :=
  if (DelayMs args <? 0) || (DelayMs args >? 5000)
  then (Failure "delay_ms deve estar entre 0 e 5000", w)
  else
    let w' := time_Sleep (DelayMs args * Millisecond) w in
    (Success {| OutQuery := Query args;
                OutDelayMs := DelayMs args;
                Timestamp := format_RFC3339 (time_Now w');
                DbServerType := "go" |}, w').

End Handlers.

End Go.

(** *** Node.js server (index.js) *)
Module Node.
Section WithJSON.
Context {json : JSONLib} {text : StringLib}.

(** [[a, b] = [b, a + b]], on numbers that are integers. *)
Definition fib_step (ab : Z * Z) : Z * Z := (snd ab, fst ab + snd ab).

(** [let a = 0, b = 1; for (let i = 0; i < n; i++) ...]: for an integer [n]
    the body runs [n] times, and not at all when [n] is negative. *)
Definition fib_loop (n : Z) : Z * Z := Nat.iter (Z.to_nat n) fib_step (0, 1).

(** The tool result [{ content: [{ type: 'text', text }] }]. *)
Definition text_content (text : string) : value :=
  JObj [("content", JArr [JObj [("type", JStr "text"); ("text", JStr text)]])].

Definition fibonacci_output (n : Z) : value :=
  JObj [("input", JNum n);
        ("result", JNum (fst (fib_loop n)));
        ("server_type", JStr "nodejs")].

Definition calculate_fibonacci (n : Z) : result value :=
  if (n <? 0) || (n >? 40) then Failure "n deve estar entre 0 e 40"
  else Success (text_content (JSON_stringify (fibonacci_output n))).

(** [result[key] = value] for each of the entries, on a fresh object: the
    key [__proto__] reaches the setter of [Object.prototype], which sets the
    prototype or does nothing, and leaves no property behind. *)
Definition assigned (entries : list (string * value)) : list (string * value) :=
  filter (fun kv => negb (fst kv =? "__proto__")%string) entries.

Fixpoint transformStrings (obj : value) : value :=
  match obj with
  | JArr items => JArr (map transformStrings items)
  | JObj fields =>
      JObj (assigned (map (fun kv => (fst kv, transformStrings (snd kv))) fields))
  | JStr s => JStr (toUpperCase s)
  | _ => obj
  end.

(** The object [process_json_data] serialises; [data] is an object, as the
    tool's schema demands. *)
Definition process_output (data : list (string * value)) : value :=
  JObj [("original_keys", JArr (map (fun kv => JStr (fst kv)) data));
        ("transformed_data", transformStrings (JObj data));
        ("server_type", JStr "nodejs")].

Definition process_json_data (data : list (string * value)) : result value :=
  Success (text_content (JSON_stringify (process_output data))).

End WithJSON.

(** What the remaining Node.js handlers take from their runtime: the clock,
    [fetch] (a status, or the message of the error it throws), the timer and
    the ISO rendering of the current date. *)
Class Runtime : Type := {
  World : Type;
  Date_now : World -> Z;
  fetch : string -> World -> (Z + string) * World;
  setTimeout : Z -> World -> World;
  toISOString : World -> string
}.

Section Handlers.
Context {json : JSONLib} {rt : Runtime}.

Definition fetch_output (endpoint : string) (status responseTimeMs : Z) : value :=
  JObj [("url", JStr endpoint); ("status_code", JNum status);
        ("response_time_ms", JNum responseTimeMs); ("server_type", JStr "nodejs")].

Definition fetch_error_output (endpoint : string) (responseTimeMs : Z) (message : string)
  : value :=
  JObj [("url", JStr endpoint); ("status_code", JNum 0);
        ("response_time_ms", JNum responseTimeMs); ("error", JStr message);
        ("server_type", JStr "nodejs")].

Definition fetch_external_data (endpoint : string) (w : World) : result value * World :=
  let startTime := Date_now w in
  let (got, w') := fetch endpoint w in
  let responseTimeMs := Date_now w' - startTime in
  match got with
  | inl status =>
      (Success (text_content (JSON_stringify (fetch_output endpoint status responseTimeMs))),
       w')
  | inr message =>
      (Success (text_content
                  (JSON_stringify (fetch_error_output endpoint responseTimeMs message))),
       w')
  end.

Definition database_output (query : string) (delay_ms : Z) (timestamp : string) : value :=
  JObj [("query", JStr query); ("delay_ms", JNum delay_ms);
        ("timestamp", JStr timestamp); ("server_type", JStr "nodejs")].

(** [simulate_database_query({ query, delay_ms = 0 })]; [None] is an omitted
    [delay_ms]. *)
Definition simulate_database_query (query : string) (delay : option Z) (w : World)
  : result value * World :=
  let delay_ms := match delay with Some d => d | None => 0 end in
  if (delay_ms <? 0) || (delay_ms >? 5000)
  then (Failure "delay_ms deve estar entre 0 e 5000", w)
  else
    let w' := setTimeout delay_ms w in
    (Success (text_content (JSON_stringify (database_output query delay_ms (toISOString w')))),
     w').

End Handlers.

End Node.

(** *** Java server (McpToolsService.java) *)
Module Java.

(** [fibonacci(int n)], on Java's 32-bit [int]. *)
Definition fibonacci (n : Z) : Z := fib_rec 32 n.

(** [calculateFibonacci(n)]: the response map, as the list of its entries. *)
Definition calculateFibonacci (n : Z) : result (list (string * value)) :=
  if (n <? 0) || (n >? 40) then Failure "n deve estar entre 0 e 40"
  else
    let result := fibonacci n in
    Success [("input", JNum n); ("result", JNum result); ("server_type", JStr "java")].

(** The text holds no letter i, the one ASCII letter whose upper case
    depends on the locale (Turkish and Azeri have a dotted capital). *)
Fixpoint free_of_i (s : string) : bool :=
  match s with
  | EmptyString => true
  | String c rest => negb (Ascii.eqb c "i") && free_of_i rest
  end.

(** What the transform takes from Java's library: [String.toUpperCase()],
    which follows the default locale, and the order in which a [HashMap]
    lists the entries put into it, which their hash codes decide. *)
Class Library : Type := {
  toUpperCase : string -> string;
  toUpperCase_ascii :
    forall s, ascii_only s = true -> free_of_i s = true -> toUpperCase s = upper_ascii s;
  HashMap : list (string * value) -> list (string * value);
  HashMap_permutes : forall puts, Permutation (HashMap puts) puts
}.

(** The default locale is none of those with a dotted capital i. *)
Definition plain_locale {lib : Library} : Prop :=
  forall s, ascii_only s = true -> toUpperCase s = upper_ascii s.

Section Transform.
Context {lib : Library}.

(** What [transformStrings] puts back for one entry's value: a [String] is
    upper-cased, a [Map] transformed in turn, anything else kept.  A map is
    the list of its entries, the keys distinct, as its iterator lists them. *)
Fixpoint transform_entry (v : value) : value :=
  match v with
  | JStr s => JStr (toUpperCase s)
  | JObj m => JObj (HashMap (map (fun kv => (fst kv, transform_entry (snd kv))) m))
  | _ => v
  end.

Definition transformStrings (obj : list (string * value)) : list (string * value) :=
  HashMap (map (fun kv => (fst kv, transform_entry (snd kv))) obj).

Definition processJsonData (data : list (string * value)) : list (string * value) :=
  let transformed := transformStrings data in
  [("original_keys", JArr (map (fun kv => JStr (fst kv)) data));
   ("transformed_data", JObj transformed);
   ("server_type", JStr "java")].

End Transform.

(** What the remaining Java handlers take from their runtime: the clock, the
    [RestTemplate] call (a status, a [RestClientException] or another
    exception), [Thread.sleep] and the rendering of [Instant.now()]. *)
Inductive Exchange : Type :=
| Entity (code : Z)
| RestClientException (message : string)
| OtherException (message : string).

Class Runtime : Type := {
  World : Type;
  currentTimeMillis : World -> Z;
  getForEntity : string -> World -> Exchange * World;
  Thread_sleep : Z -> World -> World;
  Instant_now : World -> string
}.

Section Handlers.
Context {rt : Runtime}.

Definition fetchExternalData (endpoint : string) (w : World)
  : result (list (string * value)) * World :=
  let startTime := currentTimeMillis w in
  let (httpResponse, w') := getForEntity endpoint w in
  let responseTimeMs := currentTimeMillis w' - startTime in
  match httpResponse with
  | Entity code =>
      (Success [("url", JStr endpoint); ("status_code", JNum code);
                ("response_time_ms", JNum responseTimeMs); ("server_type", JStr "java")],
       w')
  | RestClientException message =>
      (Success [("url", JStr endpoint); ("status_code", JNum 0);
                ("response_time_ms", JNum responseTimeMs); ("error", JStr message);
                ("server_type", JStr "java")],
       w')
  | OtherException message => (Failure message, w')
  end.

Definition simulateDatabaseQuery (query : string) (delay_ms : Z) (w : World)
  : result (list (string * value)) * World :=
  if (delay_ms <? 0) || (delay_ms >? 5000)
  then (Failure "delay_ms deve estar entre 0 e 5000", w)
  else
    let w' := Thread_sleep delay_ms w in
    (Success [("query", JStr query); ("delay_ms", JNum delay_ms);
              ("timestamp", JStr (Instant_now w')); ("server_type", JStr "java")],
     w').

End Handlers.

End Java.
End Servers.

(* --------------------------------------------------------------------- *)
(** ** The orchestrator (benchmark/run_benchmark.sh)                      *)
(* --------------------------------------------------------------------- *)
Module Orchestrator.

(** The external commands the script runs. *)
Inductive Command : Type :=
| Mkdir (path : string)
| Cd (path : string)
| SleepFor (seconds : Z)
| CurlGet (url : string)
| CurlPut (url : string)
| CurlInitialize (url client : string) (max_time : option Z) (dump_headers : bool)
| ExtractSessionId (response : string)
| CurlToolCall (url session_header : string)
| ComposeStop (services : string)
| ComposeUp (service : string) (force_recreate : bool)
| StatsCollector (container output interval : string)
| K6Run (url name output script console_log : string)
| Kill (pid : string)
| Wait (pid : string)
| Consolidate (dir : string).

(** What the script leaves behind, in order: the commands it ran and the
    lines it printed. *)
Inductive Event : Type :=
| Ran (c : Command)
| Said (level message : string).

(** The machine the script runs on: a command is run in some state of the
    host (containers, network, file system) and yields an exit status and
    its output. *)
Class Host : Type := {
  HostState : Type;
  exec : Command -> HostState -> (Z * string) * HostState;
  SCRIPT_DIR : string;
  PROJECT_DIR : string;
  TIMESTAMP : string;
  (** [${v^^}], by the locale the script runs in. *)
  upper : string -> string
}.

(** A step of the script either goes on with a value or ends the script
    ([set -e], [set -u]). *)
Inductive outcome (A : Type) : Type :=
| Done (a : A)
| Exited (code : Z).
Arguments Done {A} a.
Arguments Exited {A} code.

Section Script.
Context {H : Host}.

Definition RESULTS_DIR : string := SCRIPT_DIR ++ "/results/" ++ TIMESTAMP.

(** Servers to benchmark (name -> container:port). *)
Definition SERVERS : list (string * string) :=
  [("python", "mcp-python-server:8082");
   ("go", "mcp-go-server:8081");
   ("nodejs", "mcp-nodejs-server:8083");
   ("java", "mcp-java-server:8080");
   ("rust", "mcp-rust-server:8084")].

Definition ALL_SERVICES : string :=
  "python-server go-server nodejs-server java-server rust-server".

Record St : Type := { host : HostState; trace : list Event }.

Definition Sh (A : Type) : Type := St -> outcome A * St.

Definition ret {A} (a : A) : Sh A := fun s => (Done a, s).
Definition exit {A} (code : Z) : Sh A := fun s => (Exited code, s).
Definition bind {A B} (m : Sh A) (k : A -> Sh B) : Sh B :=
  fun s => match m s with
           | (Done a, s') => k a s'
           | (Exited c, s') => (Exited c, s')
           end.

Notation "x <- m ;; k" := (bind m (fun x => k))
  (at level 61, m at next level, right associativity).
Notation "m ;;; k" := (bind m (fun _ => k))
  (at level 61, right associativity).

(** Run a command where its status is looked at or ignored ([if], [||],
    a function called from such a place): the script goes on. *)
Definition run (c : Command) : Sh (Z * string) :=
  fun s => let (r, h) := exec c (host s) in
           (Done r, {| host := h; trace := trace s ++ [Ran c] |}).

(** Run a simple command; with [errexit] in force a failure ends the script. *)
Definition simple (errexit : bool) (c : Command) : Sh unit :=
  r <- run c ;;
  if errexit && negb (fst r =? 0) then exit (fst r) else ret tt.

Definition say (level message : string) : Sh unit :=
  fun s => (Done tt, {| host := host s; trace := trace s ++ [Said level message] |}).

Definition info := say "INFO".
Definition ok := say "OK".
Definition warn := say "WARN".
Definition error := say "ERR".
Definition echo := say "".

Definition Z_to_string (z : Z) : string := NilEmpty.string_of_int (Z.to_int z).

(** *** Functions *)

(** The [while ! curl ...] loop of [wait_for_mock_api], with at most
    [rounds] more polls to go; it is entered with [rounds + elapsed = 60]. *)
Fixpoint mock_api_loop (errexit : bool) (rounds : nat) (elapsed : Z) : Sh Z :=
  match rounds with
  | O => ret 1
  | S rounds' =>
      r <- run (CurlPut "http://localhost:1080/mockserver/status") ;;
      if fst r =? 0 then
        ok ("mock-api is ready (" ++ Z_to_string elapsed ++ "s)") ;;; ret 0
      else
        simple errexit (SleepFor 1) ;;;
        let elapsed := elapsed + 1 in
        if elapsed >=? 60 then
          error "mock-api failed to start after 60s" ;;; ret 1
        else mock_api_loop errexit rounds' elapsed
  end.

Definition wait_for_mock_api (errexit : bool) : Sh Z :=
  info "Waiting for mock-api to be ready..." ;;;
  mock_api_loop errexit 60 0.

Definition max_wait : Z := 60.

Definition health_url (port : string) : string := "http://localhost:" ++ port ++ "/health".
Definition actuator_url (port : string) : string :=
  "http://localhost:" ++ port ++ "/actuator/health".
Definition mcp_url (port : string) : string := "http://localhost:" ++ port ++ "/mcp".

(** The three probes of one round of [wait_for_health]. *)
Definition probes (port : string) : list Command :=
  [CurlGet (health_url port);
   CurlGet (actuator_url port);
   CurlInitialize (mcp_url port) "health" (Some 2) false].

(** The probes of a round, tried in turn until one succeeds. *)
Fixpoint first_success (cs : list Command) : Sh bool :=
  match cs with
  | [] => ret false
  | c :: rest =>
      r <- run c ;;
      if fst r =? 0 then ret true else first_success rest
  end.

(** The [while true] loop of [wait_for_health], with at most [rounds] more
    rounds to go; it is entered with [rounds + elapsed = max_wait]. *)
Fixpoint health_loop (rounds : nat) (elapsed : Z) (port name : string) : Sh Z :=
  match rounds with
  | O => ret 1
  | S rounds' =>
      healthy <- first_success (probes port) ;;
      if healthy : bool then
        ok (name ++ " is ready (" ++ Z_to_string elapsed ++ "s)") ;;; ret 0
      else
        run (SleepFor 1) ;;;
        let elapsed := elapsed + 1 in
        if elapsed >=? max_wait then
          error (name ++ " failed to start after " ++ Z_to_string max_wait ++ "s") ;;;
          ret 1
        else health_loop rounds' elapsed port name
  end.

(** [wait_for_health port name]; it is only called as the condition of an
    [if], where [set -e] has no effect. *)
Definition wait_for_health (port name : string) : Sh Z :=
  info ("Waiting for " ++ name ++ " to be ready (port " ++ port ++ ")...") ;;;
  health_loop (Z.to_nat max_wait) 0 port name.

(** [for i in $(seq 1 n); do body; done]. *)
Fixpoint repeat_n (n : nat) (body : Sh unit) : Sh unit :=
  match n with
  | O => ret tt
  | S n' => body ;;; repeat_n n' body
  end.

Definition warmup_call (url : string) : Sh unit :=
  (* Initialize session *)
  init_resp <- run (CurlInitialize url "warmup" None true) ;;
  session_id <- run (ExtractSessionId (snd init_resp)) ;;
  (* Call fibonacci tool *)
  let session_header :=
    if is_empty (snd session_id) then ""
    else "-H Mcp-Session-Id: " ++ snd session_id in
  run (CurlToolCall url session_header) ;;;
  ret tt.

Definition warmup (url name : string) : Sh unit :=
  info ("Warming up " ++ name ++ " (10 init + 5 tool calls)...") ;;;
  repeat_n 10 (run (CurlInitialize url "warmup" None false) ;;; ret tt) ;;;
  repeat_n 5 (warmup_call url) ;;;
  ok "Warmup complete".

Definition stop_all_servers (errexit : bool) : Sh unit :=
  info "Stopping all MCP server containers..." ;;;
  simple errexit (Cd PROJECT_DIR) ;;;
  run (ComposeStop ALL_SERVICES) ;;;
  simple errexit (SleepFor 2) ;;;
  ok "All servers stopped".

Definition start_server (service : string) : Sh Z :=
  info ("Starting " ++ service ++ "...") ;;;
  run (Cd PROJECT_DIR) ;;;
  r <- run (ComposeUp service false) ;;
  ret (fst r).

(** [${v%%:*}] and [${v##*:}]. *)
Fixpoint before_colon (s : string) : string :=
  match s with
  | EmptyString => EmptyString
  | String c rest => if Ascii.eqb c ":" then EmptyString else String c (before_colon rest)
  end.

Fixpoint after_colon_from (s : string) (acc : string) : string :=
  match s with
  | EmptyString => acc
  | String c rest => if Ascii.eqb c ":" then after_colon_from rest rest
                     else after_colon_from rest acc
  end.

Definition after_colon (s : string) : string := after_colon_from s s.

Definition bar : string :=
  "━━━━━━━━━━━━━━━━━━━━━━━━━━━━━━━━━━━━━━━━━━━━━━━━━━━━━━━━━━━━".

(** [benchmark_server name].  Its only call is the left side of an [||]
    list, so no failing command inside it ends the script; an unset
    [SERVERS] entry does ([set -u]). *)
Definition benchmark_server (name : string) : Sh Z :=
  match lookup name SERVERS with
  | None => exit 1
  | Some container_port =>
      let container := before_colon container_port in
      let port := after_colon container_port in
      let service := name ++ "-server" in
      let url := mcp_url port in
      let server_results := RESULTS_DIR ++ "/" ++ name in
      run (Mkdir server_results) ;;;
      echo "" ;;;
      echo bar ;;;
      echo ("  BENCHMARKING: " ++ upper name) ;;;
      echo ("  Container: " ++ container ++ " | Port: " ++ port ++ " | URL: " ++ url) ;;;
      echo bar ;;;
      (* 1. Stop all servers, start only the target *)
      stop_all_servers false ;;;
      start_server service ;;;
      (* 2. Wait for health *)
      healthy <- wait_for_health port name ;;
      if negb (healthy =? 0) then
        error ("Skipping " ++ name ++ " — failed to start") ;;;
        ret 1
      else
        (* 3. Warmup *)
        warmup url name ;;;
        (* 4. Start stats collector in background *)
        info "Starting Docker stats collector..." ;;;
        stats <- run (StatsCollector container (server_results ++ "/stats.json") "1.0") ;;
        let stats_pid := snd stats in
        run (SleepFor 1) ;;;
        (* 5. Run k6 benchmark *)
        info "Running k6 benchmark (50 VUs, 5m)..." ;;;
        run (K6Run url name (server_results ++ "/k6.json")
                   (SCRIPT_DIR ++ "/benchmark.js")
                   (server_results ++ "/k6_console.log")) ;;;
        (* 6. Stop stats collector *)
        info "Stopping stats collector..." ;;;
        run (Kill stats_pid) ;;;
        run (Wait stats_pid) ;;;
        ok ("Benchmark complete for " ++ upper name) ;;;
        ret 0
  end.

(** [for name in targets; do benchmark_server "$name" || warn ...; done]. *)
Fixpoint benchmark_each (targets : list string) : Sh unit :=
  match targets with
  | [] => ret tt
  | name :: rest =>
      status <- benchmark_server name ;;
      (if status =? 0 then ret tt
       else warn ("Failed to benchmark " ++ name ++ ", continuing...")) ;;;
      benchmark_each rest
  end.

Definition targets : list string := ["rust"; "java"; "go"].

Definition main : Sh unit :=
  echo "" ;;;
  echo "╔══════════════════════════════════════════════════════════════╗" ;;;
  echo "║           MCP SERVERS BENCHMARK SUITE                        ║" ;;;
  echo "╠══════════════════════════════════════════════════════════════╣" ;;;
  echo "║  VUs: 10 | Duration: 5m | CPU: 1 core | RAM: 1GB             ║" ;;;
  echo "║  Servers: go, java, rust                                     ║" ;;;
  echo ("║  Results: " ++ RESULTS_DIR) ;;;
  echo "╚══════════════════════════════════════════════════════════════╝" ;;;
  echo "" ;;;
  simple true (Mkdir RESULTS_DIR) ;;;
  (* Ensure mock-api is running *)
  info "Ensuring mock-api is running..." ;;;
  simple true (Cd PROJECT_DIR) ;;;
  simple true (ComposeUp "mock-api" true) ;;;
  ready <- wait_for_mock_api true ;;
  (if ready =? 0 then ret tt else exit ready) ;;;
  (* Benchmark each server *)
  benchmark_each targets ;;;
  (* Stop all servers *)
  stop_all_servers true ;;;
  (* Consolidate results *)
  echo "" ;;;
  info "Consolidating results..." ;;;
  simple true (Consolidate RESULTS_DIR) ;;;
  echo "" ;;;
  echo "╔══════════════════════════════════════════════════════════════╗" ;;;
  echo "║  BENCHMARK COMPLETE                                          ║" ;;;
  echo "╠══════════════════════════════════════════════════════════════╣" ;;;
  echo ("║  Results: " ++ RESULTS_DIR) ;;;
  echo ("║  Summary: " ++ RESULTS_DIR ++ "/summary.json") ;;;
  echo "╚══════════════════════════════════════════════════════════════╝".

(** The events of a target's measurement: warmup traffic, resource
    sampling and the load run. *)
Definition is_load (e : Event) : bool :=
  match e with
  | Ran (CurlInitialize _ client _ _) => (client =? "warmup")%string
  | Ran (ExtractSessionId _) => true
  | Ran (CurlToolCall _ _) => true
  | Ran (StatsCollector _ _ _) => true
  | Ran (K6Run _ _ _ _ _) => true
  | _ => false
  end.

Definition port_of (name : string) : string :=
  match lookup name SERVERS with
  | Some container_port => after_colon container_port
  | None => ""
  end.

End Script.
End Orchestrator.

(* ===================================================================== *)
(** * Part II.  Properties                                                *)
(* ===================================================================== *)

(* --------------------------------------------------------------------- *)
(** ** Strings                                                            *)
(* --------------------------------------------------------------------- *)
Module StringFacts.
#[local] Open Scope list_scope.

Lemma is_white_In (w : string) : is_white w = true <-> In w white_space.
Proof.
  unfold is_white. rewrite existsb_exists. split.
  - intros (x & Hin & E). apply String.eqb_eq in E. subst x. exact Hin.
  - intros Hin. exists w. split; [exact Hin | apply String.eqb_refl].
Qed.

(** One case for each white-space character. *)
Ltac white H :=
  cbv [white_space In] in H;
  repeat (destruct H as [H|H]; [subst|]); try contradiction.

Lemma trimEnd_cons (c : ascii) (rest : string) :
  trimEnd (String c rest) =
  if is_white (String c (trimEnd rest)) then EmptyString else String c (trimEnd rest).
Proof. reflexivity. Qed.

Lemma is_white_head (c : ascii) (r : string) : leads c = false -> is_white (String c r) = false.
Proof.
  unfold leads, is_white. induction white_space as [|w l IH]; [reflexivity|].
  cbn [existsb]. intros Hl. apply orb_false_elim in Hl. destruct Hl as [Hw Hl].
  rewrite (IH Hl), orb_false_r. destruct w as [|a w]; [reflexivity|].
  cbn [String.eqb]. rewrite Ascii.eqb_sym, Hw. reflexivity.
Qed.

Lemma trimEnd_keeps_head (c : ascii) (s : string) :
  leads c = false -> trimEnd (String c s) = String c (trimEnd s).
Proof. intros Hc. rewrite trimEnd_cons, (is_white_head c _ Hc). reflexivity. Qed.

Lemma trimEnd_idempotent (s : string) : trimEnd (trimEnd s) = trimEnd s.
Proof.
  induction s as [|c rest IH]; [reflexivity|].
  rewrite trimEnd_cons. destruct (is_white (String c (trimEnd rest))) eqn:B; [reflexivity|].
  rewrite trimEnd_cons, IH, B. reflexivity.
Qed.

Lemma trimStart_white (w s : string) :
  In w white_space -> trimStart (w ++ s) = trimStart s.
Proof. intros H. white H; reflexivity. Qed.

Lemma trimStart_cases (s : string) :
  trimStart s = s \/
  exists w s', In w white_space /\ s = (w ++ s')%string /\ trimStart s = trimStart s'.
Proof.
  destruct s as [|a r1]; [left; reflexivity|]. cbn [trimStart].
  destruct (is_white (String a EmptyString)) eqn:E1.
  { right. exists (String a EmptyString), r1.
    split; [apply is_white_In; exact E1 | split; reflexivity]. }
  destruct (leads a); [|left; reflexivity].
  destruct r1 as [|b r2]; [left; reflexivity|].
  destruct (is_white (String a (String b EmptyString))) eqn:E2.
  { right. exists (String a (String b EmptyString)), r2.
    split; [apply is_white_In; exact E2 | split; reflexivity]. }
  destruct r2 as [|c r3]; [left; reflexivity|].
  destruct (is_white (String a (String b (String c EmptyString)))) eqn:E3;
    [|left; reflexivity].
  right. exists (String a (String b (String c EmptyString))), r3.
  split; [apply is_white_In; exact E3 | split; reflexivity].
Qed.

Lemma length_append (a b : string) :
  String.length (a ++ b) = (String.length a + String.length b)%nat.
Proof. induction a as [|c a IH]; [reflexivity|]. cbn. rewrite IH. reflexivity. Qed.

Lemma white_length (w : string) : In w white_space -> (1 <= String.length w)%nat.
Proof. intros H. white H; cbn; lia. Qed.

Lemma append_inv_head (w a b : string) : (w ++ a)%string = (w ++ b)%string -> a = b.
Proof.
  induction w as [|c w IH]; [trivial|]. cbn [String.append]. intros E.
  injection E as E. exact (IH E).
Qed.

(** To prove a property of every string: prove it of the strings
    [trimStart] keeps as they are, and carry it over a white-space character
    in front. *)
Lemma trimStart_induction (P : string -> Prop) :
  (forall s, trimStart s = s -> P s) ->
  (forall w s, In w white_space -> P s -> P (w ++ s)%string) ->
  forall s, P s.
Proof.
  intros Hbase Hstep s.
  assert (H : forall n s, (String.length s <= n)%nat -> P s).
  { clear s. induction n as [|n IH]; intros s Hn.
    - destruct s; [|cbn in Hn; lia]. apply Hbase. reflexivity.
    - destruct (trimStart_cases s) as [E|(w & s' & Hw & -> & _)]; [apply Hbase; exact E|].
      apply Hstep; [exact Hw|]. apply IH.
      rewrite length_append in Hn. pose proof (white_length w Hw). lia. }
  apply (H (String.length s)). lia.
Qed.

Lemma trimStart_idempotent (s : string) : trimStart (trimStart s) = trimStart s.
Proof.
  induction s as [s E|w s Hw IH] using trimStart_induction.
  - rewrite !E. reflexivity.
  - rewrite (trimStart_white w s Hw). exact IH.
Qed.

(** White space in front of a text is dropped from the end only when the
    text itself is nothing but white space. *)
Lemma trimEnd_white_app (w h : string) :
  In w white_space ->
  trimEnd (w ++ h) = if is_empty (trimEnd h) then EmptyString else (w ++ trimEnd h)%string.
Proof.
  intros H. white H; cbn [String.append]; rewrite !trimEnd_cons;
    destruct (trimEnd h) as [|x r]; vm_compute; reflexivity.
Qed.

Lemma trimEnd_trimStart (s : string) :
  trimEnd s = s -> trimEnd (trimStart s) = trimStart s.
Proof.
  induction s as [s E|w s Hw IH] using trimStart_induction.
  - rewrite E. trivial.
  - rewrite (trimEnd_white_app w s Hw), (trimStart_white w s Hw).
    destruct (is_empty (trimEnd s)).
    + intros E. pose proof (white_length w Hw) as Hl.
      destruct w; [cbn in Hl; lia | discriminate E].
    + intros E. apply append_inv_head in E. apply IH. exact E.
Qed.

Lemma trim_idempotent (s : string) : trim (trim s) = trim s.
Proof.
  unfold trim. rewrite (trimEnd_trimStart (trimEnd s)) by apply trimEnd_idempotent.
  apply trimStart_idempotent.
Qed.

Lemma trim_white_app (w s : string) : In w white_space -> trim (w ++ s) = trim s.
Proof.
  intros Hw. unfold trim. rewrite (trimEnd_white_app w s Hw).
  destruct (trimEnd s) as [|x r]; cbn [is_empty]; [reflexivity|].
  apply trimStart_white. exact Hw.
Qed.

(** *** Lines *)

Fixpoint one_line (s : string) : bool :=
  match s with
  | EmptyString => true
  | String c rest => negb (Ascii.eqb c newline) && one_line rest
  end.

Lemma white_newline (w : string) :
  In w white_space -> w = String newline EmptyString \/ one_line w = true.
Proof. intros H. white H; first [left; reflexivity | right; reflexivity]. Qed.

Lemma split_lines_cons (s : string) :
  exists line more, split_lines s = line :: more.
Proof.
  induction s as [|c rest IH]; simpl; eauto.
  destruct (Ascii.eqb c newline); eauto.
  destruct IH as (line & more & ->). eauto.
Qed.

Lemma split_lines_one_line (s : string) : one_line s = true -> split_lines s = [s].
Proof.
  induction s as [|c s IH]; [reflexivity|]. cbn [one_line]. intros H.
  apply andb_prop in H. destruct H as [Hc Hs]. apply negb_true_iff in Hc.
  cbn [split_lines]. rewrite Hc, (IH Hs). reflexivity.
Qed.

Lemma split_lines_app (w s line more : string) (rest : list string) :
  one_line w = true ->
  split_lines s = line :: rest ->
  split_lines (w ++ s) = (w ++ line)%string :: rest.
Proof.
  intros Hw Es. induction w as [|c w IH]; [exact Es|].
  cbn [one_line] in Hw. apply andb_prop in Hw. destruct Hw as [Hc Hw].
  apply negb_true_iff in Hc. cbn [String.append split_lines]. rewrite Hc, (IH Hw).
  reflexivity.
Qed.

End StringFacts.

(* --------------------------------------------------------------------- *)
(** ** The response decoder                                               *)
(* --------------------------------------------------------------------- *)
Module DecoderFacts.
Import Decoder StringFacts.
Section WithJSON.
Context {json : JSONLib}.

Lemma spec_frame_trimEnd (a b : string) :
  trimEnd a = trimEnd b -> spec_frame a = spec_frame b.
Proof. intros E. unfold spec_frame, trim. rewrite E. reflexivity. Qed.

Lemma spec_frame_blank (s : string) : trimEnd s = EmptyString -> spec_frame s = None.
Proof. intros E. unfold spec_frame, trim. rewrite E. reflexivity. Qed.

(** The loop of [parseBody] returns the first frame that decodes. *)
Lemma parseBody_lines_first (lines : list string) :
  parseBody_lines lines =
  match first_some spec_frame lines with Some v => v | None => JNull end.
Proof.
  induction lines as [|line rest IH]; [reflexivity|].
  cbn [parseBody_lines first_some]. unfold spec_frame, try_parse.
  generalize (trim line). intros t.
  destruct (startsWith t "data:"); [|exact IH].
  generalize (trim (substring_from 5 t)). intros p.
  destruct p as [|c p]; [exact IH|].
  cbn [is_empty negb andb].
  destruct (startsWith (String c p) "{"); [|exact IH].
  destruct (JSON_parse (JStr (String c p))); [reflexivity | exact IH].
Qed.

(** Leading white space of the body does not change which frame is first. *)
Lemma frames_white_app (w s : string) :
  In w white_space ->
  first_some spec_frame (split_lines (w ++ s)) = first_some spec_frame (split_lines s).
Proof.
  intros Hw. destruct (white_newline w Hw) as [->|Hone].
  - reflexivity.
  - destruct (split_lines_cons s) as (line & more & E).
    rewrite (split_lines_app w s line EmptyString more Hone E), E. cbn [first_some].
    unfold spec_frame at 1 3. rewrite (trim_white_app w line Hw). reflexivity.
Qed.

Lemma frames_trimStart (s : string) :
  first_some spec_frame (split_lines (trimStart s)) = first_some spec_frame (split_lines s).
Proof.
  induction s as [s E|w s Hw IH] using trimStart_induction.
  - rewrite E. reflexivity.
  - rewrite (trimStart_white w s Hw), IH. symmetry. apply frames_white_app. exact Hw.
Qed.

(** Trailing white space: the lines of the trimmed text and of the text
    differ in their first line's tail and in blank lines at the end only. *)
Lemma frames_trimEnd_inv (s : string) :
  exists h' t' h t,
    split_lines (trimEnd s) = h' :: t' /\
    split_lines s = h :: t /\
    trimEnd h' = trimEnd h /\
    first_some spec_frame t' = first_some spec_frame t.
Proof.
  induction s as [|c rest (h' & t' & h & t & E' & E & Hh & Ht)].
  - exists EmptyString, [], EmptyString, []. repeat split.
  - rewrite trimEnd_cons. destruct (is_white (String c (trimEnd rest))) eqn:B.
    + pose proof (proj1 (is_white_In _) B) as Hw.
      destruct (white_newline _ Hw) as [Enl|Hone].
      * injection Enl as -> Er. rewrite Er in E'. cbn in E'. injection E' as <- <-.
        cbn [split_lines]. rewrite Ascii.eqb_refl, E.
        exists EmptyString, [], EmptyString, (h :: t). repeat split.
        cbn [first_some]. rewrite (spec_frame_blank h) by (symmetry; exact Hh).
        exact Ht.
      * cbn [one_line] in Hone. apply andb_prop in Hone. destruct Hone as [Hc Hr].
        apply negb_true_iff in Hc.
        rewrite (split_lines_one_line _ Hr) in E'. injection E' as <- <-.
        cbn [split_lines]. rewrite Hc, E.
        exists EmptyString, [], (String c h), t. repeat split; [|exact Ht].
        rewrite trimEnd_cons, <- Hh, trimEnd_idempotent, B. reflexivity.
    + cbn [split_lines]. rewrite E, E'. destruct (Ascii.eqb c newline).
      * exists EmptyString, (h' :: t'), EmptyString, (h :: t). repeat split.
        cbn [first_some]. rewrite (spec_frame_trimEnd h' h Hh), Ht. reflexivity.
      * exists (String c h'), t', (String c h), t. repeat split; [|exact Ht].
        rewrite !trimEnd_cons, Hh. reflexivity.
Qed.

Lemma frames_trimEnd (s : string) :
  first_some spec_frame (split_lines (trimEnd s)) = first_some spec_frame (split_lines s).
Proof.
  destruct (frames_trimEnd_inv s) as (h' & t' & h & t & -> & -> & Hh & Ht).
  simpl. rewrite (spec_frame_trimEnd h' h Hh), Ht. reflexivity.
Qed.

Lemma frames_trim (s : string) :
  first_some spec_frame (split_lines (trim s)) = first_some spec_frame (split_lines s).
Proof. unfold trim. rewrite frames_trimStart. apply frames_trimEnd. Qed.

Lemma length_zero_empty (s : string) : Nat.eqb (String.length s) 0 = is_empty s.
Proof. destruct s; reflexivity. Qed.

(** [parseBody] and the policy agree on every body. *)
Lemma parseBody_decode (body : option string) :
  parseBody body = spec_decode body.
Proof.
  destruct body as [b|]; [|reflexivity].
  unfold parseBody, spec_decode, spec_direct, try_parse.
  destruct (is_empty b) eqn:Eb.
  - destruct b; [reflexivity | discriminate].
  - rewrite length_zero_empty.
    destruct (is_empty (trim b)) eqn:Et.
    + destruct (trim b) eqn:T; [|discriminate]. simpl.
      rewrite <- (frames_trim b), T. reflexivity.
    + destruct (startsWith (trim b) "{" || startsWith (trim b) "[").
      * destruct (JSON_parse (JStr (trim b))); [reflexivity|].
        rewrite parseBody_lines_first, frames_trim. reflexivity.
      * rewrite parseBody_lines_first, frames_trim. reflexivity.
Qed.

(** The two ends of the policy, read off [parseBody] itself. *)
Lemma parseBody_direct (b : string) (v : value) :
  (startsWith (trim b) "{" || startsWith (trim b) "[") = true ->
  JSON_parse (JStr (trim b)) = Some v ->
  parseBody (Some b) = v.
Proof.
  intros Hopen Hparse. rewrite parseBody_decode.
  unfold spec_decode, spec_direct. rewrite Hopen, Hparse. reflexivity.
Qed.

Lemma parseBody_no_candidate (b : string) :
  spec_direct b = None ->
  (forall line, In line (split_lines b) -> spec_frame line = None) ->
  parseBody (Some b) = JNull.
Proof.
  intros Hd Hf. rewrite parseBody_decode. unfold spec_decode. rewrite Hd.
  assert (E : first_some spec_frame (split_lines b) = None).
  { induction (split_lines b) as [|l ls IH]; [reflexivity|].
    simpl. rewrite (Hf l) by (left; reflexivity).
    apply IH. intros x Hx. apply Hf. right. exact Hx. }
  rewrite E. reflexivity.
Qed.

(** C2.  For every response body, [parseBody] does what the decoding policy
    says: when the trimmed body opens with a brace or bracket and parses, the
    parsed value is returned; otherwise the first line of the body whose
    trimmed form starts with the data marker and whose remainder, trimmed,
    opens with a brace and parses, is returned; when no candidate parses
    (empty and null bodies included) the result is null.  [parseBody] is a
    total function: it raises no error. *)
Theorem parseBody_follows_policy (body : option string) :
  parseBody body = spec_decode body /\
  (forall b v,
     body = Some b ->
     (startsWith (trim b) "{" || startsWith (trim b) "[") = true ->
     JSON_parse (JStr (trim b)) = Some v ->
     parseBody body = v) /\
  (forall b,
     body = Some b ->
     spec_direct b = None ->
     (forall line, In line (split_lines b) -> spec_frame line = None) ->
     parseBody body = JNull) /\
  (body = None \/ body = Some EmptyString -> parseBody body = JNull).
Proof.
  split; [apply parseBody_decode|]. split; [|split].
  - intros b v -> Hopen Hparse. apply parseBody_direct; assumption.
  - intros b -> Hd Hf. apply parseBody_no_candidate; assumption.
  - intros [->| ->]; reflexivity.
Qed.

End WithJSON.
End DecoderFacts.

(* --------------------------------------------------------------------- *)
(** ** The k6 script                                                      *)
(* --------------------------------------------------------------------- *)
Module K6Facts.
Import K6.
#[local] Open Scope list_scope.

(** A runtime that differs in the answers to DELETE requests only. *)
Definition with_del (rt : Runtime)
  (d : string -> Params -> @World rt -> Response * @World rt) : Runtime :=
  {| World := @World rt;
     http_post := @http_post rt;
     http_del := d;
     Date_now := @Date_now rt;
     Date_toISOString := @Date_toISOString rt;
     sleep := @sleep rt;
     ENV := @ENV rt;
     textSummary := @textSummary rt |}.

Section Sessions.
Context {json : JSONLib} {rt : Runtime}.

(** *** What a session sends and receives, step by step *)

(** The params of the two requests [mcpPost] sends. *)
Definition post_params (sid : option string) : Params :=
  {| p_headers := with_session sid; p_timeout := "15s"; p_tags := [] |}.

Definition exchange (payload : value) (params : Params) (w : World) : Response * World :=
  http_post SERVER_URL (JSON_stringify payload) params w.

Definition init_response (w : World) : Response :=
  fst (exchange initialize_payload (post_params None) w).

Definition after_init (w : World) : World :=
  snd (exchange initialize_payload (post_params None) w).

(** The session token captured at the handshake. *)
Definition token (w : World) : option string := new_session (init_response w) None.

Definition after_ack (w : World) : World :=
  snd (exchange initialized_payload (notify_params (token w)) (after_init w)).

Definition invoke_response (invoke : value) (w : World) : Response :=
  fst (exchange invoke (post_params (token w)) (after_ack w)).

Definition after_invoke (invoke : value) (w : World) : World :=
  snd (exchange invoke (post_params (token w)) (after_ack w)).

Definition after_close (invoke : value) (w : World) : World :=
  match token w with
  | Some s => if is_empty s then after_invoke invoke w
              else snd (http_del SERVER_URL (delete_params s) (after_invoke invoke w))
  | None => after_invoke invoke w
  end.

Definition teardown_events (sid : option string) : list Event :=
  match sid with
  | Some s => if is_empty s then [] else [HttpDel SERVER_URL (delete_params s)]
  | None => []
  end.

(** The requests of one session whose invoke step sends [invoke]. *)
Definition session_events (invoke : value) (sid : option string) : list Event :=
  [HttpPost SERVER_URL initialize_payload (post_params None);
   HttpPost SERVER_URL initialized_payload (notify_params sid);
   HttpPost SERVER_URL invoke (post_params sid)]
  ++ teardown_events sid.

(** The decoded payload counts as a success: an object without a truthy
    [error] and with a truthy [result]. *)
Definition well_formed_success (r : value) : bool :=
  match r with
  | JObj fields =>
      negb (truthy (match lookup "error" fields with Some e => e | None => JUndefined end))
      && truthy (match lookup "result" fields with Some x => x | None => JUndefined end)
  | _ => false
  end.

Definition error_samples (r : value) : list Sample :=
  if well_formed_success r then [RateAdd mcpErrorRate false]
  else [CounterAdd mcpErrors 1; RateAdd mcpErrorRate true].

Definition session_result (toolName : string) (toolArgs : value) (w : World) : SessionResult :=
  let invoke := call_payload toolName toolArgs in
  {| initRes := init_response w;
     callRes := invoke_response invoke w;
     callResult := Decoder.parseBody (body (invoke_response invoke w));
     totalDuration := Date_now (after_invoke invoke w) - Date_now w;
     sessionId := token w |}.

Lemma isError_spec (r : value) : isError r = Some (negb (well_formed_success r)).
Proof.
  destruct r as [| |b|z|s|l|fields]; try reflexivity.
  - destruct b; reflexivity.
  - unfold isError. simpl. destruct (z =? 0); reflexivity.
  - unfold isError. simpl. destruct (s =? "")%string; reflexivity.
  - unfold isError, well_formed_success. simpl.
    destruct (truthy match lookup "error" fields with Some x => x | None => JUndefined end);
      reflexivity.
Qed.

Lemma post_run (payload : value) (params : Params) (s : VU) :
  post SERVER_URL payload params s =
  (Some (fst (exchange payload params (world s))),
   {| world := snd (exchange payload params (world s));
      samples := samples s;
      trace := trace s ++ [HttpPost SERVER_URL payload params] |}).
Proof.
  unfold post, exchange, log.
  destruct (http_post SERVER_URL (JSON_stringify payload) params (world s)). reflexivity.
Qed.

Lemma mcpPost_run (payload : value) (sid : option string) (s : VU) :
  let res := fst (exchange payload (post_params sid) (world s)) in
  mcpPost payload sid s =
  (Some {| pr_res := res;
           pr_result := Decoder.parseBody (body res);
           pr_sessionId := new_session res sid |},
   {| world := snd (exchange payload (post_params sid) (world s));
      samples := samples s ++ [CounterAdd mcpRequests 1];
      trace := trace s ++ [HttpPost SERVER_URL payload (post_params sid)] |}).
Proof.
  unfold mcpPost, bind. fold (post_params sid). rewrite post_run. reflexivity.
Qed.

Lemma close_session_run (sid : option string) (s : VU) :
  close_session sid s =
  (Some tt,
   {| world := match sid with
               | Some t => if is_empty t then world s
                           else snd (http_del SERVER_URL (delete_params t) (world s))
               | None => world s
               end;
      samples := samples s;
      trace := trace s ++ teardown_events sid |}).
Proof.
  unfold close_session, teardown_events.
  destruct s as [w sm tr]. destruct sid as [t|]; simpl.
  - destruct (is_empty t); simpl.
    + unfold ret. rewrite app_nil_r. reflexivity.
    + unfold bind, del, log, ret. simpl.
      destruct (http_del SERVER_URL (delete_params t) w). reflexivity.
  - unfold ret. rewrite app_nil_r. reflexivity.
Qed.

(** One session, as a whole: its result, the samples it emits and the
    requests it sends are those of the steps above; only the world it leaves
    depends on the answer to the DELETE. *)
Lemma mcpSession_run (toolName : string) (toolArgs : value) (s : VU) :
  let invoke := call_payload toolName toolArgs in
  let out := session_result toolName toolArgs (world s) in
  mcpSession toolName toolArgs s =
  (Some out,
   {| world := after_close invoke (world s);
      samples := samples s ++ [CounterAdd mcpRequests 1; CounterAdd mcpRequests 1]
                 ++ error_samples (callResult out);
      trace := trace s ++ session_events invoke (token (world s)) |}).
Proof.
  cbv zeta. unfold mcpSession.
  unfold bind at 1. unfold now at 1.
  unfold bind at 1. rewrite mcpPost_run. cbn [pr_sessionId pr_res pr_result world].
  fold (init_response (world s)). fold (after_init (world s)). fold (token (world s)).
  unfold bind at 1. rewrite post_run. cbn [world samples trace].
  fold (after_ack (world s)).
  unfold bind at 1. rewrite mcpPost_run. cbn [pr_sessionId pr_res pr_result world samples trace].
  fold (invoke_response (call_payload toolName toolArgs) (world s)).
  fold (after_invoke (call_payload toolName toolArgs) (world s)).
  unfold bind at 1. unfold now at 1. cbn [world].
  unfold bind at 1. rewrite close_session_run. cbn [world samples trace].
  unfold bind at 1. rewrite isError_spec. unfold eval, ret at 1.
  unfold session_result, error_samples, after_close, session_events. cbn [callResult].
  repeat rewrite <- app_assoc. cbn [app].
  destruct (well_formed_success
              (Decoder.parseBody
                 (body (invoke_response (call_payload toolName toolArgs) (world s)))));
    cbn [negb]; unfold bind, emit, ret; cbn [world samples trace];
    repeat rewrite <- app_assoc; reflexivity.
Qed.

(** *** The scenario table *)

Lemma content_missing_total (r : value) : exists b, content_missing r = Some b.
Proof.
  unfold content_missing. destruct (truthy r) eqn:Tr; simpl; [|eauto].
  destruct r; try discriminate; simpl; eauto.
  destruct (truthy match lookup "result" fields with Some x => x | None => JUndefined end) eqn:Tres;
    simpl; [|eauto].
  destruct (match lookup "result" fields with Some x => x | None => JUndefined end);
    try discriminate; simpl; eauto.
Qed.

Lemma content_check_total (r : value) : exists v, content_check r = Some v.
Proof.
  unfold content_check. destruct (truthy r) eqn:Tr; [|eauto].
  destruct r; try discriminate; simpl; eauto.
  destruct (truthy match lookup "result" fields with Some x => x | None => JUndefined end) eqn:Tres;
    [|eauto].
  destruct (match lookup "result" fields with Some x => x | None => JUndefined end);
    try discriminate; simpl; eauto.
Qed.

Lemma tools_list_check_total (r : value) : exists v, tools_list_check r = Some v.
Proof.
  unfold tools_list_check. destruct (truthy r) eqn:Tr; [|eauto].
  destruct r; try discriminate; simpl; eauto.
  destruct (truthy match lookup "result" fields with Some x => x | None => JUndefined end) eqn:Tres;
    [|eauto].
  destruct (match lookup "result" fields with Some x => x | None => JUndefined end);
    try discriminate; simpl; eauto.
Qed.

(** No check of the table lets an exception escape. *)
Lemma check_total (tool : Tool) (r : value) :
  In tool TOOLS -> exists v, check tool r = Some v.
Proof.
  intros [<-|[<-|[<-|[<-|[]]]]]; cbn [check fibonacci_tool fetch_tool json_process_tool db_query_tool].
  - unfold fibonacci_check. destruct (content_missing_total r) as [[|] ->]; simpl; eauto.
  - apply content_check_total.
  - unfold json_process_check. destruct (content_missing_total r) as [[|] ->]; simpl; eauto.
  - apply content_check_total.
Qed.

(** The verdict k6 records for a check: the truthiness of what it returns. *)
Definition verdict (fn : value -> option value) (r : value) : bool :=
  match fn r with Some v => truthy v | None => false end.

Lemma k6_check_run (val : value) (name : string) (fn : value -> option value) (s : VU) :
  (exists v, fn val = Some v) ->
  k6_check val name fn s =
  (Some tt, {| world := world s;
               samples := samples s ++ [Check name (verdict fn val)];
               trace := trace s |}).
Proof.
  intros [v Hv]. unfold k6_check, verdict, bind, eval. rewrite Hv. reflexivity.
Qed.

Definition invoke_of (tool : Tool) : value := call_payload (name tool) (args tool).

(** The samples of one scenario session: two counted requests, the error
    classification, three durations and the check. *)
Definition tool_samples (tool : Tool) (w : World) : list Sample :=
  let out := session_result (name tool) (args tool) w in
  [CounterAdd mcpRequests 1; CounterAdd mcpRequests 1]
  ++ error_samples (callResult out)
  ++ [TrendAdd initDuration (timings_duration (initRes out));
      TrendAdd (metric tool) (timings_duration (callRes out));
      TrendAdd sessionDuration (inject_Z (totalDuration out));
      Check (checkName tool) (verdict (check tool) (callResult out))].

Lemma run_tool_run (tool : Tool) (s : VU) :
  In tool TOOLS ->
  run_tool tool s =
  (Some tt,
   {| world := after_close (invoke_of tool) (world s);
      samples := samples s ++ tool_samples tool (world s);
      trace := trace s ++ session_events (invoke_of tool) (token (world s)) |}).
Proof.
  intros Hin. unfold run_tool.
  unfold bind at 1. rewrite mcpSession_run. cbv zeta.
  unfold bind at 1. unfold emit at 1. cbn [world samples trace].
  unfold bind at 1. unfold emit at 1. cbn [world samples trace].
  unfold bind at 1. unfold emit at 1. cbn [world samples trace].
  rewrite k6_check_run by (apply check_total; exact Hin).
  cbn [world samples trace]. unfold tool_samples, invoke_of.
  repeat rewrite <- app_assoc. reflexivity.
Qed.

Definition list_samples (w : World) : list Sample :=
  let res := invoke_response list_payload w in
  [CounterAdd mcpRequests 1; CounterAdd mcpRequests 1;
   TrendAdd toolsListDuration (timings_duration res);
   Check "tools/list ok" (verdict tools_list_check (Decoder.parseBody (body res)))].

Lemma tools_list_session_run (s : VU) :
  tools_list_session s =
  (Some tt,
   {| world := after_close list_payload (world s);
      samples := samples s ++ list_samples (world s);
      trace := trace s ++ session_events list_payload (token (world s)) |}).
Proof.
  unfold tools_list_session.
  unfold bind at 1. rewrite mcpPost_run. cbn [pr_sessionId pr_res pr_result world samples trace].
  fold (init_response (world s)). fold (after_init (world s)). fold (token (world s)).
  unfold bind at 1. rewrite post_run. cbn [world samples trace].
  fold (after_ack (world s)).
  unfold bind at 1. rewrite mcpPost_run. cbn [pr_sessionId pr_res pr_result world samples trace].
  fold (invoke_response list_payload (world s)). fold (after_invoke list_payload (world s)).
  unfold bind at 1. unfold emit at 1. cbn [world samples trace].
  unfold bind at 1. rewrite k6_check_run by apply tools_list_check_total.
  cbn [world samples trace]. rewrite close_session_run. cbn [world samples trace].
  unfold list_samples, after_close, session_events.
  repeat rewrite <- app_assoc. reflexivity.
Qed.

(** *** One iteration *)

Fixpoint tools_world (l : list Tool) (w : World) : World :=
  match l with
  | [] => w
  | tool :: rest => tools_world rest (after_close (invoke_of tool) w)
  end.

Fixpoint tools_samples (l : list Tool) (w : World) : list Sample :=
  match l with
  | [] => []
  | tool :: rest =>
      tool_samples tool w ++ tools_samples rest (after_close (invoke_of tool) w)
  end.

Fixpoint tools_events (l : list Tool) (w : World) : list Event :=
  match l with
  | [] => []
  | tool :: rest =>
      session_events (invoke_of tool) (token w)
      ++ tools_events rest (after_close (invoke_of tool) w)
  end.

Lemma for_each_run (l : list Tool) (s : VU) :
  (forall tool, In tool l -> In tool TOOLS) ->
  for_each l run_tool s =
  (Some tt,
   {| world := tools_world l (world s);
      samples := samples s ++ tools_samples l (world s);
      trace := trace s ++ tools_events l (world s) |}).
Proof.
  revert s. induction l as [|tool rest IH]; intros s Hl.
  - destruct s. simpl. unfold ret. rewrite !app_nil_r. reflexivity.
  - cbn [for_each]. unfold bind. rewrite run_tool_run by (apply Hl; left; reflexivity).
    rewrite IH by (intros t Ht; apply Hl; right; exact Ht).
    cbn [world samples trace tools_world tools_samples tools_events].
    rewrite <- !app_assoc. reflexivity.
Qed.

Definition iteration_samples (w : World) : list Sample :=
  tools_samples TOOLS w ++ list_samples (tools_world TOOLS w).

Definition iteration_events (w : World) : list Event :=
  tools_events TOOLS w
  ++ session_events list_payload (token (tools_world TOOLS w))
  ++ [Sleep (1 # 10)].

Definition iteration_world (w : World) : World :=
  sleep (1 # 10) (after_close list_payload (tools_world TOOLS w)).

Lemma default_function_run (s : VU) :
  default_function s =
  (Some tt,
   {| world := iteration_world (world s);
      samples := samples s ++ iteration_samples (world s);
      trace := trace s ++ iteration_events (world s) |}).
Proof.
  unfold default_function.
  unfold bind at 1. rewrite for_each_run by (intros t Ht; exact Ht).
  unfold bind at 1. rewrite tools_list_session_run. cbn [world samples trace].
  unfold pause, log. cbn [world samples trace].
  unfold iteration_world, iteration_samples, iteration_events.
  rewrite <- !app_assoc. reflexivity.
Qed.


(** *** Counting requests *)

Fixpoint counter_total (metric : string) (l : list Sample) : Z :=
  match l with
  | [] => 0
  | CounterAdd m n :: rest =>
      (if (m =? metric)%string then n else 0) + counter_total metric rest
  | _ :: rest => counter_total metric rest
  end.

Fixpoint count (p : Event -> bool) (l : list Event) : nat :=
  match l with
  | [] => O
  | e :: rest => ((if p e then 1 else 0) + count p rest)%nat
  end.

(** The JSON-RPC method of a POST. *)
Definition rpc_method (e : Event) : string :=
  match e with
  | HttpPost _ (JObj fields) _ =>
      match lookup "method" fields with Some (JStr m) => m | _ => "" end
  | _ => ""
  end.

Definition is_handshake (e : Event) : bool := (rpc_method e =? "initialize")%string.
Definition is_acknowledge (e : Event) : bool :=
  (rpc_method e =? "notifications/initialized")%string.
Definition is_invoke (e : Event) : bool :=
  (rpc_method e =? "tools/call")%string || (rpc_method e =? "tools/list")%string.
Definition is_teardown (e : Event) : bool :=
  match e with HttpDel _ _ => true | _ => false end.

Lemma counter_total_app (metric : string) (a b : list Sample) :
  counter_total metric (a ++ b) = counter_total metric a + counter_total metric b.
Proof.
  induction a as [|x a IH]; [reflexivity|].
  destruct x; cbn [app counter_total]; rewrite IH; lia.
Qed.

Lemma count_app (p : Event -> bool) (a b : list Event) :
  count p (a ++ b) = (count p a + count p b)%nat.
Proof.
  induction a as [|x a IH]; [reflexivity|].
  cbn [app count]. rewrite IH. lia.
Qed.

Lemma teardown_events_count (sid : option string) :
  count is_handshake (teardown_events sid) = O /\
  count is_invoke (teardown_events sid) = O /\
  count is_acknowledge (teardown_events sid) = O /\
  (count is_teardown (teardown_events sid) <= 1)%nat.
Proof.
  unfold teardown_events. destruct sid as [t|]; [destruct (is_empty t)|];
    cbn; repeat split; lia.
Qed.

(** The steps of a session, by kind. *)
Definition is_session_invoke (invoke : value) : Prop :=
  (exists toolName toolArgs, invoke = call_payload toolName toolArgs) \/ invoke = list_payload.

Lemma session_events_count (invoke : value) (sid : option string) :
  is_session_invoke invoke ->
  count is_handshake (session_events invoke sid) = 1%nat /\
  count is_invoke (session_events invoke sid) = 1%nat /\
  count is_acknowledge (session_events invoke sid) = 1%nat /\
  (count is_teardown (session_events invoke sid) <= 1)%nat.
Proof.
  intros Hi. unfold session_events. rewrite !count_app.
  destruct (teardown_events_count sid) as (-> & -> & -> & Ht).
  destruct Hi as [(toolName & toolArgs & ->) | ->]; cbn; repeat split; lia.
Qed.

Lemma error_samples_requests (r : value) : counter_total mcpRequests (error_samples r) = 0.
Proof. unfold error_samples. destruct (well_formed_success r); reflexivity. Qed.

Lemma tool_samples_requests (tool : Tool) (w : World) :
  counter_total mcpRequests (tool_samples tool w) = 2.
Proof.
  unfold tool_samples. cbv zeta.
  rewrite !counter_total_app, error_samples_requests. reflexivity.
Qed.

Lemma tools_count (l : list Tool) (w : World) :
  counter_total mcpRequests (tools_samples l w) = 2 * Z.of_nat (List.length l) /\
  count is_handshake (tools_events l w) = List.length l /\
  count is_invoke (tools_events l w) = List.length l /\
  count is_acknowledge (tools_events l w) = List.length l /\
  (count is_teardown (tools_events l w) <= List.length l)%nat.
Proof.
  revert w. induction l as [|tool rest IH]; intros w.
  - cbn. repeat split; lia.
  - cbn [tools_samples tools_events List.length].
    rewrite counter_total_app, tool_samples_requests, !count_app.
    destruct (IH (after_close (invoke_of tool) w)) as (-> & -> & -> & -> & Ht).
    destruct (session_events_count (invoke_of tool) (token w)) as (-> & -> & -> & Hd).
    { left. unfold invoke_of. eauto. }
    repeat split; lia.
Qed.

Lemma iteration_count (w : World) :
  counter_total mcpRequests (iteration_samples w) = 10 /\
  count is_handshake (iteration_events w) = 5%nat /\
  count is_invoke (iteration_events w) = 5%nat /\
  count is_acknowledge (iteration_events w) = 5%nat /\
  (count is_teardown (iteration_events w) <= 5)%nat.
Proof.
  unfold iteration_samples, iteration_events.
  rewrite counter_total_app, !count_app.
  destruct (tools_count TOOLS w) as (-> & -> & -> & -> & Ht).
  destruct (session_events_count list_payload (token (tools_world TOOLS w)))
    as (-> & -> & -> & Hd).
  { right. reflexivity. }
  cbn in *. repeat split; lia.
Qed.

(** C3.  Over any number of iterations of a virtual user, from any state,
    the mcp_requests counter grows by exactly the number of handshake
    (initialize) requests plus the number of invoke (tools/call, tools/list)
    requests sent: one of each per session, five sessions per iteration.  The
    acknowledge notifications and the teardown DELETEs, sent in the same
    sessions, add nothing to it. *)
Theorem mcp_requests_counts_handshake_and_invoke (n : nat) (s : VU) :
  exists new,
    trace (iterations n s) = (trace s ++ new)%list /\
    counter_total mcpRequests (samples (iterations n s))
    = counter_total mcpRequests (samples s)
      + Z.of_nat (count is_handshake new + count is_invoke new) /\
    count is_handshake new = (5 * n)%nat /\
    count is_invoke new = (5 * n)%nat /\
    count is_acknowledge new = (5 * n)%nat /\
    (count is_teardown new <= 5 * n)%nat.
Proof.
  revert s. induction n as [|n IH]; intros s.
  - exists []. cbn. rewrite app_nil_r. repeat split; lia.
  - cbn [iterations]. rewrite default_function_run. cbn [snd].
    destruct (IH {| world := iteration_world (world s);
                    samples := samples s ++ iteration_samples (world s);
                    trace := trace s ++ iteration_events (world s) |})
      as (new & Htr & Hc & Hh & Hi & Ha & Ht).
    cbn [trace samples] in Htr, Hc.
    exists (iteration_events (world s) ++ new).
    destruct (iteration_count (world s)) as (Kc & Kh & Ki & Ka & Kt).
    rewrite Htr, Hc, counter_total_app, !count_app, Kc, Kh, Ki, Ka, Hh, Hi, Ha.
    rewrite <- app_assoc. repeat split; lia.
Qed.

End Sessions.

(** *** The teardown *)
Section Teardown.
Context {json : JSONLib} {rt : Runtime}.

(** The state of a virtual user, seen by the runtime that answers DELETE
    requests with [d]. *)
Definition recast d (s : @VU rt) : @VU (with_del rt d) :=
  @Build_VU (with_del rt d) (world s) (samples s) (trace s).

Lemma teardown_events_spec (sid : option string) :
  count is_teardown (teardown_events sid) = (if has_session sid then 1 else 0)%nat.
Proof.
  unfold teardown_events, has_session.
  destruct sid as [t|]; [destruct (is_empty t)|]; reflexivity.
Qed.

(** C4.  For every session execution, whatever the target answers to the
    teardown DELETE: the session's result, every sample it records (the
    requests counted, the error counter and error rate) and the requests it
    sends are the same; the error classification is a function of the invoke
    step's decoded result alone; a DELETE is sent exactly when a session token
    was captured, after the three POSTs; and for every scenario of the table
    the samples recorded for the session, its latency trends included, do not
    depend on that answer either. *)
Theorem teardown_outcome_is_ignored
  (d : string -> Params -> World -> Response * World)
  (toolName : string) (toolArgs : value) (s : VU) :
  let r := mcpSession toolName toolArgs s in
  let r' := @mcpSession json (with_del rt d) toolName toolArgs (recast d s) in
  fst r' = fst r /\
  samples (snd r') = samples (snd r) /\
  trace (snd r') = trace (snd r) /\
  (exists out,
     fst r = Some out /\
     samples (snd r) =
       samples s ++ [CounterAdd mcpRequests 1; CounterAdd mcpRequests 1]
       ++ error_samples (Decoder.parseBody (body (callRes out))) /\
     trace (snd r) =
       trace s
       ++ [HttpPost SERVER_URL initialize_payload (post_params None);
           HttpPost SERVER_URL initialized_payload (notify_params (sessionId out));
           HttpPost SERVER_URL (call_payload toolName toolArgs) (post_params (sessionId out))]
       ++ teardown_events (sessionId out) /\
     count is_teardown (teardown_events (sessionId out))
     = (if has_session (sessionId out) then 1 else 0)%nat) /\
  Forall (fun tool =>
            samples (snd (@run_tool json (with_del rt d) tool (recast d s)))
            = samples (snd (run_tool tool s)))
         TOOLS.
Proof.
  cbv zeta. rewrite (@mcpSession_run json rt).
  rewrite (@mcpSession_run json (with_del rt d)). cbn [fst snd samples trace].
  split; [reflexivity|]. split; [reflexivity|]. split; [reflexivity|]. split.
  - eexists. split; [reflexivity|]. cbn [callRes callResult session_result sessionId].
    split; [reflexivity|]. split; [reflexivity|]. apply teardown_events_spec.
  - rewrite Forall_forall. intros tool Hin.
    rewrite (@run_tool_run json rt tool s Hin).
    rewrite (@run_tool_run json (with_del rt d) tool (recast d s) Hin).
    reflexivity.
Qed.

(** *** The error classification *)

(** The three protocol-level causes of a failed session, read on the decoded
    payload of the invoke step. *)
Definition no_result (r : value) : Prop := truthy r = false.
Definition carries_error (r : value) : Prop :=
  exists e, get r "error" = Some e /\ truthy e = true.
Definition lacks_result (r : value) : Prop :=
  exists x, get r "result" = Some x /\ truthy x = false.

Lemma well_formed_success_false (r : value) :
  well_formed_success r = false <-> no_result r \/ carries_error r \/ lacks_result r.
Proof.
  unfold no_result, carries_error, lacks_result. split.
  - intros Hw. destruct (truthy r) eqn:Tr; [right|left; reflexivity].
    destruct r; try discriminate; try (right; eexists; split; reflexivity).
    cbn [well_formed_success get] in *.
    apply andb_false_iff in Hw. destruct Hw as [He|Hr].
    + left. eexists. split; [reflexivity|]. apply negb_false_iff. exact He.
    + right. eexists. split; [reflexivity|]. exact Hr.
  - intros [Hn|[(e & Hg & He)|(x & Hg & Hx)]].
    + destruct r; try reflexivity. discriminate.
    + destruct r; try reflexivity. cbn [well_formed_success get] in *.
      injection Hg as ->. rewrite He. reflexivity.
    + destruct r; try reflexivity. cbn [well_formed_success get] in *.
      injection Hg as ->. rewrite Hx. apply andb_false_r.
Qed.

(** C1 (amended).  For every session execution, the failure recorded through
    mcp_errors and mcp_error_rate is decided by the invoke step's decoded
    payload alone: the session is recorded as failed exactly when the decode
    yields no result (a falsy value), or the payload carries a truthy error
    field, or it carries no truthy result field, and as succeeded otherwise.
    The scenario's validation predicate takes no part in it: for every
    scenario of the table its verdict is recorded separately, as a k6 check,
    after the same classification. *)
Theorem session_error_classification (toolName : string) (toolArgs : value) (s : VU) :
  (exists out s',
     mcpSession toolName toolArgs s = (Some out, s') /\
     callResult out = Decoder.parseBody (body (callRes out)) /\
     let failed := no_result (callResult out) \/ carries_error (callResult out)
                   \/ lacks_result (callResult out) in
     (failed ->
      samples s' = samples s ++ [CounterAdd mcpRequests 1; CounterAdd mcpRequests 1;
                                 CounterAdd mcpErrors 1; RateAdd mcpErrorRate true]) /\
     (~ failed ->
      samples s' = samples s ++ [CounterAdd mcpRequests 1; CounterAdd mcpRequests 1;
                                 RateAdd mcpErrorRate false])) /\
  Forall (fun tool =>
            exists s',
              run_tool tool s = (Some tt, s') /\
              let out := session_result (name tool) (args tool) (world s) in
              samples s' =
                samples s ++ [CounterAdd mcpRequests 1; CounterAdd mcpRequests 1]
                ++ error_samples (callResult out)
                ++ [TrendAdd initDuration (timings_duration (initRes out));
                    TrendAdd (metric tool) (timings_duration (callRes out));
                    TrendAdd sessionDuration (inject_Z (totalDuration out));
                    Check (checkName tool) (verdict (check tool) (callResult out))])
         TOOLS.
Proof.
  split.
  - rewrite mcpSession_run. cbv zeta. eexists. eexists. split; [reflexivity|].
    cbn [callRes callResult session_result samples].
    split; [reflexivity|].
    set (r := Decoder.parseBody _).
    pose proof (well_formed_success_false r) as Hw.
    unfold error_samples. destruct (well_formed_success r).
    + split.
      * intros Hf. apply Hw in Hf. discriminate.
      * intros _. reflexivity.
    + split.
      * intros _. reflexivity.
      * intros Hf. exfalso. apply Hf. apply Hw. reflexivity.
  - rewrite Forall_forall. intros tool Hin.
    rewrite (run_tool_run tool s Hin). eexists. split; [reflexivity|].
    reflexivity.
Qed.

End Teardown.

(** *** Thresholds and the summary *)
Section SummaryFacts.
Context {rt : Runtime}.

(** The end-of-run data with other threshold outcomes: [f] gives, for each
    metric, the outcomes k6 attaches to it. *)
Definition retag (f : string -> list (string * bool)) (data : SummaryData) : SummaryData :=
  map (fun kv => (fst kv, {| values := values (snd kv); thresholds := f (fst kv) |})) data.

Lemma lookup_retag f (k : string) (data : SummaryData) :
  lookup k (retag f data) =
  match lookup k data with
  | Some m => Some {| values := values m; thresholds := f k |}
  | None => None
  end.
Proof.
  induction data as [|[k' m] rest IH]; [reflexivity|].
  cbn [retag map lookup fst snd]. fold (retag f rest).
  destruct (String.eqb_spec k k') as [->|_]; [reflexivity | exact IH].
Qed.

Lemma getValue_retag f data metric key fallback :
  getValue (retag f data) metric key fallback = getValue data metric key fallback.
Proof. unfold getValue. rewrite lookup_retag. destruct (lookup metric data); reflexivity. Qed.

Lemma getPercentile_retag f data metric p :
  getPercentile (retag f data) metric p = getPercentile data metric p.
Proof. unfold getPercentile. rewrite lookup_retag. destruct (lookup metric data); reflexivity. Qed.

Lemma extractTrend_retag f data name :
  extractTrend (retag f data) name = extractTrend data name.
Proof. unfold extractTrend. rewrite lookup_retag. destruct (lookup name data); reflexivity. Qed.

Lemma collect_tools_retag f data entries :
  collect_tools (retag f data) entries = collect_tools data entries.
Proof.
  induction entries as [|[toolName metricName] rest IH]; [reflexivity|].
  cbn [collect_tools]. rewrite extractTrend_retag, IH. reflexivity.
Qed.

Lemma build_summary_retag f (w : World) (data : SummaryData) :
  build_summary w (retag f data) = build_summary w data.
Proof.
  unfold build_summary.
  rewrite !getValue_retag, !getPercentile_retag, !extractTrend_retag, collect_tools_retag.
  reflexivity.
Qed.

Lemma lookup_set_property_same {A} (k : string) (v : A) (fields : list (string * A)) :
  lookup k (set_property k v fields) = Some v.
Proof.
  induction fields as [|[k' v'] rest IH]; cbn [set_property lookup].
  - rewrite String.eqb_refl. reflexivity.
  - destruct (String.eqb_spec k k') as [->|Hne]; cbn [lookup].
    + rewrite String.eqb_refl. reflexivity.
    + destruct (String.eqb_spec k k'); [contradiction | exact IH].
Qed.

Lemma lookup_set_property_other {A} (k k0 : string) (v : A) (fields : list (string * A)) :
  (k0 =? k)%string = false ->
  lookup k0 (set_property k v fields) = lookup k0 fields.
Proof.
  intros Hne. induction fields as [|[k' v'] rest IH]; cbn [set_property lookup].
  - rewrite Hne. reflexivity.
  - destruct (String.eqb_spec k k') as [<-|_]; cbn [lookup].
    + rewrite Hne. reflexivity.
    + rewrite IH. reflexivity.
Qed.

Lemma lookup_collect_tools data (entries : list (string * string)) toolName metricName :
  NoDup (map fst entries) ->
  In (toolName, metricName) entries ->
  lookup toolName (collect_tools data entries) = extractTrend data metricName.
Proof.
  assert (Habsent : forall l, ~ In toolName (map fst l) ->
                              lookup toolName (collect_tools data l) = None).
  { induction l as [|[t m] l IHl]; intros Hn; [reflexivity|].
    cbn [collect_tools]. cbn [map fst In] in Hn.
    destruct (extractTrend data m); cbn [lookup].
    - destruct (String.eqb_spec toolName t) as [->|_].
      + exfalso. apply Hn. left. reflexivity.
      + apply IHl. intros Hi. apply Hn. right. exact Hi.
    - apply IHl. intros Hi. apply Hn. right. exact Hi. }
  induction entries as [|[t m] rest IH]; intros Hnd Hin; [contradiction|].
  cbn [map fst] in Hnd. inversion Hnd as [|? ? Hnot Hrest]; subst.
  cbn [collect_tools]. destruct Hin as [E|Hin].
  - injection E as -> ->. destruct (extractTrend data metricName) eqn:Et; cbn [lookup].
    + rewrite String.eqb_refl. reflexivity.
    + apply Habsent. exact Hnot.
  - assert (Hne : toolName <> t).
    { intros ->. apply Hnot. apply (in_map fst) in Hin. exact Hin. }
    destruct (extractTrend data m); cbn [lookup].
    + destruct (String.eqb_spec toolName t); [contradiction|]. apply IH; assumption.
    + apply IH; assumption.
Qed.

Lemma toolMetrics_NoDup : NoDup (map fst toolMetrics).
Proof.
  cbn. repeat (constructor; [cbn; intuition discriminate|]). constructor.
Qed.

(** What a field of the summary is to show of the end-of-run data, for a
    metric and one of its values: the number k6 recorded; [undefined] when the
    metric lacks that value; the fallback when the run has no such metric. *)
Definition shows (data : SummaryData) (metric key : string) (fallback field : Field)
  : Prop :=
  match lookup metric data with
  | None => field = fallback
  | Some m =>
      match lookup key (values m) with
      | Some q => field = FNum q
      | None => field = FUndefined
      end
  end.

(** What a trend of the summary is to show of a metric: null when the run
    has no such metric, else its average, extremes, percentiles and count. *)
Definition shows_trend (data : SummaryData) (metric : string) (t : option TrendSummary)
  : Prop :=
  match lookup metric data with
  | None => t = None
  | Some _ =>
      exists ts,
        t = Some ts /\
        shows data metric "avg" FNull (t_avg ts) /\
        shows data metric "min" FNull (t_min ts) /\
        shows data metric "max" FNull (t_max ts) /\
        shows data metric "p(50)" FNull (t_p50 ts) /\
        shows data metric "p(90)" FNull (t_p90 ts) /\
        shows data metric "p(95)" FNull (t_p95 ts) /\
        shows data metric "p(99)" FNull (t_p99 ts) /\
        shows data metric "count" FNull (t_count ts)
  end.

Lemma getValue_shows (data : SummaryData) (metric key : string) (fallback : Field) :
  shows data metric key fallback (getValue data metric key fallback).
Proof.
  unfold shows, getValue, read. destruct (lookup metric data) as [m|]; [|reflexivity].
  destruct (lookup key (values m)); reflexivity.
Qed.

Lemma getPercentile_shows (data : SummaryData) (metric p : string) :
  shows data metric ("p(" ++ p ++ ")") FNull (getPercentile data metric p).
Proof.
  unfold shows, getPercentile, read. destruct (lookup metric data) as [m|]; [|reflexivity].
  destruct (lookup ("p(" ++ p ++ ")") (values m)); reflexivity.
Qed.

Lemma extractTrend_shows (data : SummaryData) (metric : string) :
  shows_trend data metric (extractTrend data metric).
Proof.
  unfold shows_trend, extractTrend, shows.
  destruct (lookup metric data) as [m|]; [|reflexivity].
  eexists. split; [reflexivity|]. cbn [t_avg t_min t_max t_p50 t_p90 t_p95 t_p99 t_count].
  unfold read. repeat split.
  all: match goal with |- context [lookup ?k (values ?x)] =>
         destruct (lookup k (values x)); reflexivity end.
Qed.

(** C5.  The script's one threshold is on the rate of [http_req_failed],
    ['rate<0.05']: a run whose measured rate is 5% or more, and so every run
    whose rate exceeds the ceiling, is marked failed.  The summary, though,
    never looks at a threshold outcome: whatever the outcomes attached to the
    metrics, the summary object is the same, and it is written under the
    output path.  It is the full summary: each HTTP counter, each MCP counter
    and each latency value is the number the data holds for its metric (the
    fallback when the run has no such metric), the session trend and the
    trend of each of the six tool metrics, under its tool name, hold the
    average, extremes, percentiles and count the data holds, and a trend is
    left out only when the run recorded no such metric. *)
Theorem threshold_breach_keeps_summary :
  (forall (data : SummaryData) (m : MetricData) (r : Q),
     lookup "http_req_failed" data = Some m ->
     lookup "rate" (values m) = Some r ->
     (run_failed options data = true <-> (5 # 100 <= r)%Q)) /\
  (forall f (w : World) (data : SummaryData),
     build_summary w (retag f data) = build_summary w data) /\
  (forall (stringify : Summary -> string) (w : World) (data : SummaryData),
     (outputPath =? "stdout")%string = false ->
     lookup outputPath (handleSummary stringify w data)
     = Some (stringify (build_summary w data))) /\
  (forall (w : World) (data : SummaryData),
     let summary := build_summary w data in
     server summary = SERVER_NAME /\
     timestamp summary = Date_toISOString w /\
     config summary
     = {| vus := 50; config_duration := "5m"; server_url := SERVER_URL |} /\
     shows data "http_reqs" "count" (FNum 0) (total_requests (http summary)) /\
     shows data "http_req_failed" "passes" (FNum 0) (failed_requests (http summary)) /\
     shows data "http_reqs" "rate" (FNum 0) (rps (http summary)) /\
     shows data "http_req_duration" "avg" FUndefined (avg (latency (http summary))) /\
     shows data "http_req_duration" "min" FUndefined (min (latency (http summary))) /\
     shows data "http_req_duration" "max" FUndefined (max (latency (http summary))) /\
     shows data "http_req_duration" "p(50)" FNull (p50 (latency (http summary))) /\
     shows data "http_req_duration" "p(90)" FNull (p90 (latency (http summary))) /\
     shows data "http_req_duration" "p(95)" FNull (p95 (latency (http summary))) /\
     shows data "http_req_duration" "p(99)" FNull (p99 (latency (http summary))) /\
     shows data "mcp_requests" "count" (FNum 0) (total_mcp_requests (mcp summary)) /\
     shows data "mcp_errors" "count" (FNum 0) (mcp_errors (mcp summary)) /\
     shows data "mcp_error_rate" "rate" (FNum 0) (error_rate (mcp summary)) /\
     shows_trend data "mcp_full_session_duration" (session summary) /\
     shows_trend data "mcp_fibonacci_duration"
       (lookup "calculate_fibonacci" (tools summary)) /\
     shows_trend data "mcp_fetch_duration"
       (lookup "fetch_external_data" (tools summary)) /\
     shows_trend data "mcp_json_process_duration"
       (lookup "process_json_data" (tools summary)) /\
     shows_trend data "mcp_db_query_duration"
       (lookup "simulate_database_query" (tools summary)) /\
     shows_trend data "mcp_initialize_duration"
       (lookup "_initialize" (tools summary)) /\
     shows_trend data "mcp_tools_list_duration"
       (lookup "_tools_list" (tools summary))).
Proof.
  split; [|split; [|split]].
  - intros data m r Hm Hr.
    unfold run_failed, options, threshold_holds. cbn [thresholds_of existsb aggregation
      comparison bound].
    rewrite Hm, Hr. unfold compare. rewrite negb_involutive, !orb_false_r.
    apply Qle_bool_iff.
  - intros f w data. apply build_summary_retag.
  - intros stringify w data Hne. unfold handleSummary. cbv zeta.
    rewrite lookup_set_property_other by exact Hne.
    apply lookup_set_property_same.
  - intros w data. cbv zeta.
    assert (Htool : forall toolName metricName,
               In (toolName, metricName) toolMetrics ->
               shows_trend data metricName
                 (lookup toolName (collect_tools data toolMetrics))).
    { intros toolName metricName Hin.
      rewrite (lookup_collect_tools data toolMetrics toolName metricName
                 toolMetrics_NoDup Hin).
      apply extractTrend_shows. }
    cbn [build_summary server timestamp config http mcp latency session tools
         total_requests failed_requests rps avg min max p50 p90 p95 p99
         total_mcp_requests mcp_errors error_rate].
    do 3 (split; [reflexivity|]).
    do 6 (split; [apply getValue_shows|]).
    split; [apply (getPercentile_shows data "http_req_duration" "50")|].
    split; [apply (getPercentile_shows data "http_req_duration" "90")|].
    split; [apply (getPercentile_shows data "http_req_duration" "95")|].
    split; [apply (getPercentile_shows data "http_req_duration" "99")|].
    do 3 (split; [apply getValue_shows|]).
    split; [apply extractTrend_shows|].
    repeat split; apply Htool; cbn; tauto.
Qed.

End SummaryFacts.
End K6Facts.

(* --------------------------------------------------------------------- *)
(** ** The tool handlers                                                  *)
(* --------------------------------------------------------------------- *)
Module ServersFacts.
Import Servers.

(** The Fibonacci numbers. *)
Fixpoint fibonacci_number (n : nat) : Z :=
  match n with
  | O => 0
  | S m => match m with
           | O => 1
           | S k => fibonacci_number m + fibonacci_number k
           end
  end.

Lemma fibonacci_number_SS (k : nat) :
  fibonacci_number (S (S k)) = fibonacci_number (S k) + fibonacci_number k.
Proof. reflexivity. Qed.

(** The loop of the Node.js handler computes them in linear time. *)
Lemma node_iter_correct (k : nat) :
  Nat.iter k Node.fib_step (0, 1) = (fibonacci_number k, fibonacci_number (S k)).
Proof.
  induction k as [|k IH]; [reflexivity|].
  change (Nat.iter (S k) Node.fib_step (0, 1))
    with (Node.fib_step (Nat.iter k Node.fib_step (0, 1))).
  rewrite IH. unfold Node.fib_step. cbn [fst snd].
  rewrite fibonacci_number_SS. f_equal. lia.
Qed.

(** Up to the 41st they fit a signed 32-bit integer, hence a 64-bit one and
    the integers a JavaScript number holds exactly. *)
Lemma fibonacci_number_small (n : nat) :
  (n <= 41)%nat -> 0 <= fibonacci_number n < 2 ^ 31.
Proof.
  intros Hn.
  assert (Hall : forallb (fun k => let x := fst (Nat.iter k Node.fib_step (0, 1)) in
                                   (0 <=? x) && (x <? 2 ^ 31))
                         (seq 0 42) = true) by (vm_compute; reflexivity).
  rewrite forallb_forall in Hall.
  specialize (Hall n). rewrite in_seq in Hall. cbv zeta in Hall.
  rewrite node_iter_correct in Hall. cbn [fst] in Hall.
  assert (H : (0 <=? fibonacci_number n) && (fibonacci_number n <? 2 ^ 31) = true)
    by (apply Hall; lia).
  apply andb_prop in H. destruct H as [H0 H1].
  apply Z.leb_le in H0. apply Z.ltb_lt in H1. lia.
Qed.

Lemma fib_rec_unfold (bits x : Z) :
  fib_rec bits x =
  if x <=? 1 then x else wrap bits (fib_rec bits (x - 1) + fib_rec bits (x - 2)).
Proof.
  rewrite fib_rec_equation_1. destruct (Z_le_gt_dec x 1) as [Hle|Hgt]; cbn.
  - destruct (Z.leb_spec x 1); [reflexivity | lia].
  - destruct (Z.leb_spec x 1); [lia | reflexivity].
Qed.

Lemma wrap_small (bits z : Z) :
  0 < bits -> - 2 ^ (bits - 1) <= z < 2 ^ (bits - 1) -> wrap bits z = z.
Proof.
  intros Hb Hz. unfold wrap.
  assert (E : 2 ^ bits = 2 * 2 ^ (bits - 1)).
  { replace bits with (Z.succ (bits - 1)) at 1 by lia. apply Z.pow_succ_r. lia. }
  rewrite Z.mod_small by lia. lia.
Qed.

(** On the accepted inputs the recursion computes the Fibonacci number, on
    any integer width of at least 32 bits: no addition wraps. *)
Lemma fib_rec_correct (bits : Z) (n : nat) :
  32 <= bits -> (n <= 40)%nat ->
  fib_rec bits (Z.of_nat n) = fibonacci_number n.
Proof.
  intros Hb.
  assert (Hpow : 2 ^ 31 <= 2 ^ (bits - 1)) by (apply Z.pow_le_mono_r; lia).
  assert (Hboth : (n <= 40 -> fib_rec bits (Z.of_nat n) = fibonacci_number n)%nat /\
                  (S n <= 40 -> fib_rec bits (Z.of_nat (S n)) = fibonacci_number (S n))%nat).
  { induction n as [|n [IH0 IH1]].
    - split; intros _; rewrite fib_rec_unfold; reflexivity.
    - split; [exact IH1|]. intros Hn.
      rewrite fib_rec_unfold.
      destruct (Z.leb_spec (Z.of_nat (S (S n))) 1) as [Hle|_]; [lia|].
      replace (Z.of_nat (S (S n)) - 1) with (Z.of_nat (S n)) by lia.
      replace (Z.of_nat (S (S n)) - 2) with (Z.of_nat n) by lia.
      rewrite IH0, IH1 by lia. rewrite <- fibonacci_number_SS.
      apply wrap_small; [lia|].
      pose proof (fibonacci_number_small (S (S n))). lia. }
  intros Hn. apply Hboth. exact Hn.
Qed.

Lemma go_fib_correct (n : Z) : 0 <= n <= 40 -> Go.fib n = fibonacci_number (Z.to_nat n).
Proof.
  intros Hn. unfold Go.fib. rewrite <- (Z2Nat.id n) at 1 by lia.
  apply fib_rec_correct; lia.
Qed.

Lemma java_fibonacci_correct (n : Z) :
  0 <= n <= 40 -> Java.fibonacci n = fibonacci_number (Z.to_nat n).
Proof.
  intros Hn. unfold Java.fibonacci. rewrite <- (Z2Nat.id n) at 1 by lia.
  apply fib_rec_correct; lia.
Qed.

Lemma node_fib_loop_correct (n : Z) :
  fst (Node.fib_loop n) = fibonacci_number (Z.to_nat n).
Proof. unfold Node.fib_loop. rewrite node_iter_correct. reflexivity. Qed.

(** Every value the loop of the Node.js handler holds, for an accepted [n],
    is an integer a JavaScript number represents exactly, so its additions
    are the integer additions of the model. *)
Lemma node_fib_loop_exact (n k : Z) :
  0 <= k <= n -> n <= 40 ->
  0 <= fst (Node.fib_loop k) < 2 ^ 53 /\ 0 <= snd (Node.fib_loop k) < 2 ^ 53.
Proof.
  intros Hk Hn. unfold Node.fib_loop. rewrite node_iter_correct. cbn [fst snd].
  pose proof (fibonacci_number_small (Z.to_nat k)).
  pose proof (fibonacci_number_small (S (Z.to_nat k))).
  assert (2 ^ 31 < 2 ^ 53) by (apply Z.pow_lt_mono_r; lia).
  lia.
Qed.

Section WithJSON.
Context {json : JSONLib}.

(** C10.  For every integer [n] from 0 to 40 the Go handler (recursive, on
    64-bit integers) and the Node.js handler (iterative) succeed with the
    same result value, the [n]-th Fibonacci number; for every integer outside
    that range both fail with an error and no result. *)
Theorem go_and_node_fibonacci_agree (n : Z) :
  (0 <= n <= 40 ->
   Go.handleFibonacci {| Go.N := n |}
   = Success {| Go.Input := n;
                Go.Result := fibonacci_number (Z.to_nat n);
                Go.ServerType := "go" |} /\
   Node.calculate_fibonacci n
   = Success (Node.text_content
                (JSON_stringify
                   (JObj [("input", JNum n);
                          ("result", JNum (fibonacci_number (Z.to_nat n)));
                          ("server_type", JStr "nodejs")])))) /\
  (n < 0 \/ 40 < n ->
   Go.handleFibonacci {| Go.N := n |} = Failure "n deve estar entre 0 e 40" /\
   Node.calculate_fibonacci n = Failure "n deve estar entre 0 e 40").
Proof.
  split.
  - intros Hn. unfold Go.handleFibonacci, Node.calculate_fibonacci. cbn [Go.N].
    destruct (Z.ltb_spec n 0); [lia|]. destruct (Z.gtb_spec n 40); [lia|]. cbn [orb].
    rewrite go_fib_correct by lia. unfold Node.fibonacci_output.
    rewrite node_fib_loop_correct. split; reflexivity.
  - intros Hn. unfold Go.handleFibonacci, Node.calculate_fibonacci. cbn [Go.N].
    destruct (Z.ltb_spec n 0); [split; reflexivity|].
    destruct (Z.gtb_spec n 40); [split; reflexivity | lia].
Qed.

End WithJSON.

(** *** The transform, on the benchmark's input *)

Definition benchmark_data : list (string * value) :=
  [("name", JStr "benchmark"); ("count", JNum 42); ("nested", JObj [("key", JStr "value")])].

Definition benchmark_transformed : list (string * value) :=
  [("name", JStr "BENCHMARK"); ("count", JNum 42); ("nested", JObj [("key", JStr "VALUE")])].

(** An entry of a map with distinct keys is what a lookup of its key finds. *)
Lemma lookup_In {A} (k : string) (v : A) (l : list (string * A)) :
  NoDup (map fst l) -> In (k, v) l -> lookup k l = Some v.
Proof.
  induction l as [|[k' v'] l IH]; intros Hnd Hin; [contradiction|].
  cbn [map fst] in Hnd. inversion Hnd as [|? ? Hnot Hrest]; subst.
  cbn [lookup]. destruct Hin as [E|Hin].
  - injection E as -> ->. rewrite String.eqb_refl. reflexivity.
  - destruct (String.eqb_spec k k') as [->|_]; [|apply IH; assumption].
    exfalso. apply Hnot. apply (in_map fst) in Hin. exact Hin.
Qed.

(** The transformed benchmark data, read by key, in whatever order its
    entries are listed. *)
Lemma benchmark_transformed_read (transformed : list (string * value)) :
  Permutation transformed benchmark_transformed ->
  get (JObj transformed) "name" = Some (JStr "BENCHMARK") /\
  get (JObj transformed) "count" = Some (JNum 42) /\
  get (JObj transformed) "nested" = Some (JObj [("key", JStr "VALUE")]).
Proof.
  intros Hp.
  assert (Hnd : NoDup (map fst transformed)).
  { apply (Permutation_NoDup (l := map fst benchmark_transformed)).
    - apply Permutation_map. apply Permutation_sym. exact Hp.
    - cbn. repeat (constructor; [cbn; intuition discriminate|]). constructor. }
  assert (Hin : forall kv, In kv benchmark_transformed -> In kv transformed).
  { intros kv. apply Permutation_in. apply Permutation_sym. exact Hp. }
  cbn [get].
  rewrite (lookup_In "name" (JStr "BENCHMARK") transformed Hnd) by (apply Hin; cbn; tauto).
  rewrite (lookup_In "count" (JNum 42) transformed Hnd) by (apply Hin; cbn; tauto).
  rewrite (lookup_In "nested" (JObj [("key", JStr "VALUE")]) transformed Hnd)
    by (apply Hin; cbn; tauto).
  repeat split.
Qed.

Section WithLibraries.
Context {text : StringLib} {go : Go.Library} {java : Java.Library}.

Lemma range_one (x : string * value) : Go.range [x] = [x].
Proof.
  apply Permutation_length_1_inv. apply Permutation_sym. apply Go.range_permutes.
Qed.

Lemma HashMap_one (x : string * value) : Java.HashMap [x] = [x].
Proof.
  apply Permutation_length_1_inv. apply Permutation_sym. apply Java.HashMap_permutes.
Qed.

Lemma node_transform_benchmark :
  Node.transformStrings (JObj benchmark_data) = JObj benchmark_transformed.
Proof.
  cbn. rewrite (toUpperCase_ascii "benchmark"), (toUpperCase_ascii "value") by reflexivity.
  reflexivity.
Qed.

(** The Go and the Java handler on the benchmark's input, in whatever
    order the argument map lists its entries. *)
Lemma go_transform_benchmark (data : list (string * value)) :
  Permutation data benchmark_data ->
  exists out,
    Go.handleProcessData data = Success out /\
    Permutation (Go.OriginalKeys out) ["name"; "count"; "nested"] /\
    Permutation (Go.TransformedData out) benchmark_transformed /\
    Go.GoServerType out = "go".
Proof.
  intros Hp. eexists. split; [reflexivity|].
  cbn [Go.OriginalKeys Go.TransformedData Go.GoServerType].
  split; [|split; [|reflexivity]].
  - apply (Permutation_map fst (l' := benchmark_data)).
    apply (Permutation_trans (Go.range_permutes data) Hp).
  - eapply Permutation_trans; [apply Go.range_permutes|].
    eapply Permutation_trans; [apply Permutation_map; exact Hp|].
    cbn [benchmark_data map fst snd Go.transformStrings].
    rewrite range_one, (Go.ToUpper_ascii "benchmark"), (Go.ToUpper_ascii "value")
      by reflexivity.
    apply Permutation_refl.
Qed.

Lemma java_transform_benchmark (data : list (string * value)) :
  Permutation data benchmark_data ->
  exists keys transformed,
    Java.processJsonData data
    = [("original_keys", JArr (map JStr keys));
       ("transformed_data", JObj transformed);
       ("server_type", JStr "java")] /\
    Permutation keys ["name"; "count"; "nested"] /\
    Permutation transformed benchmark_transformed.
Proof.
  intros Hp. exists (map fst data), (Java.transformStrings data).
  split; [|split].
  - unfold Java.processJsonData. rewrite map_map. reflexivity.
  - apply (Permutation_map fst (l' := benchmark_data)). exact Hp.
  - unfold Java.transformStrings.
    eapply Permutation_trans; [apply Java.HashMap_permutes|].
    eapply Permutation_trans; [apply Permutation_map; exact Hp|].
    cbn [benchmark_data map fst snd Java.transform_entry].
    rewrite HashMap_one, (Java.toUpperCase_ascii "benchmark"),
      (Java.toUpperCase_ascii "value") by reflexivity.
    apply Permutation_refl.
Qed.

End WithLibraries.

End ServersFacts.

(* --------------------------------------------------------------------- *)
(** ** The scenarios' validation predicates, against the handlers         *)
(* --------------------------------------------------------------------- *)
Module ScenarioFacts.
Import K6 Servers ServersFacts.

Section WithJSON.
Context {json : JSONLib} {text : StringLib} {go : Go.Library} {java : Java.Library}.

(** Where the text of the first content item can be read and parsed, the
    guard in front of the [try] block lets the payload through. *)
Lemma parsed_text_guard (r doc : value) :
  parsed_text r = Some doc -> content_missing r = Some false.
Proof.
  unfold parsed_text, content_missing, obind.
  destruct r as [| |b|z|s|l|fields]; cbn [get truthy negb]; try discriminate.
  generalize (match lookup "result" fields with Some x => x | None => JUndefined end).
  intros res. destruct res as [| |b|z|s|l|inner]; cbn [get truthy negb]; try discriminate.
  generalize (match lookup "content" inner with Some x => x | None => JUndefined end).
  intros content.
  destruct content as [| |b|z|s|l|o]; cbn [get_index get truthy negb]; try discriminate;
    try reflexivity.
  destruct s as [|c s]; cbn; [discriminate | reflexivity].
Qed.

Lemma strict_eq_num_true (v : value) (n : Z) : strict_eq_num v n = true <-> v = JNum n.
Proof.
  destruct v; cbn; split; try discriminate.
  - intros E. apply Z.eqb_eq in E. subst. reflexivity.
  - intros E. injection E as ->. apply Z.eqb_refl.
Qed.

Lemma strict_eq_str_true (v : value) (s : string) : strict_eq_str v s = true <-> v = JStr s.
Proof.
  destruct v; cbn; split; try discriminate.
  - intros E. apply String.eqb_eq in E. subst. reflexivity.
  - intros E. injection E as ->. apply String.eqb_refl.
Qed.

Lemma fibonacci_check_true (r : value) :
  fibonacci_check r = Some (JBool true) <->
  exists doc, parsed_text r = Some doc /\ get doc "result" = Some (JNum 55).
Proof.
  unfold fibonacci_check. split.
  - destruct (K6Facts.content_missing_total r) as [b Hb]. rewrite Hb. cbn [obind].
    destruct b; [discriminate|].
    destruct (parsed_text r) as [doc|]; cbn [obind or_false]; [|discriminate].
    destruct (get doc "result") as [x|] eqn:Hx; cbn [obind or_false]; [|discriminate].
    intros E. injection E as E. apply strict_eq_num_true in E. subst x.
    exists doc. split; [reflexivity | exact Hx].
  - intros (doc & Hp & Hx). rewrite (parsed_text_guard r doc Hp). cbn [obind].
    rewrite Hp. cbn [obind]. rewrite Hx. reflexivity.
Qed.

Lemma fibonacci_check_bool (r : value) :
  fibonacci_check r = Some (JBool true) \/ fibonacci_check r = Some (JBool false).
Proof.
  unfold fibonacci_check.
  destruct (K6Facts.content_missing_total r) as [b Hb]. rewrite Hb. cbn [obind].
  destruct b; [right; reflexivity|].
  destruct (parsed_text r) as [doc|]; cbn [obind or_false]; [|right; reflexivity].
  destruct (get doc "result") as [x|]; cbn [obind or_false]; [|right; reflexivity].
  destruct (strict_eq_num x 55); [left | right]; reflexivity.
Qed.

(** C7 (amended).  The fibonacci scenario's predicate returns true exactly
    when [JSON.parse(r.result.content[0].text)] can be evaluated on the
    decoded payload and yields a document whose result field is the number
    55, and false otherwise; and for the scenario's input 10 the Go, Node.js
    and Java handlers all produce the result 55. *)
Theorem fibonacci_check_validates_55 :
  (forall r : value,
     fibonacci_check r = Some (JBool true) <->
     exists doc, parsed_text r = Some doc /\ get doc "result" = Some (JNum 55)) /\
  (forall r : value,
     fibonacci_check r = Some (JBool true) \/ fibonacci_check r = Some (JBool false)) /\
  args fibonacci_tool = JObj [("n", JNum 10)] /\
  Go.handleFibonacci {| Go.N := 10 |}
  = Success {| Go.Input := 10; Go.Result := 55; Go.ServerType := "go" |} /\
  Node.calculate_fibonacci 10
  = Success (Node.text_content
               (JSON_stringify (JObj [("input", JNum 10); ("result", JNum 55);
                                      ("server_type", JStr "nodejs")]))) /\
  Java.calculateFibonacci 10
  = Success [("input", JNum 10); ("result", JNum 55); ("server_type", JStr "java")].
Proof.
  split; [exact fibonacci_check_true|]. split; [exact fibonacci_check_bool|].
  split; [reflexivity|].
  unfold Go.handleFibonacci, Node.calculate_fibonacci, Java.calculateFibonacci,
    Node.fibonacci_output.
  cbn [Go.N Z.ltb Z.gtb Z.compare Pos.compare Pos.compare_cont orb].
  rewrite go_fib_correct, node_fib_loop_correct, java_fibonacci_correct by lia.
  repeat split.
Qed.

Lemma json_process_check_true (r : value) :
  json_process_check r = Some (JBool true) <->
  exists doc data,
    parsed_text r = Some doc /\
    get doc "transformed_data" = Some data /\
    get data "name" = Some (JStr "BENCHMARK").
Proof.
  unfold json_process_check. split.
  - destruct (K6Facts.content_missing_total r) as [b Hb]. rewrite Hb. cbn [obind].
    destruct b; [discriminate|].
    destruct (parsed_text r) as [doc|]; cbn [obind or_false]; [|discriminate].
    destruct (get doc "transformed_data") as [data|] eqn:Hd; cbn [obind or_false];
      [|discriminate].
    destruct (get data "name") as [x|] eqn:Hx; cbn [obind or_false]; [|discriminate].
    intros E. injection E as E. apply strict_eq_str_true in E. subst x.
    exists doc, data. repeat split; assumption.
  - intros (doc & data & Hp & Hd & Hx). rewrite (parsed_text_guard r doc Hp). cbn [obind].
    rewrite Hp. cbn [obind]. rewrite Hd. cbn [obind]. rewrite Hx. reflexivity.
Qed.

Lemma json_process_check_bool (r : value) :
  json_process_check r = Some (JBool true) \/ json_process_check r = Some (JBool false).
Proof.
  unfold json_process_check.
  destruct (K6Facts.content_missing_total r) as [b Hb]. rewrite Hb. cbn [obind].
  destruct b; [right; reflexivity|].
  destruct (parsed_text r) as [doc|]; cbn [obind or_false]; [|right; reflexivity].
  destruct (get doc "transformed_data") as [data|]; cbn [obind or_false];
    [|right; reflexivity].
  destruct (get data "name") as [x|]; cbn [obind or_false]; [|right; reflexivity].
  destruct (strict_eq_str x "BENCHMARK"); [left | right]; reflexivity.
Qed.

(** C8.  The transform scenario's predicate returns true exactly when the
    decoded payload's [result.content[0].text] parses as JSON whose
    [transformed_data.name] is the string BENCHMARK, and false otherwise; and
    on the scenario's input [{name: "benchmark", count: 42, nested: {key:
    "value"}}] the Node.js, Go and Java handlers upper-case every string
    value, the nested one included, and keep the number: the transformed data
    holds the entries of [{name: "BENCHMARK", count: 42, nested: {key:
    "VALUE"}}]: in Node.js in that order; in Go and in Java, whose maps list
    their entries in an order of their own, in some order, as do the
    original keys they report, and that whatever the order in which the
    argument map lists the input.  Read by key, in any order of the entries,
    the transformed data gives BENCHMARK, 42 and the nested VALUE. *)
Theorem json_process_check_validates_benchmark :
  (forall r : value,
     json_process_check r = Some (JBool true) <->
     exists doc data,
       parsed_text r = Some doc /\
       get doc "transformed_data" = Some data /\
       get data "name" = Some (JStr "BENCHMARK")) /\
  (forall r : value,
     json_process_check r = Some (JBool true) \/ json_process_check r = Some (JBool false)) /\
  args json_process_tool = JObj [("data", JObj benchmark_data)] /\
  Node.process_json_data benchmark_data
  = Success (Node.text_content
               (JSON_stringify
                  (JObj [("original_keys", JArr [JStr "name"; JStr "count"; JStr "nested"]);
                         ("transformed_data", JObj benchmark_transformed);
                         ("server_type", JStr "nodejs")]))) /\
  (forall data,
     Permutation data benchmark_data ->
     exists out,
       Go.handleProcessData data = Success out /\
       Permutation (Go.OriginalKeys out) ["name"; "count"; "nested"] /\
       Permutation (Go.TransformedData out) benchmark_transformed /\
       Go.GoServerType out = "go") /\
  (forall data,
     Permutation data benchmark_data ->
     exists keys transformed,
       Java.processJsonData data
       = [("original_keys", JArr (map JStr keys));
          ("transformed_data", JObj transformed);
          ("server_type", JStr "java")] /\
       Permutation keys ["name"; "count"; "nested"] /\
       Permutation transformed benchmark_transformed) /\
  (forall transformed,
     Permutation transformed benchmark_transformed ->
     get (JObj transformed) "name" = Some (JStr "BENCHMARK") /\
     get (JObj transformed) "count" = Some (JNum 42) /\
     get (JObj transformed) "nested" = Some (JObj [("key", JStr "VALUE")])).
Proof.
  split; [exact json_process_check_true|]. split; [exact json_process_check_bool|].
  split; [reflexivity|]. split; [|split; [|split]].
  - unfold Node.process_json_data, Node.process_output.
    rewrite node_transform_benchmark. reflexivity.
  - exact go_transform_benchmark.
  - exact java_transform_benchmark.
  - exact benchmark_transformed_read.
Qed.

(** A JSON-RPC response carrying a tool result, as the servers' SDKs frame it. *)
Definition rpc_response (id : Z) (result : value) : value :=
  JObj [("jsonrpc", JStr "2.0"); ("id", JNum id); ("result", result)].

(** End to end: when the client's [JSON.parse] reads back the document the
    Node.js handler serialised, the response to the scenario's call passes
    the scenario's check. *)
Lemma node_fibonacci_passes_check (toolResult : value) :
  JSON_parse (JStr (JSON_stringify (Node.fibonacci_output 10)))
  = Some (Node.fibonacci_output 10) ->
  Node.calculate_fibonacci 10 = Success toolResult ->
  fibonacci_check (rpc_response 2 toolResult) = Some (JBool true).
Proof.
  intros Hrt Hcall. apply fibonacci_check_true.
  unfold Node.calculate_fibonacci in Hcall. cbn [Z.ltb Z.gtb Z.compare Pos.compare
    Pos.compare_cont orb] in Hcall.
  injection Hcall as <-.
  exists (Node.fibonacci_output 10). split; [exact Hrt | reflexivity].
Qed.

End WithJSON.
End ScenarioFacts.

(* --------------------------------------------------------------------- *)
(** ** The orchestrator                                                   *)
(* --------------------------------------------------------------------- *)
Module OrchestratorFacts.
Import Orchestrator.
#[local] Open Scope list_scope.

Section WithHost.
Context {H : Host}.

(** [yields m Q]: from any state, [m] goes on (the script does not end) with
    a value [a], having appended the events [evs], and [Q a evs] holds. *)
Definition yields {A} (m : Sh A) (Q : A -> list Event -> Prop) : Prop :=
  forall s, exists a s' evs,
    m s = (Done a, s') /\ trace s' = trace s ++ evs /\ Q a evs.

Lemma yields_ret {A} (a : A) (Q : A -> list Event -> Prop) :
  Q a [] -> yields (ret a) Q.
Proof.
  intros HQ s. exists a, s, []. rewrite app_nil_r. repeat split. exact HQ.
Qed.

Lemma yields_bind {A B} (m : Sh A) (k : A -> Sh B)
      (Q1 : A -> list Event -> Prop) (Q : B -> list Event -> Prop) :
  yields m Q1 ->
  (forall a e1, Q1 a e1 -> yields (k a) (fun b e2 => Q b (e1 ++ e2))) ->
  yields (bind m k) Q.
Proof.
  intros Hm Hk s. destruct (Hm s) as (a & s1 & e1 & Em & Et & HQ1).
  destruct (Hk a e1 HQ1 s1) as (b & s2 & e2 & Ek & Et2 & HQ).
  exists b, s2, (e1 ++ e2). unfold bind. rewrite Em, Ek. repeat split.
  - rewrite Et2, Et, app_assoc. reflexivity.
  - exact HQ.
Qed.

Lemma yields_weaken {A} (m : Sh A) (Q Q' : A -> list Event -> Prop) :
  yields m Q -> (forall a evs, Q a evs -> Q' a evs) -> yields m Q'.
Proof.
  intros Hm Hw s. destruct (Hm s) as (a & s' & evs & E & Et & HQ).
  exists a, s', evs. repeat split; auto.
Qed.

Lemma yields_say (level message : string) (Q : unit -> list Event -> Prop) :
  Q tt [Said level message] -> yields (say level message) Q.
Proof.
  intros HQ s. exists tt. eexists. exists [Said level message].
  unfold say. repeat split. exact HQ.
Qed.

Lemma yields_run (c : Command) (Q : Z * string -> list Event -> Prop) :
  (forall h, Q (fst (exec c h)) [Ran c]) -> yields (run c) Q.
Proof.
  intros HQ s. unfold run. specialize (HQ (host s)).
  destruct (exec c (host s)) as [r h]. exists r. eexists. exists [Ran c].
  repeat split. exact HQ.
Qed.

(** No event of the list belongs to a measurement. *)
Definition calm (evs : list Event) : Prop := Forall (fun e => is_load e = false) evs.

Lemma calm_app (a b : list Event) : calm a -> calm b -> calm (a ++ b).
Proof. intros Ha Hb. apply Forall_app. split; assumption. Qed.

Lemma calm_one (e : Event) : is_load e = false -> calm [e].
Proof. intros He. constructor; [exact He | constructor]. Qed.

Lemma calm_nil : calm [].
Proof. constructor. Qed.

Create HintDb calm.
#[local] Hint Resolve calm_app calm_one calm_nil : calm.

(** A step that goes on, whatever it returns, without a measurement event. *)
Definition quiet {A} (m : Sh A) : Prop := yields m (fun _ evs => calm evs).

Lemma quiet_bind {A B} (m : Sh A) (k : A -> Sh B) :
  quiet m -> (forall a, quiet (k a)) -> quiet (bind m k).
Proof.
  intros Hm Hk. apply (yields_bind m k (fun _ evs => calm evs)); [exact Hm|].
  intros a e1 He1. apply (yields_weaken _ _ _ (Hk a)).
  intros b e2 He2. apply calm_app; assumption.
Qed.

Lemma quiet_ret {A} (a : A) : quiet (ret a).
Proof. apply yields_ret. apply calm_nil. Qed.

Lemma quiet_say (level message : string) : quiet (say level message).
Proof. apply yields_say. apply calm_one. reflexivity. Qed.

Lemma quiet_run (c : Command) : is_load (Ran c) = false -> quiet (run c).
Proof. intros Hc. apply yields_run. intros h. apply calm_one. exact Hc. Qed.

Lemma quiet_simple_ignored (c : Command) : is_load (Ran c) = false -> quiet (simple false c).
Proof.
  intros Hc. unfold simple. apply quiet_bind; [apply quiet_run; exact Hc|].
  intros r. cbn [andb]. apply quiet_ret.
Qed.

(** *** Waiting for health *)

Lemma probes_not_load (port : string) (c : Command) :
  In c (probes port) -> is_load (Ran c) = false.
Proof. intros [<-|[<-|[<-|[]]]]; reflexivity. Qed.

(** The target behind [port] never answers a health probe. *)
Definition never_answers (port : string) : Prop :=
  forall c h, In c (probes port) -> fst (fst (exec c h)) <> 0.

Lemma first_success_quiet (cs : list Command) :
  (forall c, In c cs -> is_load (Ran c) = false) -> quiet (first_success cs).
Proof.
  induction cs as [|c rest IH]; intros Hcs; cbn [first_success].
  - apply quiet_ret.
  - apply quiet_bind; [apply quiet_run; apply Hcs; left; reflexivity|].
    intros r. destruct (fst r =? 0); [apply quiet_ret|].
    apply IH. intros c' Hc'. apply Hcs. right. exact Hc'.
Qed.

Lemma first_success_fails (cs : list Command) :
  (forall c, In c cs -> is_load (Ran c) = false) ->
  (forall c h, In c cs -> fst (fst (exec c h)) <> 0) ->
  yields (first_success cs) (fun b evs => b = false /\ calm evs).
Proof.
  induction cs as [|c rest IH]; intros Hcs Hfail; cbn [first_success].
  - apply yields_ret. split; [reflexivity | apply calm_nil].
  - apply (yields_bind _ _ (fun r evs => fst r <> 0 /\ calm evs)).
    + apply yields_run. intros h. split.
      * apply Hfail. left. reflexivity.
      * apply calm_one. apply Hcs. left. reflexivity.
    + intros r e1 [Hr He1]. destruct (Z.eqb_spec (fst r) 0) as [E|_]; [contradiction|].
      eapply yields_weaken.
      * apply IH; intros; [apply Hcs | apply Hfail]; right; assumption.
      * cbn beta. intros b e2 [-> He2]. split; [reflexivity | apply calm_app; assumption].
Qed.

Lemma health_loop_quiet (rounds : nat) (elapsed : Z) (port name : string) :
  quiet (health_loop rounds elapsed port name).
Proof.
  revert elapsed. induction rounds as [|rounds IH]; intros elapsed; cbn [health_loop].
  - apply quiet_ret.
  - apply quiet_bind; [apply first_success_quiet; apply probes_not_load|].
    intros [|].
    + apply quiet_bind; [apply quiet_say | intros _; apply quiet_ret].
    + apply quiet_bind; [apply quiet_run; reflexivity|]. intros _.
      destruct (elapsed + 1 >=? max_wait).
      * apply quiet_bind; [apply quiet_say | intros _; apply quiet_ret].
      * apply IH.
Qed.

Definition is_sleep (e : Event) : bool :=
  match e with Ran (SleepFor 1) => true | _ => false end.

Definition sleeps (evs : list Event) : nat := List.length (filter is_sleep evs).

Lemma sleeps_app (a b : list Event) : sleeps (a ++ b) = (sleeps a + sleeps b)%nat.
Proof. unfold sleeps. rewrite filter_app, length_app. reflexivity. Qed.

Lemma first_success_no_sleep (port : string) :
  yields (first_success (probes port)) (fun _ evs => sleeps evs = O).
Proof.
  assert (Hgen : forall cs, (forall c, In c cs -> is_sleep (Ran c) = false) ->
                            yields (first_success cs) (fun _ evs => sleeps evs = O)).
  { induction cs as [|c rest IH]; intros Hcs; cbn [first_success].
    - apply yields_ret. reflexivity.
    - apply (yields_bind _ _ (fun _ evs => sleeps evs = O)).
      + apply yields_run. intros h. unfold sleeps. cbn [filter].
        rewrite (Hcs c) by (left; reflexivity). reflexivity.
      + intros r e1 He1. destruct (fst r =? 0).
        * apply yields_ret. rewrite app_nil_r. exact He1.
        * eapply yields_weaken; [apply IH; intros c' Hc'; apply Hcs; right; exact Hc'|].
          cbn beta. intros b e2 He2. rewrite sleeps_app, He1, He2. reflexivity. }
  apply Hgen. intros c [<-|[<-|[<-|[]]]]; reflexivity.
Qed.

(** Against a target that never answers, the loop gives up: it returns 1
    after as many one-second sleeps as it had rounds left, 60 from the start. *)
Lemma health_loop_fails (rounds : nat) (elapsed : Z) (port name : string) :
  never_answers port ->
  Z.of_nat rounds + elapsed = max_wait ->
  yields (health_loop rounds elapsed port name)
         (fun status evs => status = 1 /\ calm evs /\ sleeps evs = rounds).
Proof.
  intros Hnever. revert elapsed.
  induction rounds as [|rounds IH]; intros elapsed Hinv; cbn [health_loop].
  - apply yields_ret. repeat split. apply calm_nil.
  - apply (yields_bind _ _ (fun b evs => b = false /\ calm evs /\ sleeps evs = O)).
    { intros s.
      destruct (first_success_fails (probes port) (probes_not_load port) Hnever s)
        as (b & s1 & e & E & Et & Hb & Hc).
      destruct (first_success_no_sleep port s) as (b' & s1' & e' & E' & Et' & Hs).
      rewrite E in E'. injection E' as <- <-.
      rewrite Et in Et'. apply app_inv_head in Et'. subst e'.
      exists b, s1, e. repeat split; assumption. }
    intros b e1 (-> & He1 & Hs1).
    apply (yields_bind _ _ (fun _ evs => evs = [Ran (SleepFor 1)])).
    { apply yields_run. reflexivity. }
    intros _ e2 ->.
    destruct (Z.geb_spec (elapsed + 1) max_wait) as [Hge|Hlt].
    + apply (yields_bind _ _ (fun _ evs => calm evs /\ sleeps evs = O)).
      { apply yields_say. split; [apply calm_one|]; reflexivity. }
      intros _ e3 [He3 Hs3]. apply yields_ret.
      rewrite app_nil_r, !sleeps_app, Hs1, Hs3.
      split; [reflexivity|]. split.
      * repeat apply calm_app; auto. apply calm_one. reflexivity.
      * cbn. unfold max_wait in *. lia.
    + eapply yields_weaken; [apply (IH (elapsed + 1)); lia|].
      cbn beta. intros status e3 (-> & He3 & Hs3). rewrite !sleeps_app, Hs1, Hs3.
      split; [reflexivity|]. split.
      * repeat apply calm_app; auto. apply calm_one. reflexivity.
      * cbn. lia.
Qed.

Lemma wait_for_health_quiet (port name : string) : quiet (wait_for_health port name).
Proof.
  unfold wait_for_health. apply quiet_bind; [apply quiet_say|]. intros _.
  apply health_loop_quiet.
Qed.

Lemma wait_for_health_fails (port name : string) :
  never_answers port ->
  yields (wait_for_health port name)
         (fun status evs => status = 1 /\ calm evs /\ sleeps evs = 60%nat).
Proof.
  intros Hnever. unfold wait_for_health.
  apply (yields_bind _ _ (fun _ evs => calm evs /\ sleeps evs = O)).
  { apply yields_say. split; [apply calm_one|]; reflexivity. }
  intros _ e1 [He1 Hs1].
  eapply yields_weaken; [apply (health_loop_fails _ 0 port name Hnever); reflexivity|].
  cbn beta. intros status e2 (-> & He2 & Hs2). rewrite sleeps_app, Hs1, Hs2.
  repeat split. apply calm_app; assumption.
Qed.

(** *** One target *)

(** A step that goes on, whatever it does. *)
Definition goes_on {A} (m : Sh A) : Prop := yields m (fun _ _ => True).

Lemma goes_on_bind {A B} (m : Sh A) (k : A -> Sh B) :
  goes_on m -> (forall a, goes_on (k a)) -> goes_on (bind m k).
Proof.
  intros Hm Hk. apply (yields_bind m k (fun _ _ => True)); [exact Hm|].
  intros a e1 _. apply (yields_weaken _ _ _ (Hk a)). trivial.
Qed.

Lemma quiet_goes_on {A} (m : Sh A) : quiet m -> goes_on m.
Proof. intros Hm. apply (yields_weaken _ _ _ Hm). trivial. Qed.

Lemma goes_on_ret {A} (a : A) : goes_on (ret a).
Proof. apply yields_ret. exact I. Qed.

Lemma goes_on_say (level message : string) : goes_on (say level message).
Proof. apply yields_say. exact I. Qed.

Lemma goes_on_run (c : Command) : goes_on (run c).
Proof. apply yields_run. trivial. Qed.

Lemma goes_on_repeat_n (n : nat) (body : Sh unit) : goes_on body -> goes_on (repeat_n n body).
Proof.
  intros Hb. induction n as [|n IH]; cbn [repeat_n]; [apply goes_on_ret|].
  apply goes_on_bind; [exact Hb | intros _; exact IH].
Qed.

Ltac go_on :=
  repeat first
    [ apply goes_on_ret
    | apply goes_on_say
    | apply goes_on_run
    | apply goes_on_repeat_n
    | apply goes_on_bind; [|intros ?] ].

Lemma warmup_goes_on (url name : string) : goes_on (warmup url name).
Proof. unfold warmup, warmup_call, info, ok. go_on. Qed.

Lemma stop_all_servers_quiet : quiet (stop_all_servers false).
Proof.
  unfold stop_all_servers, info, ok.
  repeat first
    [ apply quiet_say
    | apply quiet_simple_ignored; reflexivity
    | apply quiet_run; reflexivity
    | apply quiet_bind; [|intros ?] ].
Qed.

Lemma start_server_quiet (service : string) : quiet (start_server service).
Proof.
  unfold start_server, info.
  repeat first
    [ apply quiet_say
    | apply quiet_ret
    | apply quiet_run; reflexivity
    | apply quiet_bind; [|intros ?] ].
Qed.

(** The target is one of the script's [SERVERS]. *)
Definition configured (name : string) : Prop := In name (map fst SERVERS).

Lemma configured_lookup (name : string) :
  configured name -> exists container_port, lookup name SERVERS = Some container_port.
Proof.
  unfold configured. cbn.
  intros [<-|[<-|[<-|[<-|[<-|[]]]]]]; eexists; reflexivity.
Qed.

(** The events of a target's pipeline start with the creation of its results
    directory. *)
Definition entered (name : string) (seg : list Event) : Prop :=
  exists rest, seg = Ran (Mkdir (RESULTS_DIR ++ "/" ++ name)) :: rest.

(** Whatever happens to a configured target, [benchmark_server] returns. *)
Lemma benchmark_server_goes_on (name : string) :
  configured name ->
  yields (benchmark_server name) (fun _ seg => entered name seg).
Proof.
  intros Hc. destruct (configured_lookup name Hc) as [cp Hcp].
  unfold benchmark_server. rewrite Hcp.
  apply (yields_bind _ _ (fun _ evs => evs = [Ran (Mkdir (RESULTS_DIR ++ "/" ++ name))])).
  { apply yields_run. reflexivity. }
  intros _ e1 ->.
  apply (yields_weaken _ (fun _ _ => True)); [|intros; eexists; reflexivity].
  unfold echo, info, ok, error.
  repeat (apply goes_on_bind; [first [apply goes_on_say | apply goes_on_run]|intros _]).
  apply goes_on_bind; [apply quiet_goes_on, stop_all_servers_quiet|intros _].
  apply goes_on_bind; [apply quiet_goes_on, start_server_quiet|intros _].
  apply goes_on_bind; [apply quiet_goes_on, wait_for_health_quiet|intros healthy].
  destruct (negb (healthy =? 0)).
  - go_on.
  - apply goes_on_bind; [apply warmup_goes_on|intros _]. go_on.
Qed.

Lemma skip_bind {A} (m : Sh A) (k : A -> Sh Z) :
  quiet m ->
  (forall a, yields (k a) (fun status evs => status = 1 /\ calm evs)) ->
  yields (bind m k) (fun status evs => status = 1 /\ calm evs).
Proof.
  intros Hm Hk. apply (yields_bind m k (fun _ evs => calm evs)); [exact Hm|].
  intros a e1 He1. apply (yields_weaken _ _ _ (Hk a)).
  intros status e2 [-> He2]. split; [reflexivity | apply calm_app; assumption].
Qed.

(** A configured target that never answers a health probe is skipped: the
    function returns 1 and no warmup, sampling or load run is started. *)
Lemma benchmark_server_skips (name : string) :
  configured name ->
  never_answers (port_of name) ->
  yields (benchmark_server name) (fun status seg => status = 1 /\ calm seg).
Proof.
  intros Hc Hnever. destruct (configured_lookup name Hc) as [cp Hcp].
  unfold port_of in Hnever. rewrite Hcp in Hnever.
  unfold benchmark_server. rewrite Hcp. unfold echo, info, ok, error.
  apply skip_bind; [apply quiet_run; reflexivity|intros _].
  do 5 (apply skip_bind; [apply quiet_say|intros _]).
  apply skip_bind; [apply stop_all_servers_quiet|intros _].
  apply skip_bind; [apply start_server_quiet|intros _].
  apply (yields_bind _ _ (fun status evs => status = 1 /\ calm evs)).
  { eapply yields_weaken; [apply wait_for_health_fails; exact Hnever|].
    cbn beta. intros status evs (-> & Hcalm & _). split; [reflexivity | exact Hcalm]. }
  intros healthy e1 [-> He1]. cbn [Z.eqb negb].
  apply (yields_bind _ _ (fun _ evs => calm evs)); [apply quiet_say|].
  intros _ e2 He2. apply yields_ret. rewrite app_nil_r.
  split; [reflexivity | apply calm_app; assumption].
Qed.

(** What [benchmark_server] can return: 0 after the whole pipeline, or 1
    after events that hold no measurement. *)
Definition done_or_skipped (status : Z) (seg : list Event) : Prop :=
  status = 0 \/ (status = 1 /\ calm seg).

Lemma outcome_bind {A} (m : Sh A) (k : A -> Sh Z) :
  quiet m ->
  (forall a, yields (k a) done_or_skipped) ->
  yields (bind m k) done_or_skipped.
Proof.
  intros Hm Hk. apply (yields_bind m k (fun _ evs => calm evs)); [exact Hm|].
  intros a e1 He1. apply (yields_weaken _ _ _ (Hk a)).
  intros status e2 [->|[-> He2]]; [left; reflexivity|].
  right. split; [reflexivity | apply calm_app; assumption].
Qed.

Lemma done_bind {A} (m : Sh A) (k : A -> Sh Z) :
  goes_on m ->
  (forall a, yields (k a) (fun status _ => status = 0)) ->
  yields (bind m k) (fun status _ => status = 0).
Proof.
  intros Hm Hk. apply (yields_bind m k (fun _ _ => True)); [exact Hm|].
  intros a e1 _. apply (yields_weaken _ _ _ (Hk a)). trivial.
Qed.

(** The only way [benchmark_server] fails is the health wait, and then it
    has started no warmup, sampling or load run. *)
Lemma benchmark_server_outcome (name : string) :
  configured name ->
  yields (benchmark_server name) done_or_skipped.
Proof.
  intros Hc. destruct (configured_lookup name Hc) as [cp Hcp].
  unfold benchmark_server. rewrite Hcp. unfold echo, info, ok, error.
  apply outcome_bind; [apply quiet_run; reflexivity|intros _].
  do 5 (apply outcome_bind; [apply quiet_say|intros _]).
  apply outcome_bind; [apply stop_all_servers_quiet|intros _].
  apply outcome_bind; [apply start_server_quiet|intros _].
  apply outcome_bind; [apply wait_for_health_quiet|intros healthy].
  destruct (negb (healthy =? 0)).
  - apply (yields_bind _ _ (fun _ evs => calm evs)); [apply quiet_say|].
    intros _ e1 He1. apply yields_ret. rewrite app_nil_r.
    right. split; [reflexivity | exact He1].
  - apply (yields_weaken _ (fun status _ => status = 0)); [|intros; left; assumption].
    apply done_bind; [apply warmup_goes_on|intros _].
    repeat (apply done_bind; [first [apply goes_on_say | apply goes_on_run]|intros ?]).
    apply yields_ret. reflexivity.
Qed.

(** *** The loop over the targets *)

(** C9.  For every list of configured targets and every state of the host,
    the loop over the targets never ends the script: it runs the pipeline of
    every target of the list, in order, each starting with the target's own
    results directory and ending with a status.  A pipeline ends with status
    0 or with status 1, and one that ends with 1 (the health wait failed)
    holds no warmup request, no resource sampling and no load run; a target
    that answers no health probe ends with 1, the wait giving up after its 60
    one-second rounds.  In each case the loop goes on with the next target. *)
Theorem failed_target_is_skipped_and_run_continues (ts : list string) (s : St) :
  Forall configured ts ->
  exists s' runs,
    benchmark_each ts s = (Done tt, s') /\
    trace s' = trace s ++ List.concat (map snd runs) /\
    Forall2 (fun name (r : Z * list Event) =>
               entered name (snd r) /\
               (fst r = 0 \/ (fst r = 1 /\ calm (snd r))) /\
               (never_answers (port_of name) -> fst r = 1))
            ts runs.
Proof.
  intros Hts. revert s. induction Hts as [|name rest Hc Hrest IH]; intros s.
  - exists s, []. cbn. rewrite app_nil_r. repeat split. constructor.
  - cbn [benchmark_each]. unfold bind.
    destruct (benchmark_server_goes_on name Hc s) as (status & s1 & seg & E & Et & Hent).
    rewrite E.
    set (note := if status =? 0 then [] else
                   [Said "WARN" ("Failed to benchmark " ++ name ++ ", continuing...")]).
    set (s2 := {| host := host s1; trace := trace s1 ++ note |}).
    assert (Ewarn : (if status =? 0 then ret tt
                     else warn ("Failed to benchmark " ++ name ++ ", continuing...")) s1
                    = (Done tt, s2)).
    { unfold s2, note. destruct (status =? 0).
      - unfold ret. rewrite app_nil_r. destruct s1; reflexivity.
      - reflexivity. }
    rewrite Ewarn.
    destruct (IH s2) as (s' & runs & Eloop & Etrace & Hall).
    exists s', ((status, seg ++ note) :: runs). split; [exact Eloop|]. split.
    + rewrite Etrace. unfold s2. cbn [trace List.concat map snd].
      rewrite Et, <- !app_assoc. reflexivity.
    + constructor; [|exact Hall]. cbn [fst snd]. split; [|split].
      * destruct Hent as [tail ->]. exists (tail ++ note). reflexivity.
      * destruct (benchmark_server_outcome name Hc s)
          as (status' & s1' & seg' & E' & Et' & Hout).
        rewrite E in E'. injection E' as <- <-.
        rewrite Et in Et'. apply app_inv_head in Et'. subst seg'.
        destruct Hout as [->|[-> Hcalm]]; [left; reflexivity|].
        right. split; [reflexivity|].
        apply calm_app; [exact Hcalm|]. apply calm_one. reflexivity.
      * intros Hnever.
        destruct (benchmark_server_skips name Hc Hnever s)
          as (status' & s1' & seg' & E' & Et' & Hst & _).
        rewrite E in E'. injection E' as <- <-. exact Hst.
Qed.

(** The targets of [main] are configured. *)
Lemma targets_configured : Forall configured targets.
Proof. unfold targets, configured. repeat constructor; cbn; tauto. Qed.

End WithHost.
End OrchestratorFacts.

(* ===================================================================== *)
(** * Part III.  Concrete runs                                            *)
(* ===================================================================== *)
Module Runs.
Import K6 Servers.
#[local] Open Scope list_scope.

(** *** A JSON library for the texts used below *)

Definition double_quote : ascii := ascii_of_nat 34.
Definition backslash : ascii := ascii_of_nat 92.

(** JSON texts are written with apostrophes for the double quotes. *)
Fixpoint json_text (s : string) : string :=
  match s with
  | EmptyString => EmptyString
  | String c rest =>
      String (if Ascii.eqb c "'" then double_quote else c) (json_text rest)
  end.

Fixpoint escape (s : string) : string :=
  match s with
  | EmptyString => EmptyString
  | String c rest =>
      if Ascii.eqb c double_quote || Ascii.eqb c backslash
      then String backslash (String c (escape rest))
      else String c (escape rest)
  end.

Definition quoted (s : string) : string :=
  String double_quote (escape s ++ String double_quote EmptyString)%string.

(** [JSON.stringify] without indentation, on values that hold no [undefined]
    and strings that need no escape beyond quote and backslash. *)
Fixpoint print (v : value) : string :=
  match v with
  | JUndefined | JNull => "null"
  | JBool true => "true"
  | JBool false => "false"
  | JNum z => NilEmpty.string_of_int (Z.to_int z)
  | JStr s => quoted s
  | JArr items =>
      let fix go (l : list value) : string :=
        match l with
        | [] => ""
        | [x] => print x
        | x :: rest => (print x ++ "," ++ go rest)%string
        end in
      ("[" ++ go items ++ "]")%string
  | JObj fields =>
      let fix go (l : list (string * value)) : string :=
        match l with
        | [] => ""
        | [(k, x)] => (quoted k ++ ":" ++ print x)%string
        | (k, x) :: rest => (quoted k ++ ":" ++ print x ++ "," ++ go rest)%string
        end in
      ("{" ++ go fields ++ "}")%string
  end.

(** The document of a fibonacci answer with the given result. *)
Definition fibonacci_doc (result : Z) (server : string) : value :=
  JObj [("input", JNum 10); ("result", JNum result); ("server_type", JStr server)].

(** The decoded JSON-RPC response whose one content item carries [text]. *)
Definition tool_response (text : string) : value :=
  ScenarioFacts.rpc_response 2 (Node.text_content text).

Definition wrong_text : string :=
  json_text "{'input':10,'result':54,'server_type':'go'}".
Definition wrong_body : string :=
  json_text "{'jsonrpc':'2.0','id':2,'result':{'content':[{'type':'text','text':'{\'input\':10,\'result\':54,\'server_type\':\'go\'}'}]}}".
Definition right_text : string :=
  json_text "{'input':10,'result':55,'server_type':'nodejs'}".
Definition keyed_body : string :=
  json_text "{'result':{'content':{'0':{'text':'{\'input\':10,\'result\':55,\'server_type\':\'nodejs\'}'}}}}".

(** The payload of [keyed_body]: its content is an object with the key 0,
    not an array. *)
Definition keyed_payload : value :=
  JObj [("result", JObj [("content", JObj [("0", JObj [("text", JStr right_text)])])])].

(** [JSON.parse] on the texts above, and on nothing else. *)
Definition parse_table (v : value) : option value :=
  match v with
  | JStr s =>
      if (s =? wrong_text)%string then Some (fibonacci_doc 54 "go")
      else if (s =? wrong_body)%string then Some (tool_response wrong_text)
      else if (s =? right_text)%string then Some (fibonacci_doc 55 "nodejs")
      else if (s =? keyed_body)%string then Some keyed_payload
      else None
  | _ => None
  end.

#[local] Instance table_json : JSONLib :=
  {| JSON_parse := parse_table; JSON_stringify := print |}.

(** *** Libraries for ASCII text *)

(** An upper-casing that is only asked about ASCII text; a Go runtime and a
    Java hash table that list the entries of a map from the last to the
    first. *)
#[local] Instance ascii_text : StringLib :=
  {| toUpperCase := upper_ascii;
     toUpperCase_ascii := fun _ _ => eq_refl |}.

#[local] Instance go_reversed : Go.Library :=
  {| Go.ToUpper := upper_ascii;
     Go.ToUpper_ascii := fun _ _ => eq_refl;
     Go.range := @rev (string * value);
     Go.range_permutes := fun m => Permutation_sym (Permutation_rev m) |}.

#[local] Instance java_reversed : Java.Library :=
  {| Java.toUpperCase := upper_ascii;
     Java.toUpperCase_ascii := fun _ _ _ => eq_refl;
     Java.HashMap := @rev (string * value);
     Java.HashMap_permutes := fun m => Permutation_sym (Permutation_rev m) |}.

(** C8, witness: with a Go runtime that ranges over maps from the last entry
    to the first, the handler answers the scenario's input with the keys and
    the transformed entries the other way round, and the transformed data
    read by key gives BENCHMARK all the same. *)
Lemma json_process_check_validates_benchmark_witness :
  (exists out,
     @Go.handleProcessData go_reversed ServersFacts.benchmark_data = Success out /\
     Permutation (Go.OriginalKeys out) ["name"; "count"; "nested"] /\
     Permutation (Go.TransformedData out) ServersFacts.benchmark_transformed /\
     Go.GoServerType out = "go") /\
  get (JObj (rev ServersFacts.benchmark_transformed)) "name" = Some (JStr "BENCHMARK").
Proof.
  destruct (@ScenarioFacts.json_process_check_validates_benchmark
              table_json ascii_text go_reversed java_reversed)
    as (_ & _ & _ & _ & Hgo & _ & Hread).
  split.
  - apply Hgo. apply Permutation_refl.
  - apply (Hread (rev ServersFacts.benchmark_transformed)).
    apply Permutation_sym. apply Permutation_rev.
Defined.

Example print_wrong_body : print (tool_response wrong_text) = wrong_body.
Proof. vm_compute. reflexivity. Qed.

Example print_keyed_body : print keyed_payload = keyed_body.
Proof. vm_compute. reflexivity. Qed.

(** *** A target whose fibonacci tool is wrong *)

(** Every POST is answered with the same response: a session token and a
    well-formed tool result whose fibonacci value is 54. *)
Definition wrong_answer : Response :=
  {| status := 200;
     body := Some wrong_body;
     headers := [("Mcp-Session-Id", "s1")];
     timings_duration := 3 # 2 |}.

Definition no_content : Response :=
  {| status := 204; body := None; headers := []; timings_duration := 1 # 2 |}.

#[local] Instance wrong_target : Runtime :=
  {| World := Z;
     http_post := fun _ _ _ clock => (wrong_answer, clock + 2);
     http_del := fun _ _ clock => (no_content, clock + 1);
     Date_now := fun clock => clock;
     Date_toISOString := fun _ => "2026-01-01T00:00:00.000Z";
     sleep := fun _ clock => clock + 100;
     ENV := fun _ => None;
     textSummary := fun _ => "" |}.

Definition fresh : VU := {| world := 0; samples := []; trace := [] |}.

(** A response in the style that sends both members, the error being null
    on success. *)
Definition null_error_response : value :=
  JObj [("jsonrpc", JStr "2.0"); ("id", JNum 2);
        ("result", Node.text_content right_text); ("error", JNull)].

(** C1, counterexample.  The target answers the fibonacci call with a
    well-formed result whose value is 54.  The scenario's predicate rejects
    the decoded payload, yet the session records no mcp_errors and adds
    [false] to mcp_error_rate: it is not classified as failed.  Nor is a
    payload that carries an error field whose value is null, next to a result
    the predicate accepts. *)
Lemma rejected_payload_is_not_classified_failed :
  (exists out s',
     mcpSession (name fibonacci_tool) (args fibonacci_tool) fresh = (Some out, s') /\
     callResult out = tool_response wrong_text /\
     check fibonacci_tool (callResult out) = Some (JBool false) /\
     samples s' = [CounterAdd "mcp_requests" 1; CounterAdd "mcp_requests" 1;
                   RateAdd "mcp_error_rate" false]) /\
  (get null_error_response "error" = Some JNull /\
   check fibonacci_tool null_error_response = Some (JBool true) /\
   isError null_error_response = Some false).
Proof.
  split.
  - eexists. eexists. split; [vm_compute; reflexivity|].
    split; [vm_compute; reflexivity|].
    split; vm_compute; reflexivity.
  - repeat split; vm_compute; reflexivity.
Qed.

(** The whole iteration against that target: five sessions, ten counted
    requests, no protocol error, and the fibonacci check failed. *)
Example wrong_target_iteration :
  let s' := snd (default_function fresh) in
  K6Facts.counter_total mcpRequests (samples s') = 10 /\
  K6Facts.counter_total mcpErrors (samples s') = 0 /\
  In (Check "fibonacci ok" false) (samples s') /\
  K6Facts.count K6Facts.is_teardown (trace s') = 5%nat /\
  List.length (trace s') = 21%nat.
Proof. vm_compute. intuition. Qed.

(** C7, counterexample.  The predicate returns true on a payload whose
    [result.content] is not an array but an object with the key 0. *)
Lemma content_need_not_be_an_array :
  fibonacci_check keyed_payload = Some (JBool true) /\
  ~ (exists res items,
       get keyed_payload "result" = Some res /\ get res "content" = Some (JArr items)).
Proof.
  split; [vm_compute; reflexivity|].
  intros (res & items & Hres & Hcontent).
  cbn in Hres. injection Hres as <-. cbn in Hcontent. discriminate.
Qed.

(** The Node.js handler's answer to the scenario's call passes the check. *)
Example node_answer_passes :
  exists toolResult,
    Node.calculate_fibonacci 10 = Success toolResult /\
    JSON_stringify (Node.fibonacci_output 10) = right_text /\
    fibonacci_check (ScenarioFacts.rpc_response 2 toolResult) = Some (JBool true).
Proof.
  eexists. split; [reflexivity|]. split; vm_compute; reflexivity.
Qed.

(** An event-stream body is decoded to its data frame. *)
Example event_stream_decoded :
  Decoder.parseBody
    (Some ("event: message" ++ String newline ("data: " ++ right_text)
           ++ String newline (String newline "")))%string
  = fibonacci_doc 55 "nodejs".
Proof. vm_compute. reflexivity. Qed.

(** C2, witness: a body that is one JSON document between white space, and
    a body with no JSON at all. *)
Lemma parseBody_follows_policy_witness :
  Decoder.parseBody (Some ("  " ++ right_text ++ String newline "")%string)
  = fibonacci_doc 55 "nodejs" /\
  Decoder.parseBody (Some "Bad Gateway") = JNull.
Proof.
  split.
  - apply (proj1 (proj2 (DecoderFacts.parseBody_follows_policy
                           (Some ("  " ++ right_text ++ String newline "")%string)))
                 ("  " ++ right_text ++ String newline "")%string);
      [reflexivity | vm_compute; reflexivity | vm_compute; reflexivity].
  - apply (proj1 (proj2 (proj2 (DecoderFacts.parseBody_follows_policy (Some "Bad Gateway"))))
                 "Bad Gateway"); [reflexivity | vm_compute; reflexivity |].
    intros line [<-|[]]. vm_compute. reflexivity.
Defined.

(** C1, witness: the session against the target above is recorded as
    succeeded, none of the three causes holding of its decoded payload. *)
Lemma session_error_classification_witness :
  exists out s',
    mcpSession (name fibonacci_tool) (args fibonacci_tool) fresh = (Some out, s') /\
    samples s' = [CounterAdd mcpRequests 1; CounterAdd mcpRequests 1;
                  RateAdd mcpErrorRate false].
Proof.
  destruct (proj1 (K6Facts.session_error_classification
                     (name fibonacci_tool) (args fibonacci_tool) fresh))
    as (out & s' & E & Hdecoded & _ & Hok).
  exists out, s'. split; [exact E|]. apply Hok.
  assert (Hout : callResult out = tool_response wrong_text).
  { vm_compute in E. injection E as <- _. reflexivity. }
  rewrite Hout.
  intros [Hn|[(e & Hg & He)|(x & Hg & Hx)]].
  - discriminate Hn.
  - vm_compute in Hg. injection Hg as <-. discriminate He.
  - vm_compute in Hg. injection Hg as <-. discriminate Hx.
Defined.

(** C10, witness: the theorem at 10 and at 41. *)
Lemma go_and_node_fibonacci_agree_witness :
  (Go.handleFibonacci {| Go.N := 10 |}
   = Success {| Go.Input := 10; Go.Result := 55; Go.ServerType := "go" |} /\
   Node.calculate_fibonacci 10 = Success (Node.text_content right_text)) /\
  (Go.handleFibonacci {| Go.N := 41 |} = Failure "n deve estar entre 0 e 40" /\
   Node.calculate_fibonacci 41 = Failure "n deve estar entre 0 e 40").
Proof.
  split.
  - exact (proj1 (ServersFacts.go_and_node_fibonacci_agree 10) ltac:(lia)).
  - exact (proj2 (ServersFacts.go_and_node_fibonacci_agree 41) ltac:(right; lia)).
Defined.

(** *** A run that breaches the threshold *)

Definition breached_data : SummaryData :=
  [("http_req_failed", {| values := [("rate", 1 # 10); ("passes", 100 # 1)];
                          thresholds := [("rate<0.05", false)] |});
   ("http_reqs", {| values := [("count", 1000 # 1); ("rate", 50 # 1)]; thresholds := [] |});
   ("mcp_requests", {| values := [("count", 400 # 1)]; thresholds := [] |});
   ("mcp_fibonacci_duration",
    {| values := [("avg", 3 # 2); ("min", 1 # 1); ("max", 2 # 1); ("p(50)", 3 # 2);
                  ("p(90)", 2 # 1); ("p(95)", 2 # 1); ("p(99)", 2 # 1); ("count", 40 # 1)];
       thresholds := [] |})].

(** C5, witness: a measured failure rate of 10% marks the run failed, and the
    summary is written under the output path all the same, with the counters
    of the data (0 for the errors, which that run did not record) and the
    trend of the fibonacci tool. *)
Lemma threshold_breach_keeps_summary_witness :
  run_failed options breached_data = true /\
  lookup outputPath (handleSummary (fun _ => "summary") 0 breached_data) = Some "summary" /\
  total_requests (http (build_summary 0 breached_data)) = FNum (1000 # 1) /\
  failed_requests (http (build_summary 0 breached_data)) = FNum (100 # 1) /\
  total_mcp_requests (mcp (build_summary 0 breached_data)) = FNum (400 # 1) /\
  mcp_errors (mcp (build_summary 0 breached_data)) = FNum 0 /\
  exists trend,
    lookup "calculate_fibonacci" (tools (build_summary 0 breached_data)) = Some trend /\
    t_avg trend = FNum (3 # 2) /\
    t_count trend = FNum (40 # 1).
Proof.
  destruct (@K6Facts.threshold_breach_keeps_summary wrong_target)
    as (Hfail & _ & Hout & Hfull).
  destruct (Hfull 0 breached_data)
    as (_ & _ & _ & Hreqs & Hfailed & _ & _ & _ & _ & _ & _ & _ & _ & Hmcp & Herr & _ & _
        & Hfib & _).
  split; [|split; [|split; [|split; [|split; [|split]]]]].
  - apply (proj2 (Hfail breached_data _ (1 # 10) eq_refl eq_refl)). discriminate.
  - apply (Hout (fun _ => "summary") 0 breached_data). reflexivity.
  - exact Hreqs.
  - exact Hfailed.
  - exact Hmcp.
  - exact Herr.
  - destruct Hfib as (trend & Et & Havg & _ & _ & _ & _ & _ & _ & Hcount).
    exists trend. split; [exact Et|]. split; [exact Havg | exact Hcount].
Defined.

(** *** A host whose rust target never comes up *)

Definition on_port (port url : string) : bool :=
  String.prefix ("http://localhost:" ++ port ++ "/")%string url.

(** Every probe of port 8084 fails with curl's status 7; every other command
    succeeds.  The stats collector prints its pid, an initialize dumped with
    its headers shows a session id. *)
Definition rust_down (c : Orchestrator.Command) (h : unit) : (Z * string) * unit :=
  match c with
  | Orchestrator.CurlGet url => (if on_port "8084" url then 7 else 0, "", tt)
  | Orchestrator.CurlInitialize url _ _ dump =>
      (if on_port "8084" url then 7 else 0,
       if dump then "Mcp-Session-Id: s1" else "", tt)
  | Orchestrator.ExtractSessionId _ => (0, "s1", tt)
  | Orchestrator.StatsCollector _ _ _ => (0, "4242", tt)
  | _ => (0, "", tt)
  end.

#[local] Instance rust_down_host : Orchestrator.Host :=
  {| Orchestrator.HostState := unit;
     Orchestrator.exec := rust_down;
     Orchestrator.SCRIPT_DIR := "/bench";
     Orchestrator.PROJECT_DIR := "/";
     Orchestrator.TIMESTAMP := "20260101_000000";
     Orchestrator.upper := upper_ascii |}.

Definition start : Orchestrator.St :=
  {| Orchestrator.host := tt; Orchestrator.trace := [] |}.

Lemma rust_never_answers :
  OrchestratorFacts.never_answers (Orchestrator.port_of "rust").
Proof.
  intros c h [<-|[<-|[<-|[]]]]; vm_compute; discriminate.
Qed.

(** C9, witness: the theorem on the targets of [main], from the start. *)
Lemma failed_target_is_skipped_witness :
  Forall OrchestratorFacts.configured Orchestrator.targets /\
  exists s' runs,
    Orchestrator.benchmark_each Orchestrator.targets start = (Orchestrator.Done tt, s') /\
    Orchestrator.trace s' = Orchestrator.trace start ++ List.concat (map snd runs) /\
    Forall2 (fun name (r : Z * list Orchestrator.Event) =>
               OrchestratorFacts.entered name (snd r) /\
               (fst r = 0 \/ (fst r = 1 /\ OrchestratorFacts.calm (snd r))) /\
               (OrchestratorFacts.never_answers (Orchestrator.port_of name) -> fst r = 1))
            Orchestrator.targets runs.
Proof.
  assert (Hc : Forall OrchestratorFacts.configured Orchestrator.targets).
  { unfold Orchestrator.targets, OrchestratorFacts.configured.
    repeat constructor; simpl; tauto. }
  split; [exact Hc|].
  exact (OrchestratorFacts.failed_target_is_skipped_and_run_continues
           Orchestrator.targets start Hc).
Defined.

(** The k6 runs of a trace, by server name. *)
Fixpoint load_runs (evs : list Orchestrator.Event) : list string :=
  match evs with
  | [] => []
  | Orchestrator.Ran (Orchestrator.K6Run _ name _ _ _) :: rest => name :: load_runs rest
  | _ :: rest => load_runs rest
  end.

Fixpoint warnings (evs : list Orchestrator.Event) : list string :=
  match evs with
  | [] => []
  | Orchestrator.Said "WARN" message :: rest => message :: warnings rest
  | _ :: rest => warnings rest
  end.

(** What a run of the script shows: how it ended, the k6 runs, the number of
    one-second sleeps and the warnings. *)
Definition report (r : Orchestrator.outcome unit * Orchestrator.St)
  : Orchestrator.outcome unit * list string * nat * list string :=
  (fst r,
   load_runs (Orchestrator.trace (snd r)),
   OrchestratorFacts.sleeps (Orchestrator.trace (snd r)),
   warnings (Orchestrator.trace (snd r))).

(** The whole script on that host: it runs to its end, rust is given its 60
    rounds and skipped with a warning, java and go are measured. *)
Example main_with_rust_down :
  report (Orchestrator.main start)
  = (Orchestrator.Done tt, ["java"; "go"], 62%nat,
     ["Failed to benchmark rust, continuing..."]).
Proof. vm_compute. reflexivity. Qed.

End Runs.

(* ===================================================================== *)
(** * Part IV.  Further properties of the code                            *)
(* ===================================================================== *)

(* --------------------------------------------------------------------- *)
(** ** More on the response decoder                                       *)
(* --------------------------------------------------------------------- *)
Module DecoderLaws.
Import Decoder StringFacts DecoderFacts.
#[local] Open Scope list_scope.

Section WithJSON.
Context {json : JSONLib}.

(** White space around a body never changes what is decoded from it. *)
Theorem parseBody_ignores_surrounding_space (b : string) :
  parseBody (Some (trim b)) = parseBody (Some b).
Proof.
  rewrite !parseBody_decode. unfold spec_decode, spec_direct.
  rewrite trim_idempotent, frames_trim. reflexivity.
Qed.

Lemma first_some_source {A B} (f : A -> option B) (l : list A) (y : B) :
  first_some f l = Some y -> exists x, In x l /\ f x = Some y.
Proof.
  induction l as [|x rest IH]; [discriminate|].
  cbn [first_some]. destruct (f x) as [y'|] eqn:Ef.
  - intros E. injection E as <-. exists x. split; [left; reflexivity | exact Ef].
  - intros E. destruct (IH E) as (x' & Hin & Hx'). exists x'. split; [right|]; assumption.
Qed.

(** Whatever [parseBody] returns, other than null, is what [JSON.parse] made
    of a text that opens with a brace or a bracket: nothing is decoded from
    any other text, and nothing is made up. *)
Theorem parseBody_returns_parsed_text (body : option string) :
  parseBody body = JNull \/
  exists text,
    (startsWith text "{" || startsWith text "[") = true /\
    JSON_parse (JStr text) = Some (parseBody body).
Proof.
  rewrite parseBody_decode. destruct body as [b|]; [|left; reflexivity].
  unfold spec_decode. destruct (spec_direct b) as [v|] eqn:Ed.
  - right. unfold spec_direct in Ed. exists (trim b).
    destruct (startsWith (trim b) "{" || startsWith (trim b) "["); [|discriminate].
    split; [reflexivity | exact Ed].
  - destruct (first_some spec_frame (split_lines b)) as [v|] eqn:Ef; [|left; reflexivity].
    right. destruct (first_some_source _ _ _ Ef) as (line & _ & Hl).
    unfold spec_frame in Hl.
    destruct (startsWith (trim line) "data:"); [|discriminate].
    exists (trim (substring_from 5 (trim line))).
    destruct (startsWith (trim (substring_from 5 (trim line))) "{"); [|discriminate].
    split; [reflexivity | exact Hl].
Qed.

(** *** Event-stream bodies *)

Fixpoint no_newline (s : string) : bool :=
  match s with
  | EmptyString => true
  | String c rest => negb (Ascii.eqb c newline) && no_newline rest
  end.

Lemma split_lines_line (p rest : string) :
  no_newline p = true ->
  split_lines (p ++ String newline rest) = p :: split_lines rest.
Proof.
  induction p as [|c p IH]; intros Hp.
  - cbn. reflexivity.
  - cbn [no_newline] in Hp. apply andb_prop in Hp. destruct Hp as [Hc Hp].
    cbn [String.append split_lines]. apply negb_true_iff in Hc. rewrite Hc.
    rewrite (IH Hp). reflexivity.
Qed.

(** The payload of a data line is the trimmed text after the marker. *)
Lemma spec_frame_data_line (p : string) :
  spec_frame ("data: " ++ p) =
  if startsWith (trim p) "{" then JSON_parse (JStr (trim p)) else None.
Proof.
  unfold spec_frame.
  assert (Et : trim ("data: " ++ p) = ("data:" ++ trimEnd (String " " p))%string).
  { unfold trim. cbn [String.append].
    rewrite !trimEnd_keeps_head by reflexivity. reflexivity. }
  rewrite Et.
  assert (Hs : forall x, startsWith ("data:" ++ x) "data:" = true)
    by (intros x; destruct x; vm_compute; reflexivity).
  assert (Hsub : forall x, substring_from 5 ("data:" ++ x) = x) by reflexivity.
  assert (Ep : trim (trimEnd (String " " p)) = trim p).
  { unfold trim at 1. rewrite trimEnd_idempotent. fold (trim (String " " p)).
    apply (trim_white_app " " p). cbv [white_space In]. tauto. }
  rewrite Hs, Hsub, Ep. reflexivity.
Qed.

(** The event-stream framing an MCP server answers with ("event: message", a
    data line, a blank line): the body is decoded to the data line's JSON. *)
Theorem parseBody_event_stream (p : string) (v : value) :
  no_newline p = true ->
  startsWith (trim p) "{" = true ->
  JSON_parse (JStr (trim p)) = Some v ->
  parseBody (Some ("event: message" ++ String newline
                   ("data: " ++ p ++ String newline (String newline ""))))%string
  = v.
Proof.
  intros Hp Hopen Hparse. rewrite parseBody_decode. unfold spec_decode.
  assert (Hd : spec_direct ("event: message" ++ String newline
                 ("data: " ++ p ++ String newline (String newline "")))%string = None).
  { unfold spec_direct, trim. cbn [String.append].
    rewrite trimEnd_keeps_head by reflexivity. reflexivity. }
  rewrite Hd.
  assert (Hl : split_lines ("event: message" ++ String newline
                 ("data: " ++ p ++ String newline (String newline "")))%string
               = "event: message" :: ("data: " ++ p)%string :: split_lines (String newline "")).
  { rewrite (split_lines_line "event: message") by reflexivity. f_equal.
    replace ("data: " ++ p ++ String newline (String newline ""))%string
      with (("data: " ++ p) ++ String newline (String newline ""))%string
      by (cbn [String.append]; reflexivity).
    apply split_lines_line. cbn [String.append no_newline].
    rewrite Hp. reflexivity. }
  rewrite Hl. cbn [first_some].
  assert (spec_frame "event: message" = None) as -> by reflexivity.
  rewrite spec_frame_data_line, Hopen, Hparse. reflexivity.
Qed.

End WithJSON.

(** The theorem on the answer of the Node.js fibonacci tool. *)
Lemma parseBody_event_stream_witness :
  @parseBody Runs.table_json
    (Some ("event: message" ++ String newline
           ("data: " ++ Runs.right_text ++ String newline (String newline ""))))%string
  = Runs.fibonacci_doc 55 "nodejs".
Proof.
  apply (@parseBody_event_stream Runs.table_json Runs.right_text);
    vm_compute; reflexivity.
Defined.

(** A byte order mark in front of a document and a no-break space after it
    are trimmed like any white space; so is the ideographic space in front
    of a data payload, in a body that ends its lines with CR LF. *)
Example unicode_white_space_is_trimmed :
  @parseBody Runs.table_json
    (Some (bytes [239; 187; 191]%nat ++ Runs.right_text ++ bytes [194; 160]%nat)%string)
  = Runs.fibonacci_doc 55 "nodejs" /\
  @parseBody Runs.table_json
    (Some ("event: message" ++ bytes [13; 10]%nat
           ++ "data:" ++ bytes [227; 128; 128]%nat ++ Runs.right_text
           ++ bytes [13; 10; 13; 10]%nat)%string)
  = Runs.fibonacci_doc 55 "nodejs".
Proof. split; vm_compute; reflexivity. Qed.

End DecoderLaws.

(* --------------------------------------------------------------------- *)
(** ** More on the sessions of the k6 script                              *)
(* --------------------------------------------------------------------- *)
Module SessionLaws.
Import K6 K6Facts.
#[local] Open Scope list_scope.

Section WithRuntime.
Context {json : JSONLib} {rt : Runtime}.

(** The session token a response carries: a non-empty Mcp-Session-Id. *)
Definition captured (res : Response) : option string :=
  match lookup "Mcp-Session-Id" (headers res) with
  | Some h => if is_empty h then None else Some h
  | None => None
  end.

Definition session_header (params : Params) : option string :=
  lookup "Mcp-Session-Id" (p_headers params).

Lemma token_captured (w : World) : token w = captured (init_response w).
Proof.
  unfold token, new_session, captured.
  destruct (lookup "Mcp-Session-Id" (headers (init_response w))) as [h|]; reflexivity.
Qed.

Lemma captured_not_empty (res : Response) (t : string) :
  captured res = Some t -> is_empty t = false.
Proof.
  unfold captured. destruct (lookup "Mcp-Session-Id" (headers res)) as [h|]; [|discriminate].
  destruct (is_empty h) eqn:E; [discriminate|]. intros I. injection I as <-. exact E.
Qed.

Lemma session_header_with (sid : option string) (timeout : string) tags :
  (forall t, sid = Some t -> is_empty t = false) ->
  session_header {| p_headers := with_session sid; p_timeout := timeout; p_tags := tags |}
  = sid.
Proof.
  intros Hne. unfold session_header, with_session. cbn [p_headers].
  destruct sid as [t|]; [|reflexivity].
  rewrite (Hne t eq_refl). reflexivity.
Qed.

(** The handshake is sent without a session token.  The token is the
    non-empty Mcp-Session-Id of the handshake's response, if any: it is
    attached to the acknowledge and to the invoke request, it is the one the
    teardown names, and it is the session id the session returns; a session
    id in the invoke response changes none of this. *)
Theorem session_token_discipline (toolName : string) (toolArgs : value) (s : VU) :
  exists out s' p0 p1 p2,
    mcpSession toolName toolArgs s = (Some out, s') /\
    sessionId out = captured (initRes out) /\
    trace s' =
      trace s
      ++ [HttpPost SERVER_URL initialize_payload p0;
          HttpPost SERVER_URL initialized_payload p1;
          HttpPost SERVER_URL (call_payload toolName toolArgs) p2]
      ++ match captured (initRes out) with
         | Some t => [HttpDel SERVER_URL (delete_params t)]
         | None => []
         end /\
    session_header p0 = None /\
    session_header p1 = captured (initRes out) /\
    session_header p2 = captured (initRes out).
Proof.
  rewrite mcpSession_run. cbv zeta.
  exists (session_result toolName toolArgs (world s)). eexists.
  exists (post_params None), (notify_params (token (world s))),
         (post_params (token (world s))).
  split; [reflexivity|]. cbn [sessionId initRes session_result trace].
  rewrite !token_captured.
  pose proof (captured_not_empty (init_response (world s))) as Hne.
  destruct (captured (init_response (world s))) as [t|] eqn:Ec.
  - split; [reflexivity|]. split.
    + unfold session_events, teardown_events. rewrite (Hne t eq_refl). reflexivity.
    + split; [reflexivity|]. split.
      * unfold notify_params. apply session_header_with.
        intros t' E. injection E as <-. apply Hne. reflexivity.
      * unfold post_params. apply session_header_with.
        intros t' E. injection E as <-. apply Hne. reflexivity.
  - split; [reflexivity|]. split; [reflexivity|]. repeat split.
Qed.

(** *** The samples of a run *)

Fixpoint run_samples (n : nat) (w : World) : list Sample :=
  match n with
  | O => []
  | S n' => iteration_samples w ++ run_samples n' (iteration_world w)
  end.

Lemma iterations_samples (n : nat) (s : VU) :
  samples (iterations n s) = samples s ++ run_samples n (world s).
Proof.
  revert s. induction n as [|n IH]; intros s.
  - cbn. rewrite app_nil_r. reflexivity.
  - cbn [iterations run_samples]. rewrite default_function_run. cbn [snd].
    rewrite IH. cbn [samples world]. rewrite <- app_assoc. reflexivity.
Qed.

Fixpoint tally (p : Sample -> bool) (l : list Sample) : nat :=
  match l with
  | [] => O
  | x :: rest => ((if p x then 1 else 0) + tally p rest)%nat
  end.

Lemma tally_app (p : Sample -> bool) (a b : list Sample) :
  tally p (a ++ b) = (tally p a + tally p b)%nat.
Proof.
  induction a as [|x a IH]; [reflexivity|]. cbn [app tally]. rewrite IH. lia.
Qed.

Definition is_rate (b : bool) (x : Sample) : bool :=
  match x with
  | RateAdd m v => (m =? mcpErrorRate)%string && Bool.eqb v b
  | _ => false
  end.

Definition is_trend (metric : string) (x : Sample) : bool :=
  match x with TrendAdd m _ => (m =? metric)%string | _ => false end.

Definition is_check (name : string) (x : Sample) : bool :=
  match x with Check n _ => (n =? name)%string | _ => false end.

Ltac split_samples :=
  unfold iteration_samples, TOOLS, list_samples;
  cbn [tools_samples tools_world];
  unfold tool_samples, error_samples; cbv zeta;
  repeat match goal with
         | |- context [well_formed_success ?r] => destruct (well_formed_success r)
         end.

(** One iteration adds four samples to mcp_error_rate, one per scenario
    session, and adds to mcp_errors exactly the number of them that are
    true: the tools/list session is never classified. *)
Lemma iteration_error_samples (w : World) :
  (tally (is_rate true) (iteration_samples w)
   + tally (is_rate false) (iteration_samples w) = 4)%nat /\
  counter_total mcpErrors (iteration_samples w)
  = Z.of_nat (tally (is_rate true) (iteration_samples w)).
Proof. split_samples; split; reflexivity. Qed.

(** Over any number of iterations, mcp_error_rate receives four samples per
    iteration (one per scenario session, none for the tools/list session),
    and mcp_errors counts exactly the samples that are true: the error rate
    k6 derives is mcp_errors over four times the iterations. *)
Theorem error_rate_matches_error_count (n : nat) (s : VU) :
  exists new,
    samples (iterations n s) = samples s ++ new /\
    (tally (is_rate true) new + tally (is_rate false) new = 4 * n)%nat /\
    counter_total mcpErrors new = Z.of_nat (tally (is_rate true) new).
Proof.
  exists (run_samples n (world s)). split; [apply iterations_samples|].
  generalize (world s). induction n as [|n IH]; intros w.
  - split; reflexivity.
  - cbn [run_samples]. rewrite !tally_app, counter_total_app.
    destruct (iteration_error_samples w) as [Hr He].
    destruct (IH (iteration_world w)) as [Hr' He'].
    split; [lia|]. rewrite He, He'. lia.
Qed.

Lemma iteration_trends (w : World) :
  tally (is_trend initDuration) (iteration_samples w) = 4%nat /\
  tally (is_trend sessionDuration) (iteration_samples w) = 4%nat /\
  tally (is_trend fibDuration) (iteration_samples w) = 1%nat /\
  tally (is_trend fetchDuration) (iteration_samples w) = 1%nat /\
  tally (is_trend jsonDuration) (iteration_samples w) = 1%nat /\
  tally (is_trend dbDuration) (iteration_samples w) = 1%nat /\
  tally (is_trend toolsListDuration) (iteration_samples w) = 1%nat /\
  tally (is_check "fibonacci ok") (iteration_samples w) = 1%nat /\
  tally (is_check "fetch ok") (iteration_samples w) = 1%nat /\
  tally (is_check "json_process ok") (iteration_samples w) = 1%nat /\
  tally (is_check "db_query ok") (iteration_samples w) = 1%nat /\
  tally (is_check "tools/list ok") (iteration_samples w) = 1%nat.
Proof. split_samples; repeat split; reflexivity. Qed.

(** Over any number of iterations each tool trend, the tools/list trend and
    each of the five checks receive one sample per iteration, while the
    initialize trend and the full-session trend receive four: the handshake
    and the duration of the tools/list session are not recorded. *)
Theorem samples_per_iteration (n : nat) (s : VU) :
  exists new,
    samples (iterations n s) = samples s ++ new /\
    tally (is_trend initDuration) new = (4 * n)%nat /\
    tally (is_trend sessionDuration) new = (4 * n)%nat /\
    tally (is_trend fibDuration) new = n /\
    tally (is_trend fetchDuration) new = n /\
    tally (is_trend jsonDuration) new = n /\
    tally (is_trend dbDuration) new = n /\
    tally (is_trend toolsListDuration) new = n /\
    tally (is_check "fibonacci ok") new = n /\
    tally (is_check "fetch ok") new = n /\
    tally (is_check "json_process ok") new = n /\
    tally (is_check "db_query ok") new = n /\
    tally (is_check "tools/list ok") new = n.
Proof.
  exists (run_samples n (world s)). split; [apply iterations_samples|].
  generalize (world s). induction n as [|n IH]; intros w.
  - repeat split.
  - cbn [run_samples]. rewrite !tally_app.
    destruct (iteration_trends w)
      as (K1 & K2 & K3 & K4 & K5 & K6 & K7 & K8 & K9 & K10 & K11 & K12).
    destruct (IH (iteration_world w))
      as (I1 & I2 & I3 & I4 & I5 & I6 & I7 & I8 & I9 & I10 & I11 & I12).
    rewrite K1, K2, K3, K4, K5, K6, K7, K8, K9, K10, K11, K12.
    rewrite I1, I2, I3, I4, I5, I6, I7, I8, I9, I10, I11, I12.
    repeat split; lia.
Qed.

End WithRuntime.
End SessionLaws.

(* --------------------------------------------------------------------- *)
(** ** Checks against the error classification; the summary's outputs     *)
(* --------------------------------------------------------------------- *)
Module SummaryLaws.
Import K6 K6Facts.
#[local] Open Scope list_scope.

Section WithJSON.
Context {json : JSONLib}.

(** The payload is an object whose result member is truthy. *)
Definition result_truthy (r : value) : bool :=
  match r with
  | JObj fields => truthy (match lookup "result" fields with Some x => x | None => JUndefined end)
  | _ => false
  end.

Lemma content_missing_false (r : value) :
  content_missing r = Some false -> result_truthy r = true.
Proof.
  unfold content_missing, result_truthy.
  destruct r as [| |b|z|s|l|fields]; cbn [truthy negb get]; try discriminate.
  - destruct b; discriminate.
  - destruct (z =? 0); discriminate.
  - destruct (s =? "")%string; discriminate.
  - destruct (truthy match lookup "result" fields with Some x => x | None => JUndefined end);
      [reflexivity | discriminate].
Qed.

Lemma guarded_check_result (k : value -> option value) (r : value) :
  verdict (fun r => obind (content_missing r)
                      (fun missing => if missing : bool then Some (JBool false)
                                      else Some (or_false (k r)))) r = true ->
  result_truthy r = true.
Proof.
  unfold verdict. destruct (content_missing r) as [[|]|] eqn:E; cbn [obind]; try discriminate.
  intros _. apply content_missing_false. exact E.
Qed.

Lemma member_check_result (member : string) (r : value) :
  verdict (fun r => if truthy r
                    then obind (get r "result")
                           (fun res => if truthy res then get res member else Some res)
                    else Some r) r = true ->
  result_truthy r = true.
Proof.
  unfold verdict, result_truthy.
  destruct r as [| |b|z|s|l|fields]; cbn [truthy get obind]; try discriminate.
  - destruct b; intros E; cbn in E; discriminate E.
  - destruct (negb (z =? 0)) eqn:N; intros E; cbn in E; [discriminate E|].
    rewrite N in E. discriminate E.
  - destruct (negb (s =? "")%string) eqn:N; intros E; cbn in E; [discriminate E|].
    rewrite N in E. discriminate E.
  - destruct (truthy match lookup "result" fields with Some x => x | None => JUndefined end)
      eqn:E; [reflexivity|]. rewrite E. discriminate.
Qed.

Lemma isError_of_result (r : value) :
  result_truthy r = true ->
  exists e res,
    get r "error" = Some e /\ get r "result" = Some res /\ truthy res = true /\
    isError r = Some (truthy e).
Proof.
  intros Hr. destruct r as [| |b|z|s|l|fields]; try discriminate.
  cbn [result_truthy] in Hr. eexists. eexists.
  split; [reflexivity|]. split; [reflexivity|]. split; [exact Hr|].
  rewrite isError_spec. cbn [well_formed_success]. rewrite Hr, andb_true_r, negb_involutive.
  reflexivity.
Qed.

(** Whenever the check of a scenario, or the tools/list check, passes on a
    decoded payload, the payload has a truthy result member, and
    [mcpSession] counts it as an error exactly when it also carries a truthy
    error member: a response can pass its check and still be counted in
    mcp_errors, but a response without result never passes. *)
Theorem passing_check_has_result :
  Forall (fun fn : value -> option value =>
            forall r, verdict fn r = true ->
                      exists e res,
                        get r "error" = Some e /\ get r "result" = Some res /\
                        truthy res = true /\ isError r = Some (truthy e))
         (tools_list_check :: map check TOOLS).
Proof.
  repeat constructor; intros r Hv; apply isError_of_result.
  - exact (member_check_result "tools" r Hv).
  - exact (guarded_check_result _ r Hv).
  - exact (member_check_result "content" r Hv).
  - exact (guarded_check_result _ r Hv).
  - exact (member_check_result "content" r Hv).
Qed.

End WithJSON.

(** The theorem on a response that passes the fibonacci check and carries
    the error member null. *)
Lemma passing_check_has_result_witness :
  exists e res,
    get Runs.null_error_response "error" = Some e /\
    get Runs.null_error_response "result" = Some res /\
    truthy res = true /\ isError Runs.null_error_response = Some (truthy e).
Proof.
  pose proof (@passing_check_has_result Runs.table_json) as H.
  inversion H as [|? ? _ Htools]. inversion Htools as [|? ? Hfib _].
  apply Hfib. vm_compute. reflexivity.
Defined.

Section WithRuntime.
Context {rt : Runtime}.

(** What [handleSummary] returns: the JSON summary under the output path and
    the text summary under stdout; when the output path is itself "stdout",
    the text summary replaces the JSON one and is all that is returned. *)
Theorem handleSummary_outputs (stringify : Summary -> string) (w : World)
    (data : SummaryData) :
  handleSummary stringify w data =
  if (outputPath =? "stdout")%string
  then [("stdout", textSummary data)]
  else [(outputPath, stringify (build_summary w data)); ("stdout", textSummary data)].
Proof.
  unfold handleSummary. cbv zeta. cbn [set_property].
  rewrite (String.eqb_sym "stdout" outputPath).
  destruct (outputPath =? "stdout")%string; reflexivity.
Qed.

Definition recorded (data : SummaryData) (entry : string * string) : bool :=
  match lookup (snd entry) data with Some _ => true | None => false end.

Lemma collect_tools_keys (data : SummaryData) (entries : list (string * string)) :
  map fst (collect_tools data entries) = map fst (filter (recorded data) entries).
Proof.
  induction entries as [|[toolName metricName] rest IH]; [reflexivity|].
  cbn [collect_tools filter]. unfold recorded at 1, extractTrend. cbn [snd].
  destruct (lookup metricName data); cbn [map fst]; rewrite IH; reflexivity.
Qed.

(** The tools of the summary are those of the six tool metrics the run
    recorded, under their tool names and in the table's order; a metric
    without samples leaves its tool out, and the session member is null
    exactly when the full-session metric is missing. *)
Theorem summary_lists_recorded_tools (w : World) (data : SummaryData) :
  map fst (tools (build_summary w data)) = map fst (filter (recorded data) toolMetrics) /\
  (session (build_summary w data) = None <-> lookup "mcp_full_session_duration" data = None).
Proof.
  split; [apply collect_tools_keys|].
  cbn [session build_summary]. unfold extractTrend.
  destruct (lookup "mcp_full_session_duration" data); split; intros E;
    first [discriminate | reflexivity].
Qed.

End WithRuntime.
End SummaryLaws.

(* --------------------------------------------------------------------- *)
(** ** More on the tool handlers                                          *)
(* --------------------------------------------------------------------- *)
Module HandlerLaws.
Import Servers ServersFacts.
#[local] Open Scope list_scope.

(** For every integer the Go handler, on 64-bit integers, and the Java
    handler, on 32-bit integers, end the same way: with the same error
    message, or with the same input and the same result. *)
Theorem go_and_java_fibonacci_agree (n : Z) :
  match Go.handleFibonacci {| Go.N := n |}, Java.calculateFibonacci n with
  | Success g, Success j =>
      j = [("input", JNum (Go.Input g)); ("result", JNum (Go.Result g));
           ("server_type", JStr "java")]
  | Failure mg, Failure mj => mg = mj
  | _, _ => False
  end.
Proof.
  unfold Go.handleFibonacci, Java.calculateFibonacci. cbn [Go.N].
  destruct (Z.ltb_spec n 0); [reflexivity|].
  destruct (Z.gtb_spec n 40); [reflexivity|]. cbn [orb Go.Input Go.Result].
  rewrite go_fib_correct, java_fibonacci_correct by lia. reflexivity.
Qed.

(** *** The transform *)

Lemma value_induction (P : value -> Prop) :
  P JUndefined -> P JNull -> (forall b, P (JBool b)) -> (forall z, P (JNum z)) ->
  (forall s, P (JStr s)) ->
  (forall items, Forall P items -> P (JArr items)) ->
  (forall fields, Forall (fun kv => P (snd kv)) fields -> P (JObj fields)) ->
  forall v, P v.
Proof.
  intros Hu Hn Hb Hz Hs Ha Ho. fix IH 1. intros [| |b|z|s|items|fields].
  - exact Hu.
  - exact Hn.
  - apply Hb.
  - apply Hz.
  - apply Hs.
  - apply Ha. induction items as [|x items IHl]; constructor; [apply IH | exact IHl].
  - apply Ho. induction fields as [|kv fields IHl]; constructor; [apply IH | exact IHl].
Qed.

(** The string values of a document, at any depth, in order; keys are not
    values. *)
Fixpoint leaves (v : value) : list string :=
  match v with
  | JStr s => [s]
  | JArr items => flat_map leaves items
  | JObj fields => flat_map (fun kv => leaves (snd kv)) fields
  | _ => []
  end.

(** The document with every string value blanked: what is left is its
    nesting, its keys, and its numbers, booleans and nulls. *)
Fixpoint skeleton (v : value) : value :=
  match v with
  | JStr _ => JStr ""
  | JArr items => JArr (map skeleton items)
  | JObj fields => JObj (map (fun kv => (fst kv, skeleton (snd kv))) fields)
  | _ => v
  end.

Fixpoint array_free (v : value) : bool :=
  match v with
  | JArr _ => false
  | JObj fields => forallb (fun kv => array_free (snd kv)) fields
  | _ => true
  end.

(** The document without the entries whose key is [__proto__], at any
    depth. *)
Fixpoint pruned (v : value) : value :=
  match v with
  | JArr items => JArr (map pruned items)
  | JObj fields => JObj (Node.assigned (map (fun kv => (fst kv, pruned (snd kv))) fields))
  | _ => v
  end.

(** No key of the document, at any depth, is [__proto__]. *)
Fixpoint proto_free (v : value) : bool :=
  match v with
  | JArr items => forallb proto_free items
  | JObj fields =>
      forallb (fun kv => negb (fst kv =? "__proto__")%string && proto_free (snd kv)) fields
  | _ => true
  end.

(** Every string value of the document is ASCII text. *)
Fixpoint ascii_doc (v : value) : bool :=
  match v with
  | JStr s => ascii_only s
  | JArr items => forallb ascii_doc items
  | JObj fields => forallb (fun kv => ascii_doc (snd kv)) fields
  | _ => true
  end.

(** The same document, up to the order in which objects list their
    entries. *)
Inductive alike : value -> value -> Prop :=
| alike_same (v : value) : alike v v
| alike_array (xs ys : list value) : Forall2 alike xs ys -> alike (JArr xs) (JArr ys)
| alike_object (xs ys zs : list (string * value)) :
    Permutation xs ys ->
    Forall2 (fun a b => fst a = fst b /\ alike (snd a) (snd b)) ys zs ->
    alike (JObj xs) (JObj zs).

Lemma upper_char_idempotent (c : ascii) : upper_char (upper_char c) = upper_char c.
Proof. destruct c as [[] [] [] [] [] [] [] []]; reflexivity. Qed.

Lemma upper_ascii_idempotent (s : string) : upper_ascii (upper_ascii s) = upper_ascii s.
Proof.
  induction s as [|c s IH]; [reflexivity|].
  cbn [upper_ascii]. rewrite upper_char_idempotent, IH. reflexivity.
Qed.

Lemma upper_char_ascii (c : ascii) :
  Nat.ltb (nat_of_ascii (upper_char c)) 128 = Nat.ltb (nat_of_ascii c) 128.
Proof. destruct c as [[] [] [] [] [] [] [] []]; reflexivity. Qed.

Lemma upper_ascii_only (s : string) : ascii_only (upper_ascii s) = ascii_only s.
Proof.
  induction s as [|c s IH]; [reflexivity|].
  cbn [upper_ascii ascii_only]. rewrite upper_char_ascii, IH. reflexivity.
Qed.

Lemma map_ext_Forall {A B} (f g : A -> B) (l : list A) :
  Forall (fun x => f x = g x) l -> map f l = map g l.
Proof. induction 1 as [|x l Hx _ IH]; [reflexivity|]. cbn. rewrite Hx, IH. reflexivity. Qed.

Lemma flat_map_ext_Forall {A B} (f g : A -> list B) (l : list A) :
  Forall (fun x => f x = g x) l -> flat_map f l = flat_map g l.
Proof. induction 1 as [|x l Hx _ IH]; [reflexivity|]. cbn. rewrite Hx, IH. reflexivity. Qed.

Lemma flat_map_map {A B C} (f : A -> B) (g : B -> list C) (l : list A) :
  flat_map g (map f l) = flat_map (fun x => g (f x)) l.
Proof. induction l as [|x l IH]; [reflexivity|]. cbn. rewrite IH. reflexivity. Qed.

Lemma map_flat_map {A B C} (f : A -> list B) (g : B -> C) (l : list A) :
  map g (flat_map f l) = flat_map (fun x => map g (f x)) l.
Proof. induction l as [|x l IH]; [reflexivity|]. cbn. rewrite map_app, IH. reflexivity. Qed.

Lemma Forall2_map {A B} (R : B -> B -> Prop) (f g : A -> B) (l : list A) :
  Forall (fun x => R (f x) (g x)) l -> Forall2 R (map f l) (map g l).
Proof. induction 1 as [|x l Hx _ IH]; constructor; assumption. Qed.

(** The assignments of a loop over entries that are transformed value by
    value: the entries that are kept are transformed. *)
Lemma assigned_map (f : value -> value) (l : list (string * value)) :
  Node.assigned (map (fun kv => (fst kv, f (snd kv))) l)
  = map (fun kv => (fst kv, f (snd kv))) (Node.assigned l).
Proof.
  unfold Node.assigned. induction l as [|kv l IH]; [reflexivity|].
  cbn [map filter fst]. destruct (negb (fst kv =? "__proto__")%string); cbn [map];
    rewrite IH; reflexivity.
Qed.

Lemma assigned_idempotent (l : list (string * value)) :
  Node.assigned (Node.assigned l) = Node.assigned l.
Proof.
  unfold Node.assigned. induction l as [|kv l IH]; [reflexivity|].
  cbn [filter]. destruct (negb (fst kv =? "__proto__")%string) eqn:E; [|exact IH].
  cbn [filter]. rewrite E, IH. reflexivity.
Qed.

Lemma assigned_Forall (P : string * value -> Prop) (l : list (string * value)) :
  Forall P l -> Forall P (Node.assigned l).
Proof.
  unfold Node.assigned. induction 1 as [|kv l Hkv _ IH]; [constructor|].
  cbn [filter]. destruct (negb (fst kv =? "__proto__")%string); [constructor|]; assumption.
Qed.

Lemma assigned_free (l : list (string * value)) :
  forallb (fun kv => negb (fst kv =? "__proto__")%string) l = true -> Node.assigned l = l.
Proof.
  unfold Node.assigned. induction l as [|kv l IH]; [reflexivity|].
  cbn [forallb filter]. intros H. apply andb_prop in H. destruct H as [Hk Hl].
  rewrite Hk, (IH Hl). reflexivity.
Qed.

Lemma forallb_and {A} (p q : A -> bool) (l : list A) :
  forallb (fun x => p x && q x) l = true ->
  forallb p l = true /\ forallb q l = true.
Proof.
  induction l as [|x l IH]; [split; reflexivity|]. cbn [forallb]. intros H.
  apply andb_prop in H. destruct H as [Hx Hl]. apply andb_prop in Hx.
  destruct Hx as [Hp Hq]. destruct (IH Hl) as [Hpl Hql]. rewrite Hp, Hq, Hpl, Hql.
  split; reflexivity.
Qed.

Section WithLibraries.
Context {text : StringLib} {go : Go.Library} {java : Java.Library}.

Lemma node_transform_object (fields : list (string * value)) :
  Node.transformStrings (JObj fields)
  = JObj (map (fun kv => (fst kv, Node.transformStrings (snd kv))) (Node.assigned fields)).
Proof. cbn [Node.transformStrings]. rewrite assigned_map. reflexivity. Qed.

Lemma pruned_object (fields : list (string * value)) :
  pruned (JObj fields)
  = JObj (map (fun kv => (fst kv, pruned (snd kv))) (Node.assigned fields)).
Proof. cbn [pruned]. rewrite assigned_map. reflexivity. Qed.

(** The Node.js transform drops the entries whose key is [__proto__] and
    upper-cases every string value of what is left, at any depth and inside
    arrays too; it changes nothing else: the nesting, the other keys and
    their order, the numbers, booleans and nulls are kept, and a document
    without such a key loses no entry.  On a document whose strings are
    ASCII text, applying it twice is applying it once. *)
Theorem transformStrings_upper_cases_the_values (v : value) :
  leaves (Node.transformStrings v) = map toUpperCase (leaves (pruned v)) /\
  skeleton (Node.transformStrings v) = skeleton (pruned v) /\
  (proto_free v = true -> pruned v = v) /\
  (ascii_doc v = true ->
   ascii_doc (Node.transformStrings v) = true /\
   Node.transformStrings (Node.transformStrings v) = Node.transformStrings v).
Proof.
  induction v as [| |b|z|s|items IH|fields IH] using value_induction;
    try (repeat split; reflexivity).
  - split; [reflexivity|]. split; [reflexivity|]. split; [reflexivity|].
    cbn [ascii_doc Node.transformStrings]. intros Hs.
    rewrite (toUpperCase_ascii s Hs), upper_ascii_only.
    split; [exact Hs|].
    rewrite (toUpperCase_ascii (upper_ascii s)) by (rewrite upper_ascii_only; exact Hs).
    rewrite upper_ascii_idempotent. reflexivity.
  - cbn [Node.transformStrings pruned leaves skeleton proto_free ascii_doc].
    split; [|split; [|split]].
    + rewrite !flat_map_map, map_flat_map. apply flat_map_ext_Forall.
      eapply Forall_impl; [|exact IH]. cbn beta. intros x (Hx & _). exact Hx.
    + f_equal. rewrite !map_map. apply map_ext_Forall.
      eapply Forall_impl; [|exact IH]. cbn beta. intros x (_ & Hx & _). exact Hx.
    + intros Hf. f_equal. rewrite <- (map_id items) at 2. apply map_ext_Forall.
      rewrite forallb_forall in Hf. rewrite Forall_forall in IH |- *.
      intros x Hin. apply (IH x Hin). apply Hf. exact Hin.
    + intros Ha. rewrite forallb_forall in Ha. rewrite Forall_forall in IH. split.
      * apply forallb_forall. intros y Hy. apply in_map_iff in Hy.
        destruct Hy as (x & <- & Hin). apply (IH x Hin). apply Ha. exact Hin.
      * f_equal. rewrite map_map. apply map_ext_Forall. apply Forall_forall.
        intros x Hin. apply (IH x Hin). apply Ha. exact Hin.
  - rewrite node_transform_object, pruned_object.
    pose proof (assigned_Forall _ _ IH) as IHa.
    cbn [leaves skeleton proto_free ascii_doc]. split; [|split; [|split]].
    + rewrite !flat_map_map, map_flat_map. apply flat_map_ext_Forall.
      eapply Forall_impl; [|exact IHa]. cbn beta. intros x (Hx & _). exact Hx.
    + f_equal. rewrite !map_map. apply map_ext_Forall.
      eapply Forall_impl; [|exact IHa]. cbn beta. intros x (_ & Hx & _).
      cbn [fst snd]. rewrite Hx. reflexivity.
    + intros Hf. apply forallb_and in Hf. destruct Hf as [Hk Hv].
      rewrite (assigned_free fields Hk). f_equal.
      rewrite <- (map_id fields) at 2. apply map_ext_Forall.
      rewrite forallb_forall in Hv. rewrite Forall_forall in IH |- *.
      intros [k x] Hin. cbn [fst snd]. f_equal. apply (IH (k, x) Hin).
      apply (Hv (k, x) Hin).
    + intros Ha. rewrite forallb_forall in Ha. rewrite Forall_forall in IHa.
      assert (Hin_a : forall kv, In kv (Node.assigned fields) -> In kv fields).
      { intros kv Hin. unfold Node.assigned in Hin. apply filter_In in Hin. tauto. }
      split.
      * apply forallb_forall. intros y Hy. apply in_map_iff in Hy.
        destruct Hy as (x & <- & Hin). cbn [snd]. apply (IHa x Hin).
        apply Ha. apply Hin_a. exact Hin.
      * rewrite node_transform_object, assigned_map, assigned_idempotent. f_equal.
        rewrite map_map. apply map_ext_Forall. apply Forall_forall.
        intros x Hin. cbn [fst snd]. f_equal. apply (IHa x Hin).
        apply Ha. apply Hin_a. exact Hin.
Qed.

(** On a document of ASCII strings without a [__proto__] key the Go
    transform and the Node.js one give the same document, up to the order of
    the entries of objects. *)
Lemma go_and_node_transform_agree (v : value) :
  ascii_doc v = true -> proto_free v = true ->
  alike (Go.transformStrings v) (Node.transformStrings v).
Proof.
  induction v as [| |b|z|s|items IH|fields IH] using value_induction;
    try (intros; apply alike_same).
  - cbn [ascii_doc Go.transformStrings Node.transformStrings]. intros Hs _.
    rewrite (Go.ToUpper_ascii s Hs), (toUpperCase_ascii s Hs). apply alike_same.
  - cbn [ascii_doc proto_free Go.transformStrings Node.transformStrings]. intros Ha Hf.
    apply alike_array. apply Forall2_map.
    rewrite forallb_forall in Ha, Hf. rewrite Forall_forall in IH |- *.
    intros x Hin. apply (IH x Hin); [apply Ha | apply Hf]; exact Hin.
  - rewrite node_transform_object.
    cbn [ascii_doc proto_free Go.transformStrings]. intros Ha Hf.
    apply forallb_and in Hf. destruct Hf as [Hk Hv]. rewrite (assigned_free fields Hk).
    eapply alike_object; [apply Go.range_permutes|].
    apply (Forall2_map _ (fun kv => (fst kv, Go.transformStrings (snd kv)))
             (fun kv => (fst kv, Node.transformStrings (snd kv)))).
    rewrite forallb_forall in Ha, Hv. rewrite Forall_forall in IH |- *.
    intros x Hin. cbn [fst snd]. split; [reflexivity|].
    apply (IH x Hin); [apply Ha | apply Hv]; exact Hin.
Qed.

Lemma java_entry_agrees (v : value) :
  Java.plain_locale ->
  array_free v = true -> ascii_doc v = true -> proto_free v = true ->
  alike (Java.transform_entry v) (Node.transformStrings v).
Proof.
  intros Hlocale.
  induction v as [| |b|z|s|items IH|fields IH] using value_induction;
    try (intros; apply alike_same).
  - cbn [ascii_doc Java.transform_entry Node.transformStrings]. intros _ Hs _.
    rewrite (Hlocale s Hs), (toUpperCase_ascii s Hs). apply alike_same.
  - discriminate.
  - rewrite node_transform_object.
    cbn [array_free ascii_doc proto_free Java.transform_entry]. intros Hn Ha Hf.
    apply forallb_and in Hf. destruct Hf as [Hk Hv]. rewrite (assigned_free fields Hk).
    eapply alike_object; [apply Java.HashMap_permutes|].
    apply (Forall2_map _ (fun kv => (fst kv, Java.transform_entry (snd kv)))
             (fun kv => (fst kv, Node.transformStrings (snd kv)))).
    rewrite forallb_forall in Hn, Ha, Hv. rewrite Forall_forall in IH |- *.
    intros x Hin. cbn [fst snd]. split; [reflexivity|].
    apply (IH x Hin); [apply Hn | apply Ha | apply Hv]; exact Hin.
Qed.

(** On a document that holds no array, no string beyond ASCII and no
    [__proto__] key, the Java transform (in a locale without a dotted capital
    i), the Go transform and the Node.js one give the same document, up to the
    order of the entries of objects.  An array the Java transform puts back
    as it is, the strings inside it untouched, where Node.js transforms its
    items. *)
Theorem java_transform_skips_arrays (data : list (string * value)) :
  (Java.plain_locale ->
   array_free (JObj data) = true -> ascii_doc (JObj data) = true ->
   proto_free (JObj data) = true ->
   alike (JObj (Java.transformStrings data)) (Node.transformStrings (JObj data)) /\
   alike (Go.transformStrings (JObj data)) (Node.transformStrings (JObj data))) /\
  (forall key items,
     Java.transformStrings [(key, JArr items)] = [(key, JArr items)] /\
     Node.transformStrings (JObj [(key, JArr items)])
     = JObj (Node.assigned [(key, JArr (map Node.transformStrings items))])).
Proof.
  split.
  - intros Hlocale Hn Ha Hf. split.
    + exact (java_entry_agrees (JObj data) Hlocale Hn Ha Hf).
    + exact (go_and_node_transform_agree (JObj data) Ha Hf).
  - intros key items. split; [|reflexivity].
    unfold Java.transformStrings. cbn [map fst snd Java.transform_entry].
    apply Permutation_length_1_inv. apply Permutation_sym. apply Java.HashMap_permutes.
Qed.

(** The keys of the transformed data.  In Node.js they are the keys of the
    top-level object in their order, [__proto__] left out.  In Go the
    reported original keys and the keys of the transformed map are the keys
    of the object in an order the runtime picks, and the type assertion never
    fails; in Java the transformed map holds the keys of the object in the
    order of its hash table. *)
Theorem transform_keeps_the_keys (data : list (string * value)) :
  (exists transformed,
     Node.transformStrings (JObj data) = JObj transformed /\
     map fst transformed
     = filter (fun k => negb (k =? "__proto__")%string) (map fst data)) /\
  (exists out,
     Go.handleProcessData data = Success out /\
     Permutation (Go.OriginalKeys out) (map fst data) /\
     Permutation (map fst (Go.TransformedData out)) (map fst data)) /\
  Permutation (map fst (Java.transformStrings data)) (map fst data).
Proof.
  assert (Hk : forall f : value -> value,
             map fst (map (fun kv : string * value => (fst kv, f (snd kv))) data)
             = map fst data).
  { intros f. rewrite map_map. apply map_ext. reflexivity. }
  split; [|split].
  - eexists. split; [apply node_transform_object|].
    rewrite map_map. cbn [fst]. unfold Node.assigned. clear Hk.
    induction data as [|kv data IH]; [reflexivity|].
    cbn [filter map]. destruct (negb (fst kv =? "__proto__")%string); cbn [map];
      rewrite IH; reflexivity.
  - eexists. split; [reflexivity|]. cbn [Go.OriginalKeys Go.TransformedData]. split.
    + apply Permutation_map. apply Go.range_permutes.
    + rewrite <- (Hk Go.transformStrings). apply Permutation_map. apply Go.range_permutes.
  - rewrite <- (Hk Java.transform_entry). apply Permutation_map.
    apply Java.HashMap_permutes.
Qed.

End WithLibraries.

End HandlerLaws.

(* --------------------------------------------------------------------- *)
(** ** Handlers with effects, and their answers under the script's checks *)
(* --------------------------------------------------------------------- *)
Module EffectLaws.
Import K6 K6Facts Servers.
#[local] Open Scope list_scope.

Section WithRuntimes.
Context {json : JSONLib} {go : Go.Runtime} {node : Node.Runtime} {java : Java.Runtime}.

(** The three database handlers draw the same line: a delay below 0 or above
    5000 is refused with the same message and without any wait (the world is
    left as it was); a delay from 0 to 5000 is waited for exactly once, before
    the timestamp is taken, and the query and the delay are echoed.  In
    Node.js an omitted delay is the delay 0. *)
Theorem database_query_handlers_agree (query : string) (delay : Z)
    (wg : Go.World) (wn : Node.World) (wj : Java.World) :
  (delay < 0 \/ 5000 < delay ->
   Go.handleDatabaseQuery {| Go.Query := query; Go.DelayMs := delay |} wg
   = (Failure "delay_ms deve estar entre 0 e 5000", wg) /\
   Node.simulate_database_query query (Some delay) wn
   = (Failure "delay_ms deve estar entre 0 e 5000", wn) /\
   Java.simulateDatabaseQuery query delay wj
   = (Failure "delay_ms deve estar entre 0 e 5000", wj)) /\
  (0 <= delay <= 5000 ->
   Go.handleDatabaseQuery {| Go.Query := query; Go.DelayMs := delay |} wg
   = (Success {| Go.OutQuery := query; Go.OutDelayMs := delay;
                 Go.Timestamp :=
                   Go.format_RFC3339 (Go.time_Now (Go.time_Sleep (delay * 1000000) wg));
                 Go.DbServerType := "go" |},
      Go.time_Sleep (delay * 1000000) wg) /\
   Node.simulate_database_query query (Some delay) wn
   = (Success (Node.text_content
                 (JSON_stringify
                    (JObj [("query", JStr query); ("delay_ms", JNum delay);
                           ("timestamp", JStr (Node.toISOString (Node.setTimeout delay wn)));
                           ("server_type", JStr "nodejs")]))),
      Node.setTimeout delay wn) /\
   Java.simulateDatabaseQuery query delay wj
   = (Success [("query", JStr query); ("delay_ms", JNum delay);
               ("timestamp", JStr (Java.Instant_now (Java.Thread_sleep delay wj)));
               ("server_type", JStr "java")],
      Java.Thread_sleep delay wj)) /\
  Node.simulate_database_query query None wn
  = Node.simulate_database_query query (Some 0) wn.
Proof.
  unfold Go.handleDatabaseQuery, Node.simulate_database_query, Java.simulateDatabaseQuery.
  cbn [Go.DelayMs Go.Query]. split; [|split].
  - intros Hout.
    assert (E : (delay <? 0) || (delay >? 5000) = true).
    { destruct (Z.ltb_spec delay 0); [reflexivity|].
      destruct (Z.gtb_spec delay 5000); [reflexivity | lia]. }
    rewrite E. repeat split.
  - intros Hin.
    assert (E : (delay <? 0) || (delay >? 5000) = false).
    { destruct (Z.ltb_spec delay 0); [lia|]. destruct (Z.gtb_spec delay 5000); [lia|].
      reflexivity. }
    rewrite E. repeat split.
  - reflexivity.
Qed.

(** Every answer of the Node.js fetch handler, the report of a failed
    upstream call included, and every answer of its database handler, once
    framed as a JSON-RPC result, passes the check of its scenario and is
    counted as no error: the fetch scenario cannot tell a failed upstream
    call from a successful one. *)
Theorem node_answers_pass_the_content_check :
  (forall endpoint (w : Node.World),
     exists toolResult,
       fst (Node.fetch_external_data endpoint w) = Success toolResult /\
       verdict content_check (ScenarioFacts.rpc_response 2 toolResult) = true /\
       isError (ScenarioFacts.rpc_response 2 toolResult) = Some false) /\
  (forall query delay (w : Node.World) toolResult,
     fst (Node.simulate_database_query query delay w) = Success toolResult ->
     verdict content_check (ScenarioFacts.rpc_response 2 toolResult) = true /\
     isError (ScenarioFacts.rpc_response 2 toolResult) = Some false).
Proof.
  split.
  - intros endpoint w. unfold Node.fetch_external_data.
    destruct (Node.fetch endpoint w) as [[status|message] w']; eexists;
      (split; [reflexivity|]); split; reflexivity.
  - intros query delay w toolResult. unfold Node.simulate_database_query.
    destruct ((_ <? 0) || (_ >? 5000)); cbn [fst]; [discriminate|].
    intros E. injection E as <-. split; reflexivity.
Qed.

(** The Go fetch handler makes its one request and always answers, a
    failed request included (status code 0 beside the error message).  When
    the clock has not gone back during the request, the response time it
    reports is the elapsed time in whole milliseconds, rounded down. *)
Theorem go_fetch_reports_whole_milliseconds (endpoint : string) (w : Go.World) :
  Go.time_Now w <= Go.time_Now (snd (Go.httpClient_Get endpoint w)) ->
  exists out,
    Go.handleFetchData endpoint w = (Success out, snd (Go.httpClient_Get endpoint w)) /\
    Go.URL out = endpoint /\
    (Go.Error out = "" \/ Go.StatusCode out = 0) /\
    0 <= Go.ResponseTimeMs out /\
    Go.ResponseTimeMs out * 1000000
    <= Go.time_Now (snd (Go.httpClient_Get endpoint w)) - Go.time_Now w
    < (Go.ResponseTimeMs out + 1) * 1000000.
Proof.
  unfold Go.handleFetchData, Go.since_ms, Go.Millisecond.
  destruct (Go.httpClient_Get endpoint w) as [got w']. cbn [snd]. intros Hclock.
  assert (Hq : 0 <= Z.quot (Go.time_Now w' - Go.time_Now w) 1000000
               /\ Z.quot (Go.time_Now w' - Go.time_Now w) 1000000 * 1000000
                  <= Go.time_Now w' - Go.time_Now w
                  < (Z.quot (Go.time_Now w' - Go.time_Now w) 1000000 + 1) * 1000000).
  { rewrite Z.quot_div_nonneg by lia.
    pose proof (Z.div_mod (Go.time_Now w' - Go.time_Now w) 1000000 ltac:(lia)) as Hdm.
    pose proof (Z.mod_pos_bound (Go.time_Now w' - Go.time_Now w) 1000000 ltac:(lia)) as Hm.
    pose proof (Z.div_pos (Go.time_Now w' - Go.time_Now w) 1000000 ltac:(lia) ltac:(lia)).
    lia. }
  destruct got as [code|message]; eexists; (split; [reflexivity|]); cbn;
    (split; [reflexivity|]); (split; [|exact Hq]); [left | right]; reflexivity.
Qed.

(** A failed upstream call is an answer in Go and in Node.js, which never
    fail; the Java handler fails exactly when its client throws something
    else than a [RestClientException], with that exception's message. *)
Theorem fetch_failures_are_answers (endpoint : string)
    (wg : Go.World) (wn : Node.World) (wj : Java.World) :
  (exists out, fst (Go.handleFetchData endpoint wg) = Success out) /\
  (exists toolResult, fst (Node.fetch_external_data endpoint wn) = Success toolResult) /\
  (forall message,
     fst (Java.fetchExternalData endpoint wj) = Failure message <->
     fst (Java.getForEntity endpoint wj) = Java.OtherException message).
Proof.
  unfold Go.handleFetchData, Node.fetch_external_data, Java.fetchExternalData.
  destruct (Go.httpClient_Get endpoint wg) as [[code|gm] wg'].
  all: destruct (Node.fetch endpoint wn) as [[status|nm] wn'].
  all: destruct (Java.getForEntity endpoint wj) as [[jc|jm|jm] wj']; cbn [fst].
  all: split; [eexists; reflexivity|]; split; [eexists; reflexivity|].
  all: intros message; split; intros E; try discriminate E.
  all: injection E as <-; reflexivity.
Qed.

End WithRuntimes.

(** *** Runtimes whose world is the clock *)

#[local] Instance go_clock : Go.Runtime :=
  {| Go.World := Z;
     Go.time_Now := fun w => w;
     Go.httpClient_Get := fun _ w => (Go.Errored "connection refused", w + 3000000);
     Go.time_Sleep := fun d w => w + d;
     Go.format_RFC3339 := fun _ => "2026-01-01T00:00:00Z" |}.

#[local] Instance node_clock : Node.Runtime :=
  {| Node.World := Z;
     Node.Date_now := fun w => w;
     Node.fetch := fun _ w => (inr "fetch failed", w + 3);
     Node.setTimeout := fun d w => w + d;
     Node.toISOString := fun _ => "2026-01-01T00:00:00.000Z" |}.

#[local] Instance java_clock : Java.Runtime :=
  {| Java.World := Z;
     Java.currentTimeMillis := fun w => w;
     Java.getForEntity := fun _ w => (Java.RestClientException "I/O error", w + 3);
     Java.Thread_sleep := fun d w => w + d;
     Java.Instant_now := fun _ => "2026-01-01T00:00:00Z" |}.

(** The database theorem at the scenario's delay of 10 ms and at 5001 ms. *)
Lemma database_query_handlers_agree_witness :
  (fst (Go.handleDatabaseQuery {| Go.Query := "SELECT 1"; Go.DelayMs := 5001 |} 0)
   = Failure "delay_ms deve estar entre 0 e 5000" /\
   snd (Java.simulateDatabaseQuery "SELECT 1" 5001 0) = 0) /\
  (snd (Go.handleDatabaseQuery {| Go.Query := "SELECT 1"; Go.DelayMs := 10 |} 0) = 10000000 /\
   snd (@Node.simulate_database_query Runs.table_json node_clock "SELECT 1" (Some 10) 0) = 10 /\
   snd (Java.simulateDatabaseQuery "SELECT 1" 10 0) = 10).
Proof.
  pose proof (@database_query_handlers_agree Runs.table_json go_clock node_clock java_clock
                "SELECT 1" 5001 0 0 0) as (Hout & _ & _).
  pose proof (@database_query_handlers_agree Runs.table_json go_clock node_clock java_clock
                "SELECT 1" 10 0 0 0) as (_ & Hin & _).
  destruct Hout as (Hg & _ & Hj); [right; lia|].
  destruct Hin as (Hg' & Hn' & Hj'); [lia|].
  rewrite Hg, Hj, Hg', Hn', Hj'. repeat split.
Defined.

(** The check theorem on the report of a fetch that failed. *)
Lemma node_answers_pass_the_content_check_witness :
  exists toolResult,
    fst (@Node.fetch_external_data Runs.table_json node_clock "http://mock-api:1080/api" 0)
    = Success toolResult /\
    verdict content_check (ScenarioFacts.rpc_response 2 toolResult) = true /\
    isError (ScenarioFacts.rpc_response 2 toolResult) = Some false.
Proof.
  exact (proj1 (@node_answers_pass_the_content_check Runs.table_json node_clock)
               "http://mock-api:1080/api" 0).
Defined.

(** The Go fetch theorem on a request that takes 3 ms. *)
Lemma go_fetch_reports_whole_milliseconds_witness :
  exists out,
    @Go.handleFetchData go_clock "http://mock-api:1080/api" 0 = (Success out, 3000000) /\
    Go.ResponseTimeMs out = 3.
Proof.
  destruct (@go_fetch_reports_whole_milliseconds go_clock "http://mock-api:1080/api" 0)
    as (out & E & _ & _ & Hpos & Hlo & Hhi); [simpl; lia|].
  exists out. split; [exact E|]. simpl in Hlo, Hhi. lia.
Defined.

(** The transform theorem on the benchmark's own data, which holds no array,
    with a Go runtime and a Java hash table that reverse the entries. *)
Lemma java_transform_skips_arrays_witness :
  HandlerLaws.alike
    (JObj (@Java.transformStrings Runs.java_reversed ServersFacts.benchmark_data))
    (@Node.transformStrings Runs.ascii_text (JObj ServersFacts.benchmark_data)) /\
  HandlerLaws.alike
    (@Go.transformStrings Runs.go_reversed (JObj ServersFacts.benchmark_data))
    (@Node.transformStrings Runs.ascii_text (JObj ServersFacts.benchmark_data)) /\
  @Go.transformStrings Runs.go_reversed (JObj ServersFacts.benchmark_data)
  = JObj [("nested", JObj [("key", JStr "VALUE")]); ("count", JNum 42);
          ("name", JStr "BENCHMARK")].
Proof.
  split; [|split; [|reflexivity]].
  all: apply (proj1 (@HandlerLaws.java_transform_skips_arrays
                       Runs.ascii_text Runs.go_reversed Runs.java_reversed
                       ServersFacts.benchmark_data));
    first [reflexivity | intros s _; reflexivity].
Defined.

End EffectLaws.

(* --------------------------------------------------------------------- *)
(** ** More on the orchestrator                                           *)
(* --------------------------------------------------------------------- *)
Module OrchestratorLaws.
Import Orchestrator OrchestratorFacts.
#[local] Open Scope list_scope.

(** [host:port] entries: the two expansions take the entry apart again. *)
Fixpoint no_colon (s : string) : bool :=
  match s with
  | EmptyString => true
  | String c rest => negb (Ascii.eqb c ":") && no_colon rest
  end.

Lemma after_colon_from_plain (s acc : string) :
  no_colon s = true -> after_colon_from s acc = acc.
Proof.
  revert acc. induction s as [|c s IH]; intros acc Hs; [reflexivity|].
  cbn [no_colon] in Hs. apply andb_prop in Hs. destruct Hs as [Hc Hs].
  apply negb_true_iff in Hc. cbn [after_colon_from]. rewrite Hc. apply IH. exact Hs.
Qed.

(** For a container name and a port without colon, the entry
    [container:port] is split back into its container and its port; the port
    is what follows the last colon even when the container name has colons. *)
Theorem entry_splits_back (container port : string) :
  no_colon port = true ->
  after_colon (container ++ ":" ++ port) = port /\
  (no_colon container = true -> before_colon (container ++ ":" ++ port) = container).
Proof.
  intros Hp. split.
  - unfold after_colon. generalize (container ++ ":" ++ port)%string at 2.
    induction container as [|c container IH]; intros acc.
    + cbn. apply after_colon_from_plain. exact Hp.
    + cbn [String.append after_colon_from]. destruct (Ascii.eqb c ":"); apply IH.
  - intros Hc. induction container as [|c container IH]; [reflexivity|].
    cbn [no_colon] in Hc. apply andb_prop in Hc. destruct Hc as [Hc Hrest].
    apply negb_true_iff in Hc. cbn [String.append before_colon]. rewrite Hc.
    f_equal. exact (IH Hrest).
Qed.

Lemma entry_splits_back_witness :
  after_colon "mcp-rust-server:8084" = "8084" /\
  before_colon "mcp-rust-server:8084" = "mcp-rust-server".
Proof.
  destruct (entry_splits_back "mcp-rust-server" "8084" eq_refl) as [Ha Hb].
  split; [exact Ha | exact (Hb eq_refl)].
Defined.

Section WithHost.
Context {H : Host}.

(** A name that is no key of [SERVERS] ends the script at once, with status
    1 and before any command: the targets listed after it are never run. *)
Theorem unknown_target_ends_the_script (name : string) (rest : list string) (s : St) :
  lookup name SERVERS = None ->
  benchmark_server name s = (Exited 1, s) /\
  benchmark_each (name :: rest) s = (Exited 1, s).
Proof.
  intros Hn. assert (E : benchmark_server name s = (Exited 1, s)).
  { unfold benchmark_server. rewrite Hn. reflexivity. }
  split; [exact E|]. cbn [benchmark_each]. unfold bind. rewrite E. reflexivity.
Qed.

(** *** The health wait *)

Lemma health_loop_bounded (rounds : nat) (elapsed : Z) (port name : string) :
  Z.of_nat rounds + elapsed = max_wait ->
  yields (health_loop rounds elapsed port name)
         (fun status evs =>
            calm evs /\
            ((status = 0 /\ (sleeps evs < rounds)%nat) \/
             (status = 1 /\ sleeps evs = rounds))).
Proof.
  revert elapsed. induction rounds as [|rounds IH]; intros elapsed Hinv; cbn [health_loop].
  - apply yields_ret. split; [apply calm_nil|]. right. split; reflexivity.
  - apply (yields_bind _ _ (fun _ evs => calm evs /\ sleeps evs = O)).
    { intros s.
      destruct (first_success_quiet (probes port) (probes_not_load port) s)
        as (b & s1 & e & E & Et & Hc).
      destruct (first_success_no_sleep port s) as (b' & s1' & e' & E' & Et' & Hs).
      rewrite E in E'. injection E' as <- <-.
      rewrite Et in Et'. apply app_inv_head in Et'. subst e'.
      exists b, s1, e. repeat split; assumption. }
    intros healthy e1 [He1 Hs1]. destruct healthy.
    + apply (yields_bind _ _ (fun _ evs => calm evs /\ sleeps evs = O)).
      { apply yields_say. split; [apply calm_one|]; reflexivity. }
      intros _ e2 [He2 Hs2]. apply yields_ret. rewrite app_nil_r, !sleeps_app, Hs1, Hs2.
      split; [apply calm_app; assumption|]. left. split; [reflexivity | lia].
    + apply (yields_bind _ _ (fun _ evs => evs = [Ran (SleepFor 1)])).
      { apply yields_run. reflexivity. }
      intros _ e2 ->.
      destruct (Z.geb_spec (elapsed + 1) max_wait) as [Hge|Hlt].
      * apply (yields_bind _ _ (fun _ evs => calm evs /\ sleeps evs = O)).
        { apply yields_say. split; [apply calm_one|]; reflexivity. }
        intros _ e3 [He3 Hs3]. apply yields_ret.
        rewrite app_nil_r, !sleeps_app, Hs1, Hs3. split.
        -- repeat apply calm_app; auto. apply calm_one. reflexivity.
        -- right. split; [reflexivity|]. cbn. unfold max_wait in *. lia.
      * eapply yields_weaken; [apply (IH (elapsed + 1)); lia|].
        cbn beta. intros status e3 (He3 & Hcase). rewrite !sleeps_app, Hs1. split.
        -- repeat apply calm_app; auto. apply calm_one. reflexivity.
        -- cbn. destruct Hcase as [[-> Hs]|[-> Hs]]; [left | right]; split;
             try reflexivity; lia.
Qed.

(** Whatever the target and the host do, the health wait returns, with 0 or
    with 1; it sleeps one second at most 60 times, returns 1 exactly when it
    has slept 60 times, and starts no warmup, sampling or load run. *)
Theorem wait_for_health_bounded (port name : string) (s : St) :
  exists status s' evs,
    wait_for_health port name s = (Done status, s') /\
    trace s' = trace s ++ evs /\
    calm evs /\
    ((status = 0 /\ (sleeps evs < 60)%nat) \/ (status = 1 /\ sleeps evs = 60%nat)).
Proof.
  assert (Hy : yields (wait_for_health port name)
                 (fun status evs =>
                    calm evs /\
                    ((status = 0 /\ (sleeps evs < 60)%nat) \/
                     (status = 1 /\ sleeps evs = 60%nat)))).
  { unfold wait_for_health.
    apply (yields_bind _ _ (fun _ evs => calm evs /\ sleeps evs = O)).
    { apply yields_say. split; [apply calm_one|]; reflexivity. }
    intros _ e1 [He1 Hs1].
    eapply yields_weaken; [apply (health_loop_bounded _ 0 port name); reflexivity|].
    cbn beta. intros status e2 (He2 & Hcase). rewrite sleeps_app, Hs1.
    split; [apply calm_app; assumption | exact Hcase]. }
  destruct (Hy s) as (status & s' & evs & E & Et & Hc & Hcase).
  exists status, s', evs. repeat split; assumption.
Qed.

(** A target whose /health answers is found ready at the first probe: the
    wait runs that one command, never sleeps, and reports 0 seconds. *)
Theorem healthy_target_is_ready_at_once (port name : string) (s : St) :
  fst (fst (exec (CurlGet (health_url port)) (host s))) = 0 ->
  exists h,
    wait_for_health port name s =
    (Done 0,
     {| host := h;
        trace := trace s
                 ++ [Said "INFO" ("Waiting for " ++ name ++ " to be ready (port "
                                  ++ port ++ ")...");
                     Ran (CurlGet (health_url port));
                     Said "OK" (name ++ " is ready (0s)")] |}).
Proof.
  intros Hok. unfold wait_for_health. change (Z.to_nat max_wait) with (S 59).
  cbn [health_loop probes first_success]. unfold bind, info, say, run. cbn [host trace].
  destruct (exec (CurlGet (health_url port)) (host s)) as [[status out] h] eqn:E.
  cbn [fst] in Hok. subst status. cbn [fst Z.eqb]. unfold ret, ok, say. cbn [host trace].
  exists h. rewrite <- !app_assoc. reflexivity.
Qed.

End WithHost.

Lemma unknown_target_ends_the_script_witness :
  @benchmark_each Runs.rust_down_host ["python3"; "go"] Runs.start
  = (Exited 1, Runs.start).
Proof.
  exact (proj2 (@unknown_target_ends_the_script Runs.rust_down_host "python3" ["go"]
                  Runs.start eq_refl)).
Defined.

Lemma healthy_target_is_ready_at_once_witness :
  exists h,
    @wait_for_health Runs.rust_down_host "8081" "go" Runs.start =
    (Done 0,
     {| host := h;
        trace := [Said "INFO" "Waiting for go to be ready (port 8081)...";
                  Ran (CurlGet "http://localhost:8081/health");
                  Said "OK" "go is ready (0s)"] |}).
Proof.
  exact (@healthy_target_is_ready_at_once Runs.rust_down_host "8081" "go" Runs.start
           eq_refl).
Defined.

(** *** The phases of a run *)

(** What a command does to the servers and to the measurement; the other
    commands and the printed lines are no phase. *)
Inductive Phase : Type :=
| StopAll
| Start (service : string)
| WarmInit (url : string)
| WarmSession (url : string)
| WarmExtract
| WarmCall (url : string)
| Sampling (container output : string)
| Load (url name output : string)
| StopSampling
| Reap
| Consolidated (dir : string).

Definition phase (e : Event) : list Phase :=
  match e with
  | Ran (ComposeStop _) => [StopAll]
  | Ran (ComposeUp service _) => [Start service]
  | Ran (CurlInitialize url client _ dump) =>
      if (client =? "warmup")%string
      then [if dump then WarmSession url else WarmInit url]
      else []
  | Ran (ExtractSessionId _) => [WarmExtract]
  | Ran (CurlToolCall url _) => [WarmCall url]
  | Ran (StatsCollector container output _) => [Sampling container output]
  | Ran (K6Run url name output _ _) => [Load url name output]
  | Ran (Kill _) => [StopSampling]
  | Ran (Wait _) => [Reap]
  | Ran (Consolidate dir) => [Consolidated dir]
  | _ => []
  end.

Definition phases (evs : list Event) : list Phase := flat_map phase evs.

Lemma phases_app (a b : list Event) : phases (a ++ b) = phases a ++ phases b.
Proof. apply flat_map_app. Qed.

Section Phases.
Context {H : Host}.

(** [emits m F]: [m] goes on with a value and phases that satisfy [F]. *)
Definition emits {A} (m : Sh A) (F : A -> list Phase -> Prop) : Prop :=
  yields m (fun a evs => F a (phases evs)).

(** [fixed m xs]: [m] goes on, and its phases are [xs] whatever the host does. *)
Definition fixed {A} (m : Sh A) (xs : list Phase) : Prop :=
  emits m (fun _ zs => zs = xs).

Lemma emits_ret {A} (a : A) (F : A -> list Phase -> Prop) : F a [] -> emits (ret a) F.
Proof. intros HF. apply yields_ret. exact HF. Qed.

Lemma emits_bind {A B} (m : Sh A) (k : A -> Sh B)
      (F1 : A -> list Phase -> Prop) (F : B -> list Phase -> Prop) :
  emits m F1 ->
  (forall a xs, F1 a xs -> emits (k a) (fun b ys => F b (xs ++ ys))) ->
  emits (bind m k) F.
Proof.
  intros Hm Hk. apply (yields_bind m k (fun a evs => F1 a (phases evs))); [exact Hm|].
  intros a e1 H1. apply (yields_weaken _ _ _ (Hk a (phases e1) H1)).
  intros b e2 HF. rewrite phases_app. exact HF.
Qed.

Lemma emits_weaken {A} (m : Sh A) (F F' : A -> list Phase -> Prop) :
  emits m F -> (forall a xs, F a xs -> F' a xs) -> emits m F'.
Proof. intros Hm Hw. apply (yields_weaken _ _ _ Hm). intros a evs. apply Hw. Qed.

Lemma emits_seq {A B} (m : Sh A) (k : A -> Sh B) (xs : list Phase)
      (F : B -> list Phase -> Prop) :
  fixed m xs ->
  (forall a, emits (k a) (fun b ys => F b (xs ++ ys))) ->
  emits (bind m k) F.
Proof.
  intros Hm Hk. apply (emits_bind m k (fun _ zs => zs = xs)); [exact Hm|].
  intros a zs ->. apply Hk.
Qed.

Lemma fixed_ret {A} (a : A) : fixed (ret a) [].
Proof. apply emits_ret. reflexivity. Qed.

Lemma fixed_say (level message : string) : fixed (say level message) [].
Proof. apply yields_say. reflexivity. Qed.

Lemma fixed_run (c : Command) : fixed (run c) (phase (Ran c)).
Proof. apply yields_run. intros h. apply app_nil_r. Qed.

Lemma fixed_bind {A B} (m : Sh A) (k : A -> Sh B) (xs ys : list Phase) :
  fixed m xs -> (forall a, fixed (k a) ys) -> fixed (bind m k) (xs ++ ys).
Proof.
  intros Hm Hk. apply (emits_seq m k xs); [exact Hm|].
  intros a. apply (emits_weaken (k a) (fun _ zs => zs = ys)); [exact (Hk a)|].
  intros _ zs ->. reflexivity.
Qed.

Lemma fixed_simple_ignored (c : Command) : fixed (simple false c) (phase (Ran c)).
Proof.
  unfold simple. rewrite <- (app_nil_r (phase (Ran c))).
  apply fixed_bind; [apply fixed_run|]. intros r. cbn [andb]. apply fixed_ret.
Qed.

(** A simple command that succeeds goes on, also under [set -e]. *)
Lemma fixed_simple_ok (errexit : bool) (c : Command) :
  (forall h, fst (fst (exec c h)) = 0) -> fixed (simple errexit c) (phase (Ran c)).
Proof.
  intros Hok. unfold simple.
  apply (emits_bind _ _ (fun r zs => fst r = 0 /\ zs = phase (Ran c))).
  { apply yields_run. intros h. split; [apply Hok | apply app_nil_r]. }
  intros r zs [-> ->]. cbn [Z.eqb negb]. rewrite andb_false_r.
  apply emits_ret. apply app_nil_r.
Qed.

Lemma fixed_repeat_n (n : nat) (body : Sh unit) (xs : list Phase) :
  fixed body xs -> fixed (repeat_n n body) (List.concat (repeat xs n)).
Proof.
  intros Hb. induction n as [|n IH]; cbn [repeat_n repeat List.concat].
  - apply fixed_ret.
  - apply fixed_bind; [exact Hb | intros _; exact IH].
Qed.

Lemma first_success_fixed (port : string) : fixed (first_success (probes port)) [].
Proof.
  unfold probes. cbn [first_success].
  apply (fixed_bind _ _ [] []); [apply (fixed_run (CurlGet _))|intros r1].
  destruct (fst r1 =? 0); [apply fixed_ret|].
  apply (fixed_bind _ _ [] []); [apply (fixed_run (CurlGet _))|intros r2].
  destruct (fst r2 =? 0); [apply fixed_ret|].
  apply (fixed_bind _ _ [] []);
    [apply (fixed_run (CurlInitialize _ "health" _ false))|intros r3].
  destruct (fst r3 =? 0); apply fixed_ret.
Qed.

Lemma health_loop_phases (rounds : nat) (elapsed : Z) (port name : string) :
  emits (health_loop rounds elapsed port name)
        (fun status zs => (status = 0 \/ status = 1) /\ zs = []).
Proof.
  revert elapsed. induction rounds as [|rounds IH]; intros elapsed; cbn [health_loop].
  - apply emits_ret. split; [right|]; reflexivity.
  - apply (emits_seq _ _ []); [apply first_success_fixed|]. intros healthy.
    cbn [app]. destruct healthy.
    + apply (emits_seq _ _ []); [apply fixed_say|]. intros _.
      apply emits_ret. split; [left|]; reflexivity.
    + apply (emits_seq _ _ []); [apply (fixed_run (SleepFor 1))|]. intros _. cbn [app].
      destruct (elapsed + 1 >=? max_wait).
      * apply (emits_seq _ _ []); [apply fixed_say|]. intros _.
        apply emits_ret. split; [right|]; reflexivity.
      * apply IH.
Qed.

Lemma wait_for_health_phases (port name : string) :
  emits (wait_for_health port name)
        (fun status zs => (status = 0 \/ status = 1) /\ zs = []).
Proof.
  unfold wait_for_health, info.
  apply (emits_seq _ _ []); [apply fixed_say|]. intros _. apply health_loop_phases.
Qed.

(** The warmup traffic: ten bare initialize requests, then five sessions of
    an initialize, the extraction of its session id and a tool call. *)
Definition warm (url : string) : list Phase :=
  repeat (WarmInit url) 10
  ++ List.concat (repeat [WarmSession url; WarmExtract; WarmCall url] 5).

Lemma warmup_call_fixed (url : string) :
  fixed (warmup_call url) [WarmSession url; WarmExtract; WarmCall url].
Proof.
  unfold warmup_call.
  apply (fixed_bind _ _ [WarmSession url] [WarmExtract; WarmCall url]);
    [apply (fixed_run (CurlInitialize url "warmup" None true))|intros r1].
  apply (fixed_bind _ _ [WarmExtract] [WarmCall url]);
    [apply (fixed_run (ExtractSessionId _))|intros r2].
  apply (fixed_bind _ _ [WarmCall url] []);
    [apply (fixed_run (CurlToolCall url _))|intros r3].
  apply fixed_ret.
Qed.

Lemma warmup_fixed (url name : string) : fixed (warmup url name) (warm url).
Proof.
  unfold warmup, info, ok.
  apply (fixed_bind _ _ [] (warm url)); [apply fixed_say|intros _].
  apply (fixed_bind _ _ (List.concat (repeat [WarmInit url] 10))
           (List.concat (repeat [WarmSession url; WarmExtract; WarmCall url] 5))).
  { apply fixed_repeat_n.
    apply (fixed_bind _ _ [WarmInit url] []);
      [apply (fixed_run (CurlInitialize url "warmup" None false))|intros _].
    apply fixed_ret. }
  intros _.
  rewrite <- (app_nil_r (List.concat (repeat [WarmSession url; WarmExtract; WarmCall url] 5))).
  apply fixed_bind; [|intros _; apply fixed_say].
  apply fixed_repeat_n. apply warmup_call_fixed.
Qed.

Lemma stop_all_servers_ignored_fixed : fixed (stop_all_servers false) [StopAll].
Proof.
  unfold stop_all_servers, info, ok.
  apply (fixed_bind _ _ [] [StopAll]); [apply fixed_say|intros _].
  apply (fixed_bind _ _ [] [StopAll]); [apply (fixed_simple_ignored (Cd _))|intros _].
  apply (fixed_bind _ _ [StopAll] []); [apply (fixed_run (ComposeStop _))|intros _].
  apply (fixed_bind _ _ [] []); [apply (fixed_simple_ignored (SleepFor 2))|intros _].
  apply fixed_say.
Qed.

Lemma start_server_fixed (service : string) : fixed (start_server service) [Start service].
Proof.
  unfold start_server, info.
  apply (fixed_bind _ _ [] [Start service]); [apply fixed_say|intros _].
  apply (fixed_bind _ _ [] [Start service]); [apply (fixed_run (Cd _))|intros _].
  apply (fixed_bind _ _ [Start service] []);
    [apply (fixed_run (ComposeUp service false))|intros r].
  apply fixed_ret.
Qed.

(** The measurement of a target: its warmup, the resource sampling started
    before the load run, and the sampler stopped and reaped after it. *)
Definition measurement (name : string) : list Phase :=
  match lookup name SERVERS with
  | None => []
  | Some container_port =>
      let url := mcp_url (after_colon container_port) in
      let server_results := (RESULTS_DIR ++ "/" ++ name)%string in
      warm url
      ++ [Sampling (before_colon container_port) (server_results ++ "/stats.json")%string;
          Load url name (server_results ++ "/k6.json")%string;
          StopSampling;
          Reap]
  end.

(** The phases of one target's pipeline, by its status. *)
Definition pipeline (name : string) (status : Z) : list Phase :=
  [StopAll; Start (name ++ "-server")%string]
  ++ (if status =? 0 then measurement name else []).

Lemma benchmark_server_emits (name : string) :
  configured name ->
  emits (benchmark_server name)
        (fun status zs => (status = 0 \/ status = 1) /\ zs = pipeline name status).
Proof.
  intros Hc. destruct (configured_lookup name Hc) as [cp Hcp].
  unfold pipeline, measurement, benchmark_server. rewrite Hcp.
  unfold echo, info, ok, error.
  apply (emits_seq _ _ []); [apply (fixed_run (Mkdir _))|intros _].
  do 5 (apply (emits_seq _ _ []); [apply fixed_say|intros _]).
  apply (emits_seq _ _ [StopAll]); [apply stop_all_servers_ignored_fixed|intros _].
  apply (emits_seq _ _ [Start (name ++ "-server")%string]); [apply start_server_fixed|intros _].
  apply (emits_bind _ _ (fun status zs => (status = 0 \/ status = 1) /\ zs = []));
    [apply wait_for_health_phases|].
  intros healthy zs [[->| ->] ->]; cbn [Z.eqb negb app].
  - apply (emits_seq _ _ (warm (mcp_url (after_colon cp)))); [apply warmup_fixed|intros _].
    apply (emits_seq _ _ []); [apply fixed_say|intros _].
    apply (emits_seq _ _ [Sampling (before_colon cp) ((RESULTS_DIR ++ "/" ++ name) ++ "/stats.json")%string]).
    { apply (fixed_run (StatsCollector _ _ _)). }
    intros stats.
    apply (emits_seq _ _ []); [apply (fixed_run (SleepFor 1))|intros _].
    apply (emits_seq _ _ []); [apply fixed_say|intros _].
    apply (emits_seq _ _ [Load (mcp_url (after_colon cp)) name
                               ((RESULTS_DIR ++ "/" ++ name) ++ "/k6.json")%string]).
    { apply (fixed_run (K6Run _ _ _ _ _)). }
    intros _.
    apply (emits_seq _ _ []); [apply fixed_say|intros _].
    apply (emits_seq _ _ [StopSampling]); [apply (fixed_run (Kill _))|intros _].
    apply (emits_seq _ _ [Reap]); [apply (fixed_run (Wait _))|intros _].
    apply (emits_seq _ _ []); [apply fixed_say|intros _].
    apply emits_ret. split; [left; reflexivity|].
    cbn [app]. reflexivity.
  - apply (emits_seq _ _ []); [apply fixed_say|intros _].
    apply emits_ret. split; [right; reflexivity|]. reflexivity.
Qed.

(** Whatever the host does, the pipeline of a configured target returns 0
    or 1 after stopping every server and starting the target's service, in
    that order.  With 1 nothing else was done to the servers; with 0 the
    measurement followed: ten warmup initializes, five warmup sessions, the
    sampler started before the one load run, then stopped and reaped. *)
Theorem benchmark_server_phases (name : string) (s : St) :
  configured name ->
  exists status s' seg,
    benchmark_server name s = (Done status, s') /\
    trace s' = trace s ++ seg /\
    (status = 0 \/ status = 1) /\
    phases seg = pipeline name status.
Proof.
  intros Hc.
  destruct (benchmark_server_emits name Hc s) as (status & s' & seg & E & Et & Hst & Hp).
  exists status, s', seg. repeat split; assumption.
Qed.

(** The pipelines of a list of targets, given their statuses. *)
Definition pipelines (ts : list string) (statuses : list Z) : list Phase :=
  List.concat (map (fun p => pipeline (fst p) (snd p)) (combine ts statuses)).

Lemma benchmark_each_emits (ts : list string) :
  Forall configured ts ->
  emits (benchmark_each ts)
        (fun _ zs => exists statuses,
             List.length statuses = List.length ts /\
             Forall (fun status => status = 0 \/ status = 1) statuses /\
             zs = pipelines ts statuses).
Proof.
  induction 1 as [|name rest Hc Hrest IH]; cbn [benchmark_each].
  - apply emits_ret. exists []. repeat split. constructor.
  - apply (emits_bind _ _ _ _ (benchmark_server_emits name Hc)).
    intros status xs [Hst ->].
    apply (emits_seq _ _ []).
    { destruct (status =? 0); [apply fixed_ret | apply fixed_say]. }
    intros _. apply (emits_weaken _ _ _ IH).
    intros _ ys (statuses & Hlen & Hall & ->).
    exists (status :: statuses). split; [cbn; congruence|]. split.
    + constructor; assumption.
    + reflexivity.
Qed.

(** The commands the script needs around the targets succeed: directories,
    sleeps, the mock API's start and status, the consolidation. *)
Definition infrastructure (c : Command) : bool :=
  match c with
  | Mkdir _ | Cd _ | SleepFor _ | CurlPut _ | Consolidate _ => true
  | ComposeUp _ force_recreate => force_recreate
  | _ => false
  end.

Definition steady : Prop :=
  forall c h, infrastructure c = true -> fst (fst (exec c h)) = 0.

Lemma mock_api_ready :
  steady ->
  emits (wait_for_mock_api true) (fun ready zs => ready = 0 /\ zs = []).
Proof.
  intros Hs. unfold wait_for_mock_api, info.
  apply (emits_seq _ _ []); [apply fixed_say|intros _].
  change 60%nat with (S 59). cbn [mock_api_loop].
  apply (emits_bind _ _ (fun r zs => fst r = 0 /\ zs = [])).
  { apply yields_run. intros h. split; [apply Hs|]; reflexivity. }
  intros r zs [-> ->]. cbn [Z.eqb]. unfold ok.
  apply (emits_seq _ _ []); [apply fixed_say|intros _].
  apply emits_ret. split; reflexivity.
Qed.

Lemma stop_all_servers_steady (errexit : bool) :
  steady -> fixed (stop_all_servers errexit) [StopAll].
Proof.
  intros Hs. unfold stop_all_servers, info, ok.
  apply (fixed_bind _ _ [] [StopAll]); [apply fixed_say|intros _].
  apply (fixed_bind _ _ [] [StopAll]);
    [apply (fixed_simple_ok errexit (Cd _)); intros h; apply Hs; reflexivity|intros _].
  apply (fixed_bind _ _ [StopAll] []); [apply (fixed_run (ComposeStop _))|intros _].
  apply (fixed_bind _ _ [] []);
    [apply (fixed_simple_ok errexit (SleepFor 2)); intros h; apply Hs; reflexivity
    |intros _].
  apply fixed_say.
Qed.

(** With the infrastructure working, the script runs to its end whatever
    the targets do: the mock API is started first, each of rust, java and go
    then gets its pipeline, in that order and with status 0 or 1, and
    only after the last one are all servers stopped and the results
    consolidated, once. *)
Theorem main_consolidates_after_every_target (s : St) :
  steady ->
  exists s' evs statuses,
    main s = (Done tt, s') /\
    trace s' = trace s ++ evs /\
    List.length statuses = 3%nat /\
    Forall (fun status => status = 0 \/ status = 1) statuses /\
    phases evs =
    [Start "mock-api"] ++ pipelines targets statuses
    ++ [StopAll; Consolidated RESULTS_DIR].
Proof.
  intros Hs.
  assert (Hm : emits main
                 (fun _ zs => exists statuses,
                      List.length statuses = 3%nat /\
                      Forall (fun status => status = 0 \/ status = 1) statuses /\
                      zs = [Start "mock-api"] ++ pipelines targets statuses
                           ++ [StopAll; Consolidated RESULTS_DIR])).
  { unfold main, echo, info.
    do 9 (apply (emits_seq _ _ []); [apply fixed_say|intros _]).
    apply (emits_seq _ _ []);
      [apply (fixed_simple_ok true (Mkdir _)); intros h; apply Hs; reflexivity|intros _].
    apply (emits_seq _ _ []); [apply fixed_say|intros _].
    apply (emits_seq _ _ []);
      [apply (fixed_simple_ok true (Cd _)); intros h; apply Hs; reflexivity|intros _].
    apply (emits_seq _ _ [Start "mock-api"]);
      [apply (fixed_simple_ok true (ComposeUp "mock-api" true)); intros h; apply Hs;
       reflexivity|intros _].
    apply (emits_bind _ _ _ _ (mock_api_ready Hs)). intros ready zs [-> ->].
    cbn [Z.eqb app].
    apply (emits_seq _ _ []); [apply fixed_ret|intros _].
    apply (emits_bind _ _ _ _ (benchmark_each_emits targets targets_configured)).
    intros _ zs (statuses & Hlen & Hall & ->).
    apply (emits_seq _ _ [StopAll]); [apply stop_all_servers_steady; exact Hs|intros _].
    do 2 (apply (emits_seq _ _ []); [apply fixed_say|intros _]).
    apply (emits_seq _ _ [Consolidated RESULTS_DIR]);
      [apply (fixed_simple_ok true (Consolidate _)); intros h; apply Hs; reflexivity
      |intros _].
    do 6 (apply (emits_seq _ _ []); [apply fixed_say|intros _]).
    apply (emits_weaken _ (fun _ zs => zs = [])); [apply fixed_say|].
    intros _ zs ->. exists statuses. split; [exact Hlen|]. split; [exact Hall|].
    cbn [app]. reflexivity. }
  destruct (Hm s) as ([] & s' & evs & E & Et & statuses & Hlen & Hall & Hp).
  exists s', evs, statuses. repeat split; assumption.
Qed.

(** *** Runs that end early *)

(** The events touch no target: at most the mock API is started. *)
Definition untouched (evs : list Event) : Prop :=
  Forall (fun p => p = Start "mock-api") (phases evs).

Lemma untouched_app (a b : list Event) : untouched a -> untouched b -> untouched (a ++ b).
Proof. unfold untouched. rewrite phases_app. intros Ha Hb. apply Forall_app. split; assumption. Qed.

Lemma untouched_nil : untouched [].
Proof. constructor. Qed.

(** [stops m Q]: [m] touches no target, and either goes on with a value
    satisfying [Q] or ends the script with a status other than 0. *)
Definition stops {A} (m : Sh A) (Q : A -> Prop) : Prop :=
  forall s, exists o s' evs,
    m s = (o, s') /\ trace s' = trace s ++ evs /\ untouched evs /\
    match o with Done a => Q a | Exited code => code <> 0 end.

Lemma stops_ret {A} (a : A) (Q : A -> Prop) : Q a -> stops (ret a) Q.
Proof.
  intros HQ s. exists (Done a), s, []. rewrite app_nil_r.
  repeat split; [apply untouched_nil | exact HQ].
Qed.

Lemma stops_exit {A} (code : Z) (Q : A -> Prop) : code <> 0 -> stops (exit code) Q.
Proof.
  intros Hc s. exists (Exited code), s, []. rewrite app_nil_r.
  repeat split; [apply untouched_nil | exact Hc].
Qed.

Lemma stops_bind {A B} (m : Sh A) (k : A -> Sh B) (Q1 : A -> Prop) (Q : B -> Prop) :
  stops m Q1 -> (forall a, Q1 a -> stops (k a) Q) -> stops (bind m k) Q.
Proof.
  intros Hm Hk s. destruct (Hm s) as (o & s1 & e1 & Em & Et & Hu & Ho).
  unfold bind. rewrite Em. destruct o as [a|code].
  - destruct (Hk a Ho s1) as (o2 & s2 & e2 & Ek & Et2 & Hu2 & Ho2).
    exists o2, s2, (e1 ++ e2). rewrite Ek. repeat split.
    + rewrite Et2, Et, app_assoc. reflexivity.
    + apply untouched_app; assumption.
    + exact Ho2.
  - exists (Exited code), s1, e1. repeat split; assumption.
Qed.

Lemma stops_say (level message : string) : stops (say level message) (fun _ => True).
Proof.
  intros s. exists (Done tt). eexists. exists [Said level message].
  unfold say. repeat split. constructor.
Qed.

Lemma stops_run (c : Command) (Q : Z * string -> Prop) :
  untouched [Ran c] -> (forall h, Q (fst (exec c h))) -> stops (run c) Q.
Proof.
  intros Hu HQ s. unfold run. specialize (HQ (host s)).
  destruct (exec c (host s)) as [r h]. exists (Done r). eexists. exists [Ran c].
  repeat split; assumption.
Qed.

Lemma stops_simple (c : Command) :
  untouched [Ran c] -> stops (simple true c) (fun _ => True).
Proof.
  intros Hu. unfold simple.
  apply (stops_bind _ _ (fun _ => True)); [apply stops_run; trivial|].
  intros r _. cbn [andb]. destruct (Z.eqb_spec (fst r) 0) as [E|E]; cbn [negb].
  - apply stops_ret. exact I.
  - apply stops_exit. exact E.
Qed.

Definition mock_api_down : Prop :=
  forall h, fst (fst (exec (CurlPut "http://localhost:1080/mockserver/status") h)) <> 0.

Lemma mock_api_loop_stops (rounds : nat) (elapsed : Z) :
  mock_api_down ->
  stops (mock_api_loop true rounds elapsed) (fun ready => ready = 1).
Proof.
  intros Hd. revert elapsed. induction rounds as [|rounds IH]; intros elapsed;
    cbn [mock_api_loop].
  - apply stops_ret. reflexivity.
  - apply (stops_bind _ _ (fun r => fst r <> 0)).
    { apply stops_run; [constructor | exact Hd]. }
    intros r Hr. apply Z.eqb_neq in Hr. rewrite Hr.
    apply (stops_bind _ _ (fun _ => True)); [apply stops_simple; constructor|].
    intros _ _. destruct (elapsed + 1 >=? 60).
    + apply (stops_bind _ _ (fun _ => True)); [apply stops_say|].
      intros _ _. apply stops_ret. reflexivity.
    + apply IH.
Qed.

(** When the mock API never reports ready, the script ends with a status
    other than 0 and has touched no target: no server was stopped or started
    besides the mock API, nothing was measured and nothing consolidated. *)
Theorem main_gives_up_without_mock_api (s : St) :
  mock_api_down ->
  exists code s' evs,
    main s = (Exited code, s') /\
    code <> 0 /\
    trace s' = trace s ++ evs /\
    untouched evs.
Proof.
  intros Hd.
  assert (Hm : stops main (fun _ => False)).
  { unfold main, echo, info.
    do 9 (apply (stops_bind _ _ (fun _ => True)); [apply stops_say|intros _ _]).
    apply (stops_bind _ _ (fun _ => True)); [apply stops_simple; constructor|intros _ _].
    apply (stops_bind _ _ (fun _ => True)); [apply stops_say|intros _ _].
    apply (stops_bind _ _ (fun _ => True)); [apply stops_simple; constructor|intros _ _].
    apply (stops_bind _ _ (fun _ => True)).
    { apply stops_simple. repeat constructor. }
    intros _ _.
    apply (stops_bind _ _ (fun ready => ready = 1)).
    { unfold wait_for_mock_api, info.
      apply (stops_bind _ _ (fun _ => True)); [apply stops_say|intros _ _].
      apply mock_api_loop_stops. exact Hd. }
    intros ready ->. cbn [Z.eqb].
    apply (stops_bind _ _ (fun _ => False)); [apply stops_exit; discriminate|].
    intros _ []. }
  destruct (Hm s) as (o & s' & evs & E & Et & Hu & Ho).
  destruct o as [a|code]; [destruct Ho|].
  exists code, s', evs. repeat split; assumption.
Qed.

End Phases.

(** The theorems on a host where every command succeeds but the probes of
    port 8084. *)
Lemma rust_down_steady : @steady Runs.rust_down_host.
Proof. intros c h Hc. destruct c; try discriminate Hc; reflexivity. Qed.

Lemma benchmark_server_phases_witness :
  exists status s' seg,
    @benchmark_server Runs.rust_down_host "go" Runs.start = (Done status, s') /\
    trace s' = trace Runs.start ++ seg /\
    (status = 0 \/ status = 1) /\
    phases seg = @pipeline Runs.rust_down_host "go" status.
Proof.
  apply (@benchmark_server_phases Runs.rust_down_host "go" Runs.start).
  unfold configured. simpl. tauto.
Defined.

Lemma main_consolidates_after_every_target_witness :
  exists s' evs statuses,
    @main Runs.rust_down_host Runs.start = (Done tt, s') /\
    trace s' = trace Runs.start ++ evs /\
    List.length statuses = 3%nat /\
    Forall (fun status => status = 0 \/ status = 1) statuses /\
    phases evs =
    [Start "mock-api"] ++ @pipelines Runs.rust_down_host targets statuses
    ++ [StopAll; Consolidated (@RESULTS_DIR Runs.rust_down_host)].
Proof.
  exact (@main_consolidates_after_every_target Runs.rust_down_host Runs.start
           rust_down_steady).
Defined.

(** A host whose mock API never comes up; every other command succeeds. *)
#[local] Instance mock_down_host : Host :=
  {| HostState := unit;
     exec := fun c h => match c with
                        | CurlPut _ => (7, "", tt)
                        | _ => (0, "", tt)
                        end;
     SCRIPT_DIR := "/bench";
     PROJECT_DIR := "/";
     TIMESTAMP := "20260101_000000";
     upper := upper_ascii |}.

Definition mock_down_start : @St mock_down_host := @Build_St mock_down_host tt [].

Lemma main_gives_up_without_mock_api_witness :
  exists code s' evs,
    @main mock_down_host mock_down_start = (Exited code, s') /\
    code <> 0 /\
    trace s' = trace mock_down_start ++ evs /\
    untouched evs.
Proof.
  apply (@main_gives_up_without_mock_api mock_down_host mock_down_start).
  intros h. simpl. discriminate.
Defined.

End OrchestratorLaws.
